(** * KYC validation layer ([app/validator.py]): a shallow embedding

    The validator receives the record produced by the extractor (the result
    of [json.loads]): a tree of nulls, booleans, integers, binary64 floats,
    text, lists and string-keyed dictionaries.  Because the tree comes out of
    a JSON parser no two nodes are shared, so an in-place update of one
    section is modelled as a functional update of that section.

    Failing operations of the source language (attribute access on a
    non-dictionary, ordering a text against a number, an integer too large
    for a float, ...) are kept: every function that can raise returns in
    the [res] monad.  Floats are the binary64 numbers of [SpecFloat], so
    that the concentration percentage is the rounded value the program
    compares with its thresholds.  The clock, [int] applied to text and the
    conversions of floats and containers to text are services of a
    [runtime] that every check receives.

    The callers of the validator are embedded as far as they handle the
    record and the report: [ValidationResult.to_dict], the subject line of
    [send_kyc_email] and [fmt_currency] ([app/emailer.py]), the field
    mapping of the individual form ([app/pdf_filler.py]) and the sequence
    of calls of [process_kyc_background] ([app/main.py]), whose services
    outside these modules are variables of a section. *)

From Stdlib Require Import ZArith String Ascii List Bool Lia.
From Stdlib Require Import Floats.SpecFloat.
From Stdlib Require Import DecimalString.
From stdpp Require Import base option list gmap strings.

Set Warnings "-register-all".

Local Open Scope string_scope.
Local Open Scope Z_scope.

(** ** Values of the record *)

Inductive value :=
| VNone
| VBool (b : bool)
| VInt (z : Z)
| VFloat (f : spec_float)
| VStr (s : string)
| VList (l : list value)
| VDict (d : gmap string value).

(** ** Exceptions and the error monad *)

Inductive exn :=
| AttributeError | TypeError | ValueError | OverflowError | ZeroDivisionError.

Inductive res (A : Type) :=
| Ok (a : A)
| Raise (e : exn).
Arguments Ok {A} a.
Arguments Raise {A} e.

Definition bind {A B} (m : res A) (k : A -> res B) : res B :=
  match m with
  | Ok a => k a
  | Raise e => Raise e
  end.

Notation "'let*' x ':=' m 'in' k" := (bind m (fun x => k))
  (at level 10, x name, m at level 100, k at level 200).
Notation "'let*' ' p ':=' m 'in' k" :=
  (bind m (fun x => match x with p => k end))
  (at level 10, p pattern, m at level 100, k at level 200).

(** ** binary64 arithmetic of the source language *)

Definition f64_prec : Z := 53.
Definition f64_emax : Z := 1024.

Definition f64_add := SFadd f64_prec f64_emax.
Definition f64_sub := SFsub f64_prec f64_emax.
Definition f64_mul := SFmul f64_prec f64_emax.
Definition f64_div := SFdiv f64_prec f64_emax.

Definition f64_is_zero (f : spec_float) : bool :=
  match f with S754_zero _ => true | _ => false end.

Definition f64_is_inf (f : spec_float) : bool :=
  match f with S754_infinity _ => true | _ => false end.

(** An integer written as an (unrounded) binary fraction with exponent 0. *)
Definition f64_raw (z : Z) : spec_float :=
  match z with
  | Z0 => S754_zero false
  | Zpos p => S754_finite false p 0
  | Zneg p => S754_finite true p 0
  end.

(** [float(z)]: round to nearest, ties to even; [OverflowError] when the
    rounded value does not fit. *)
Definition float_of_int (z : Z) : res spec_float :=
  let f := binary_normalize f64_prec f64_emax z 0 false in
  if f64_is_inf f then Raise OverflowError else Ok f.

(** [a / b] on two integers: the correctly rounded quotient. *)
Definition int_truediv (a b : Z) : res spec_float :=
  if b =? 0 then Raise ZeroDivisionError
  else
    let f := f64_div (f64_raw a) (f64_raw b) in
    if f64_is_inf f then Raise OverflowError else Ok f.

(** [x / y] on two floats. *)
Definition float_truediv (x y : spec_float) : res spec_float :=
  if f64_is_zero y then Raise ZeroDivisionError else Ok (f64_div x y).

(** Exact comparison of a float with an integer (no conversion of the
    integer); [None] for a NaN, which is unordered. *)
Definition float_cmp_int (f : spec_float) (z : Z) : option comparison :=
  match f with
  | S754_nan => None
  | S754_infinity s => Some (if s then Lt else Gt)
  | S754_zero _ => Some (0 ?= z)
  | S754_finite s m e =>
      let v := cond_Zopp s (Zpos m) in
      if 0 <=? e then Some (v * 2 ^ e ?= z)
      else Some (v ?= z * 2 ^ (- e))
  end.

Definition float_ge_int (f : spec_float) (z : Z) : bool :=
  match float_cmp_int f z with Some (Gt | Eq) => true | _ => false end.
Definition float_gt_int (f : spec_float) (z : Z) : bool :=
  match float_cmp_int f z with Some Gt => true | _ => false end.
Definition float_lt_int (f : spec_float) (z : Z) : bool :=
  match float_cmp_int f z with Some Lt => true | _ => false end.

(** ** Numbers: [int], [float], and [bool] as a subtype of [int] *)

Inductive num :=
| NInt (z : Z)
| NFloat (f : spec_float).

Definition as_num (v : value) : option num :=
  match v with
  | VBool b => Some (NInt (if b then 1 else 0))
  | VInt z => Some (NInt z)
  | VFloat f => Some (NFloat f)
  | _ => None
  end.

(** Truth value of an object ([bool(v)]). *)
Definition truthy (v : value) : bool :=
  match v with
  | VNone => false
  | VBool b => b
  | VInt z => negb (z =? 0)
  | VFloat f => negb (f64_is_zero f)
  | VStr s => negb (String.eqb s "")
  | VList l => match l with [] => false | _ => true end
  | VDict d => negb (bool_decide (d = ∅))
  end.

(** [v or 0] *)
Definition or_zero (v : value) : value :=
  if truthy v then v else VInt 0.

(** [v == s] for a text literal [s]: never raises. *)
Definition eq_str (v : value) (s : string) : bool :=
  match v with VStr t => String.eqb t s | _ => false end.

(** [v >= c], [v > c], [v < c] against an integer literal. *)
Definition py_ge (v : value) (c : Z) : res bool :=
  match as_num v with
  | Some (NInt z) => Ok (c <=? z)
  | Some (NFloat f) => Ok (float_ge_int f c)
  | None => Raise TypeError
  end.

Definition py_gt (v : value) (c : Z) : res bool :=
  match as_num v with
  | Some (NInt z) => Ok (c <? z)
  | Some (NFloat f) => Ok (float_gt_int f c)
  | None => Raise TypeError
  end.

Definition py_lt (v : value) (c : Z) : res bool :=
  match as_num v with
  | Some (NInt z) => Ok (z <? c)
  | Some (NFloat f) => Ok (float_lt_int f c)
  | None => Raise TypeError
  end.

(** [a + b] *)
Definition py_add (a b : value) : res value :=
  match as_num a, as_num b with
  | Some (NInt x), Some (NInt y) => Ok (VInt (x + y))
  | Some (NInt x), Some (NFloat g) =>
      let* f := float_of_int x in Ok (VFloat (f64_add f g))
  | Some (NFloat f), Some (NInt y) =>
      let* g := float_of_int y in Ok (VFloat (f64_add f g))
  | Some (NFloat f), Some (NFloat g) => Ok (VFloat (f64_add f g))
  | _, _ =>
      match a, b with
      | VStr s, VStr t => Ok (VStr (s +:+ t))
      | VList l, VList k => Ok (VList (l ++ k))
      | _, _ => Raise TypeError
      end
  end.

(** [a - c] for an integer [c] *)
Definition py_sub_int (a : value) (c : Z) : res value :=
  match as_num a with
  | Some (NInt x) => Ok (VInt (x - c))
  | Some (NFloat f) => let* g := float_of_int c in Ok (VFloat (f64_sub f g))
  | None => Raise TypeError
  end.

(** [a / b] (true division) *)
Definition py_truediv (a b : value) : res spec_float :=
  match as_num a, as_num b with
  | Some (NInt x), Some (NInt y) => int_truediv x y
  | Some (NInt x), Some (NFloat g) => let* f := float_of_int x in float_truediv f g
  | Some (NFloat f), Some (NInt y) => let* g := float_of_int y in float_truediv f g
  | Some (NFloat f), Some (NFloat g) => float_truediv f g
  | _, _ => Raise TypeError
  end.

(** [f * c] for a float [f] and an integer literal [c] *)
Definition float_mul_int (f : spec_float) (c : Z) : res spec_float :=
  let* g := float_of_int c in Ok (f64_mul f g).

(** ** Text helpers *)

(** [s.split(c)] for a one-character separator. *)
Fixpoint split_on (c : ascii) (s : string) : list string :=
  match s with
  | EmptyString => [EmptyString]
  | String a s' =>
      if Ascii.eqb a c then EmptyString :: split_on c s'
      else match split_on c s' with
           | w :: ws => String a w :: ws
           | [] => [String a EmptyString]
           end
  end.

(** [str(z)] for an integer. *)
Definition str_of_int (z : Z) : string :=
  NilZero.string_of_int (Z.to_int z).

(** Insert a comma after every third digit of a reversed digit sequence;
    [n] counts the digits already emitted in the current group. *)
Fixpoint group3 (n : nat) (l : list ascii) : list ascii :=
  match l with
  | [] => []
  | d :: rest =>
      match n with
      | 3%nat => ","%char :: d :: group3 1 rest
      | _ => d :: group3 (S n) rest
      end
  end.

(** [format(z, ",")] for an integer. *)
Definition int_comma (z : Z) : string :=
  let digits := list_ascii_of_string (str_of_int (Z.abs z)) in
  let grouped := string_of_list_ascii (rev (group3 0 (rev digits))) in
  if z <? 0 then "-" +:+ grouped else grouped.

(** The integer nearest to [num / den] ([den > 0]), ties to even. *)
Definition round_half_even (num den : Z) : Z :=
  let q := num / den in
  let r := num mod den in
  match 2 * r ?= den with
  | Lt => q
  | Gt => q + 1
  | Eq => if Z.even q then q else q + 1
  end.

(** [format(x, ".1f")]: the exact value of [x] rounded to one decimal. *)
Definition format_float_1f (x : spec_float) : string :=
  match x with
  | S754_nan => "nan"
  | S754_infinity s => if s then "-inf" else "inf"
  | S754_zero s => if s then "-0.0" else "0.0"
  | S754_finite s m e =>
      let tenths :=
        if 0 <=? e then 10 * Zpos m * 2 ^ e
        else round_half_even (10 * Zpos m) (2 ^ (- e)) in
      (if s then "-" else "") +:+
      str_of_int (tenths / 10) +:+ "." +:+ str_of_int (tenths mod 10)
  end.

(** ** Services of the language runtime

    The clock and the text conversions whose exact output no rule of the
    validator inspects are taken from the environment. *)
Record runtime := {
  now_year : Z;                              (* datetime.datetime.now().year *)
  now_year_range :                           (* MINYEAR <= year <= MAXYEAR *)
    (1 <=? now_year) && (now_year <=? 9999) = true;
  int_of_text : string -> option Z;          (* int(s); None is ValueError *)
  repr_value : value -> string;              (* str(v) of a float, list, dict *)
  format_float_comma : spec_float -> string; (* format(x, ",") *)
}.

(** [str(v)], as used by a replacement field without format spec. *)
Definition py_str (rt : runtime) (v : value) : string :=
  match v with
  | VNone => "None"
  | VBool true => "True"
  | VBool false => "False"
  | VInt z => str_of_int z
  | VStr s => s
  | _ => repr_value rt v
  end.

(** [format(v, ",")] *)
Definition format_comma (rt : runtime) (v : value) : res string :=
  match v with
  | VInt z => Ok (int_comma z)
  | VBool b => Ok (if b then "1" else "0")
  | VFloat f => Ok (format_float_comma rt f)
  | VStr _ => Raise ValueError
  | _ => Raise TypeError
  end.

(** ** Dictionary access *)

(** [v.get(k)] and [v.get(k, dflt)]: only a dictionary has [get]. *)
Definition py_get_default (v : value) (k : string) (dflt : value) : res value :=
  match v with
  | VDict d => Ok (default dflt (d !! k))
  | _ => Raise AttributeError
  end.

Definition py_get (v : value) (k : string) : res value :=
  py_get_default v k VNone.

(** [v.get(k) or 0] *)
Definition get_or_zero (v : value) (k : string) : res value :=
  let* x := py_get v k in Ok (or_zero x).

(** [data.get(k, {})] on the record itself. *)
Definition section_of (data : gmap string value) (k : string) : value :=
  default (VDict ∅) (data !! k).

(** ** The validation report *)

Record ValidationResult := {
  is_valid : bool;
  exemption_status : string;
  red_flags : list string;
  warnings : list string;
  missing_required : list string;
  suitability_concerns : list string;
  follow_up_needed : bool;
}.

Definition new_result : ValidationResult :=
  {| is_valid := true; exemption_status := "UNKNOWN"; red_flags := [];
     warnings := []; missing_required := []; suitability_concerns := [];
     follow_up_needed := false |}.

Definition add_red_flag (r : ValidationResult) (s : string) :=
  {| is_valid := is_valid r; exemption_status := exemption_status r;
     red_flags := red_flags r ++ [s]; warnings := warnings r;
     missing_required := missing_required r;
     suitability_concerns := suitability_concerns r;
     follow_up_needed := follow_up_needed r |}.

Definition add_warning (r : ValidationResult) (s : string) :=
  {| is_valid := is_valid r; exemption_status := exemption_status r;
     red_flags := red_flags r; warnings := warnings r ++ [s];
     missing_required := missing_required r;
     suitability_concerns := suitability_concerns r;
     follow_up_needed := follow_up_needed r |}.

Definition add_missing (r : ValidationResult) (s : string) :=
  {| is_valid := is_valid r; exemption_status := exemption_status r;
     red_flags := red_flags r; warnings := warnings r;
     missing_required := missing_required r ++ [s];
     suitability_concerns := suitability_concerns r;
     follow_up_needed := follow_up_needed r |}.

Definition add_concern (r : ValidationResult) (s : string) :=
  {| is_valid := is_valid r; exemption_status := exemption_status r;
     red_flags := red_flags r; warnings := warnings r;
     missing_required := missing_required r;
     suitability_concerns := suitability_concerns r ++ [s];
     follow_up_needed := follow_up_needed r |}.

Definition set_exemption (r : ValidationResult) (s : string) :=
  {| is_valid := is_valid r; exemption_status := s;
     red_flags := red_flags r; warnings := warnings r;
     missing_required := missing_required r;
     suitability_concerns := suitability_concerns r;
     follow_up_needed := follow_up_needed r |}.

(** ** [KYCValidator]: class constants *)

Definition REQUIRED_FIELDS : gmap string (list string) :=
  {[ "individual" :=
       [ "client_name.first"; "client_name.last"; "address.city";
         "address.province"; "contact.email"; "personal.dob";
         "employment.occupation"; "financials.annual_income";
         "financials.net_financial_assets";
         "investment_profile.risk_tolerance";
         "investment_profile.time_horizon";
         "investment_profile.investment_objective" ];
     "corporate" :=
       [ "corporate_name"; "business_number"; "authorized_persons";
         "financials.annual_income"; "financials.net_assets" ];
     "trade" :=
       [ "client_name"; "investment_details.issuer";
         "investment_details.amount"; "investment_details.source_of_funds" ]
  ]}.

Definition ACCREDITED_INCOME_SINGLE : Z := 200000.
Definition ACCREDITED_INCOME_JOINT : Z := 300000.
Definition ACCREDITED_NFA : Z := 1000000.
Definition ACCREDITED_NET_ASSETS : Z := 5000000.

Definition ELIGIBLE_INCOME_SINGLE : Z := 75000.
Definition ELIGIBLE_INCOME_JOINT : Z := 125000.
Definition ELIGIBLE_NET_ASSETS : Z := 400000.

(** ** [_get_nested] *)

Definition is_dict (v : value) : bool :=
  match v with VDict _ => true | _ => false end.

(** The loop over the keys of the path: a node that is not a dictionary
    ends the walk with [None] before [get] is ever called on it. *)
Fixpoint get_keys (v : value) (keys : list string) : res value :=
  match keys with
  | [] => Ok v
  | key :: rest =>
      if is_dict v then
        let* v' := py_get v key in
        get_keys v' rest
      else Ok VNone
  end.

Definition _get_nested (data : value) (path : string) : res value :=
  get_keys data (split_on "."%char path).

(** ** [_check_required_fields] *)

(** [value is None or value == ""] *)
Definition not_provided (v : value) : bool :=
  match v with
  | VNone => true
  | _ => eq_str v ""
  end.

(** [REQUIRED_FIELDS.get(form_type, [])] *)
Definition required_for (form_type : string) : list string :=
  default [] (REQUIRED_FIELDS !! form_type).

Fixpoint required_loop
    (data : value) (required : list string) (result : ValidationResult)
  : res ValidationResult :=
  match required with
  | [] => Ok result
  | field_path :: rest =>
      let* v := _get_nested data field_path in
      required_loop data rest
        (if not_provided v then add_missing result field_path else result)
  end.

Definition _check_required_fields
    (data : value) (form_type : string) (result : ValidationResult)
  : res ValidationResult :=
  required_loop data (required_for form_type) result.

(** ** [_determine_exemption] *)

(** The accredited-investor chain: [(is_accredited, accreditation_reason)]. *)
Definition accredited_check (rt : runtime)
    (annual_income total_income nfa net_worth income_stable : value)
  : res (bool * value) :=
  let* c1 := py_ge annual_income ACCREDITED_INCOME_SINGLE in
  if c1 && truthy income_stable then
    let* t := format_comma rt annual_income in
    Ok (true, VStr ("Annual income $" +:+ t +:+ " >= $200,000 for 2 years"))
  else
    let* c2 := py_ge total_income ACCREDITED_INCOME_JOINT in
    if c2 && truthy income_stable then
      let* t := format_comma rt total_income in
      Ok (true, VStr ("Joint income $" +:+ t +:+ " >= $300,000 for 2 years"))
    else
      let* c3 := py_ge nfa ACCREDITED_NFA in
      if c3 then
        let* t := format_comma rt nfa in
        Ok (true, VStr ("Net financial assets $" +:+ t +:+ " >= $1,000,000"))
      else
        let* c4 := py_ge net_worth ACCREDITED_NET_ASSETS in
        if c4 then
          let* t := format_comma rt net_worth in
          Ok (true, VStr ("Net assets $" +:+ t +:+ " >= $5,000,000"))
        else Ok (false, VNone).

(** The eligible-investor chain, entered only when not accredited. *)
Definition eligible_check
    (is_accredited : bool) (annual_income total_income net_worth : value)
  : res bool :=
  if is_accredited then Ok false
  else
    let* e1 := py_ge annual_income ELIGIBLE_INCOME_SINGLE in
    if e1 then Ok true
    else
      let* e2 := py_ge total_income ELIGIBLE_INCOME_JOINT in
      if e2 then Ok true
      else
        let* e3 := py_ge net_worth ELIGIBLE_NET_ASSETS in
        Ok e3.

Definition tier_result
    (is_accredited is_eligible : bool) (result : ValidationResult)
  : ValidationResult :=
  if is_accredited then set_exemption result "ACCREDITED"
  else if is_eligible then
    add_warning (set_exemption result "ELIGIBLE")
      "Eligible investors have $100k rolling 12-month limit (non-BC)"
  else
    add_warning (set_exemption result "NON_ELIGIBLE")
      "Client may only invest up to $10,000 under minimum amount exemption".

(** The write-back into [data["exemption_status"]]; item assignment is
    defined on a dictionary only. *)
Definition store_exemption
    (data : gmap string value) (is_accredited is_eligible : bool)
    (accreditation_reason : value)
  : res (gmap string value) :=
  let data1 :=
    match data !! "exemption_status" with
    | None => <["exemption_status" := VDict ∅]> data
    | Some _ => data
    end in
  match section_of data1 "exemption_status" with
  | VDict d =>
      Ok (<["exemption_status" :=
              VDict (<["accreditation_reason" := accreditation_reason]>
                    (<["is_eligible" := VBool is_eligible]>
                    (<["is_accredited" := VBool is_accredited]> d)))]> data1)
  | _ => Raise TypeError
  end.

Definition _determine_exemption (rt : runtime)
    (data : gmap string value) (result : ValidationResult)
  : res (gmap string value * ValidationResult) :=
  let financials := section_of data "financials" in
  let* annual_income := get_or_zero financials "annual_income" in
  let* spouse_income := get_or_zero financials "spouse_income" in
  let* total_income := py_add annual_income spouse_income in
  let* nfa := get_or_zero financials "net_financial_assets" in
  let* net_worth := get_or_zero financials "net_worth" in
  let* income_stable :=
    py_get_default financials "income_stable_2_years" (VBool false) in
  let* '(is_accredited, accreditation_reason) :=
    accredited_check rt annual_income total_income nfa net_worth income_stable in
  let* is_eligible :=
    eligible_check is_accredited annual_income total_income net_worth in
  let result1 := tier_result is_accredited is_eligible result in
  let* data1 := store_exemption data is_accredited is_eligible accreditation_reason in
  Ok (data1, result1).

(** ** [_check_suitability] *)

Definition retirement_check (rt : runtime)
    (retirement_year time_horizon : value) (result : ValidationResult)
  : res ValidationResult :=
  if truthy retirement_year then
    let* years_to_retirement := py_sub_int retirement_year (now_year rt) in
    if eq_str time_horizon "10+" then
      let* lt := py_lt years_to_retirement 5 in
      if lt then
        Ok (add_concern result
              ("Time horizon mismatch: selected 10+ years but retirement in "
               +:+ py_str rt years_to_retirement +:+ " years"))
      else Ok result
    else Ok result
  else Ok result.

Definition age_check (rt : runtime)
    (dob risk_tolerance time_horizon : value) (result : ValidationResult)
  : res ValidationResult :=
  if truthy dob then
    match dob with
    | VStr s =>
        match int_of_text rt (hd "" (split_on "-"%char s)) with
        | Some birth_year =>
            let age := now_year rt - birth_year in
            let r1 :=
              if (65 <=? age) && eq_str risk_tolerance "HIGH" then
                add_concern result
                  ("Client is " +:+ str_of_int age +:+
                   " years old with HIGH risk tolerance - ensure this is appropriate")
              else result in
            let r2 :=
              if (70 <=? age) && eq_str time_horizon "10+" then
                add_concern r1
                  ("Client is " +:+ str_of_int age +:+
                   " years old with 10+ year time horizon - verify suitability")
              else r1 in
            Ok r2
        | None => Ok result
        end
    | _ => Raise AttributeError
    end
  else Ok result.

Definition _check_suitability (rt : runtime)
    (data : gmap string value) (result : ValidationResult)
  : res ValidationResult :=
  let profile := section_of data "investment_profile" in
  let personal := section_of data "personal" in
  let* risk_tolerance := py_get profile "risk_tolerance" in
  let* risk_capacity := py_get profile "risk_capacity" in
  let* time_horizon := py_get profile "time_horizon" in
  let* objective := py_get profile "investment_objective" in
  let r1 :=
    if eq_str risk_tolerance "HIGH" &&
       (eq_str risk_capacity "LOW" || eq_str risk_capacity "NIL")
    then add_concern result
           "Risk tolerance (HIGH) exceeds risk capacity (LOW/NIL) - verify with client"
    else result in
  let* retirement_year := py_get profile "planned_retirement_year" in
  let* r2 := retirement_check rt retirement_year time_horizon r1 in
  let r3 :=
    if eq_str objective "GROWTH" && eq_str risk_tolerance "LOW"
    then add_concern r2 "Growth objective may not align with LOW risk tolerance"
    else r2 in
  let r4 :=
    if eq_str objective "INCOME" && eq_str risk_tolerance "HIGH"
    then add_warning r3
           "Income objective with HIGH risk tolerance - verify client understands"
    else r3 in
  let* dob := py_get personal "dob" in
  age_check rt dob risk_tolerance time_horizon r4.

(** ** [_check_aml_flags] *)

Definition _check_aml_flags (rt : runtime)
    (data : gmap string value) (result : ValidationResult)
  : res ValidationResult :=
  let aml := section_of data "aml" in
  let financials := section_of data "financials" in
  let* is_pep := py_get aml "is_pep" in
  let* r1 :=
    (if truthy is_pep then
       let* position := py_get_default aml "pep_position" (VStr "position unknown") in
       Ok (add_red_flag result
             ("Client is a Politically Exposed Person: " +:+ py_str rt position))
     else Ok result) in
  let* is_hio := py_get aml "is_hio" in
  let r2 :=
    if truthy is_hio
    then add_red_flag r1
           "Client is Head of International Organization - enhanced due diligence required"
    else r1 in
  let* borrowed := py_get financials "borrowed_to_invest" in
  let r3 :=
    if truthy borrowed
    then add_warning r2 "Client using borrowed funds - leverage disclosure required"
    else r2 in
  let* nfa := get_or_zero financials "net_financial_assets" in
  let* big := py_ge nfa 1000000 in
  if big then
    let* t := format_comma rt nfa in
    Ok (add_warning r3
          ("NFA of $" +:+ t +:+ " requires verification documentation"))
  else Ok r3.

(** ** [_check_concentration] *)

(** [(investment_amount / nfa) * 100] *)
Definition concentration_pct (investment_amount nfa : value) : res spec_float :=
  let* q := py_truediv investment_amount nfa in
  float_mul_int q 100.

Definition concentration_warning (pct : spec_float) : string :=
  "Investment represents " +:+ format_float_1f pct +:+
  "% of NFA (>10%) - document suitability justification".

Definition concentration_concern (pct : spec_float) : string :=
  "High concentration: " +:+ format_float_1f pct +:+
  "% of NFA in single investment".

Definition _check_concentration
    (data : gmap string value) (result : ValidationResult)
  : res ValidationResult :=
  let financials := section_of data "financials" in
  let investment := section_of data "investment_details" in
  let* nfa := get_or_zero financials "net_financial_assets" in
  let* investment_amount := get_or_zero investment "amount" in
  let* nfa_pos := py_gt nfa 0 in
  if nfa_pos then
    let* amount_pos := py_gt investment_amount 0 in
    if amount_pos then
      let* pct := concentration_pct investment_amount nfa in
      let r1 :=
        if float_gt_int pct 10
        then add_warning result (concentration_warning pct)
        else result in
      let r2 :=
        if float_gt_int pct 25
        then add_concern r1 (concentration_concern pct)
        else r1 in
      Ok r2
    else Ok result
  else Ok result.

(** ** [validate] *)

Definition verdict (result : ValidationResult) : ValidationResult :=
  let follow_up :=
    (0 <? Z.of_nat (length (red_flags result))) ||
    (3 <? Z.of_nat (length (missing_required result))) ||
    (0 <? Z.of_nat (length (suitability_concerns result))) in
  let valid :=
    (Z.of_nat (length (red_flags result)) =? 0) &&
    (Z.of_nat (length (missing_required result)) <=? 3) in
  {| is_valid := valid; exemption_status := exemption_status result;
     red_flags := red_flags result; warnings := warnings result;
     missing_required := missing_required result;
     suitability_concerns := suitability_concerns result;
     follow_up_needed := follow_up |}.

Definition validate (rt : runtime)
    (data : gmap string value) (form_type : string)
  : res (gmap string value * ValidationResult) :=
  let r0 := new_result in
  let* r1 := _check_required_fields (VDict data) form_type r0 in
  let* '(data1, r2) := _determine_exemption rt data r1 in
  let* r3 := _check_suitability rt data1 r2 in
  let* r4 := _check_aml_flags rt data1 r3 in
  let* r5 := _check_concentration data1 r4 in
  Ok (data1, verdict r5).

(** * Specification-side definitions and worked inputs *)

(** ** Field accessor *)

(** The value at a path in the words of the specification: absent as soon
    as a segment is missing or a node on the way is not keyed. *)
Fixpoint resolve (v : value) (segments : list string) : option value :=
  match segments with
  | [] => Some v
  | k :: rest =>
      match v with
      | VDict d =>
          match d !! k with
          | Some v' => resolve v' rest
          | None => None
          end
      | _ => None
      end
  end.

(** ** Completeness auditor *)

Definition absent_or_empty (o : option value) : bool :=
  match o with
  | None => true
  | Some VNone => true
  | Some (VStr s) => String.eqb s ""
  | Some _ => false
  end.

Definition path_missing (data : value) (p : string) : bool :=
  absent_or_empty (resolve data (split_on "."%char p)).

(** ** Exemption classifier: what it computes and what it writes *)

(** The three conclusions drawn from the financial section:
    [(is_accredited, is_eligible, accreditation_reason)]. *)
Definition exemption_flags (rt : runtime) (financials : value)
  : res (bool * bool * value) :=
  let* annual_income := get_or_zero financials "annual_income" in
  let* spouse_income := get_or_zero financials "spouse_income" in
  let* total_income := py_add annual_income spouse_income in
  let* nfa := get_or_zero financials "net_financial_assets" in
  let* net_worth := get_or_zero financials "net_worth" in
  let* income_stable :=
    py_get_default financials "income_stable_2_years" (VBool false) in
  let* '(is_accredited, accreditation_reason) :=
    accredited_check rt annual_income total_income nfa net_worth income_stable in
  let* is_eligible :=
    eligible_check is_accredited annual_income total_income net_worth in
  Ok (is_accredited, is_eligible, accreditation_reason).

Definition old_exemption_section (data : gmap string value)
  : gmap string value :=
  match data !! "exemption_status" with
  | Some (VDict d) => d
  | _ => ∅
  end.

Definition written_section
    (d : gmap string value) (is_accredited is_eligible : bool) (reason : value)
  : gmap string value :=
  <["accreditation_reason" := reason]>
    (<["is_eligible" := VBool is_eligible]>
       (<["is_accredited" := VBool is_accredited]> d)).

Definition dict_or_absent (o : option value) : bool :=
  match o with
  | None => true
  | Some (VDict _) => true
  | Some _ => false
  end.

(** ** Worked inputs *)

Fixpoint digits_value (acc : Z) (s : string) : option Z :=
  match s with
  | EmptyString => Some acc
  | String c s' =>
      let n := Z.of_nat (nat_of_ascii c) in
      if (48 <=? n) && (n <=? 57)
      then digits_value (10 * acc + (n - 48)) s'
      else None
  end.

(** [int] restricted to plain decimal numerals; any other text is rejected. *)
Definition plain_decimal (s : string) : option Z :=
  match s with
  | EmptyString => None
  | _ => digits_value 0 s
  end.

(** The runtime of the worked examples: the clock reads 2026, and the two
    conversions that the examples never reach with a float or a container
    return a fixed mark. *)
Definition runtime_2026 : runtime :=
  {| now_year := 2026;
     now_year_range := eq_refl;
     int_of_text := plain_decimal;
     repr_value := fun _ => "<repr>";
     format_float_comma := fun _ => "<float>" |}.

Definition data_of (m : res (gmap string value * ValidationResult))
  : gmap string value :=
  match m with Ok (d, _) => d | Raise _ => ∅ end.

Definition report_of (m : res (gmap string value * ValidationResult))
  : ValidationResult :=
  match m with Ok (_, r) => r | Raise _ => new_result end.

(** The record of [test_invalid_due_to_pep]. *)
Definition pep_record : gmap string value :=
  {[ "client_name" := VDict {[ "first" := VStr "John"; "last" := VStr "Doe" ]};
     "address" := VDict {[ "city" := VStr "Toronto"; "province" := VStr "ON" ]};
     "contact" := VDict {[ "email" := VStr "john@example.com" ]};
     "personal" := VDict {[ "dob" := VStr "1980-01-15" ]};
     "employment" := VDict {[ "occupation" := VStr "Politician" ]};
     "financials" :=
       VDict {[ "annual_income" := VInt 250000;
                "income_stable_2_years" := VBool true;
                "net_financial_assets" := VInt 1500000 ]};
     "investment_profile" :=
       VDict {[ "risk_tolerance" := VStr "MODERATE";
                "time_horizon" := VStr "5-10";
                "investment_objective" := VStr "GROWTH" ]};
     "aml" := VDict {[ "is_pep" := VBool true; "pep_position" := VStr "Senator" ]}
  ]}.

(** The record of [test_follow_up_needed_for_suitability_concerns]. *)
Definition elderly_record : gmap string value :=
  {[ "client_name" := VDict {[ "first" := VStr "John"; "last" := VStr "Doe" ]};
     "address" := VDict {[ "city" := VStr "Toronto"; "province" := VStr "ON" ]};
     "contact" := VDict {[ "email" := VStr "john@example.com" ]};
     "personal" := VDict {[ "dob" := VStr "1950-01-15" ]};
     "employment" := VDict {[ "occupation" := VStr "Retired" ]};
     "financials" :=
       VDict {[ "annual_income" := VInt 50000;
                "net_financial_assets" := VInt 500000 ]};
     "investment_profile" :=
       VDict {[ "risk_tolerance" := VStr "HIGH";
                "time_horizon" := VStr "10+";
                "investment_objective" := VStr "GROWTH" ]};
     "aml" := VDict {[ "is_pep" := VBool false ]}
  ]}.

(** ** The write-back and a second run *)

Definition accreditation_reason_of (data : gmap string value) : option value :=
  match data !! "exemption_status" with
  | Some (VDict d) => d !! "accreditation_reason"
  | _ => None
  end.

(** ** Exemption classifier: precedence of the rules *)

(** The figures the classifier works with, as it reads them. *)
Record financial_inputs := {
  in_annual_income : value;
  in_spouse_income : value;
  in_total_income : value;
  in_nfa : value;
  in_net_worth : value;
  in_income_stable : value;
}.

Definition read_inputs (financials : value) : res financial_inputs :=
  let* annual_income := get_or_zero financials "annual_income" in
  let* spouse_income := get_or_zero financials "spouse_income" in
  let* total_income := py_add annual_income spouse_income in
  let* nfa := get_or_zero financials "net_financial_assets" in
  let* net_worth := get_or_zero financials "net_worth" in
  let* income_stable :=
    py_get_default financials "income_stable_2_years" (VBool false) in
  Ok {| in_annual_income := annual_income; in_spouse_income := spouse_income;
        in_total_income := total_income; in_nfa := nfa;
        in_net_worth := net_worth; in_income_stable := income_stable |}.

(** The four accredited rules, in the order of the specification. *)
Inductive accredited_rule :=
| SingleIncome | JointIncome | FinancialAssets | NetAssets.

Definition accredited_rules : list accredited_rule :=
  [SingleIncome; JointIncome; FinancialAssets; NetAssets].

(** [v >= threshold] holds (and is defined). *)
Definition meets (v : value) (threshold : Z) : bool :=
  match py_ge v threshold with Ok b => b | Raise _ => false end.

Definition rule_amount (inp : financial_inputs) (rule : accredited_rule) : value :=
  match rule with
  | SingleIncome => in_annual_income inp
  | JointIncome => in_total_income inp
  | FinancialAssets => in_nfa inp
  | NetAssets => in_net_worth inp
  end.

Definition rule_met (inp : financial_inputs) (rule : accredited_rule) : bool :=
  match rule with
  | SingleIncome =>
      meets (in_annual_income inp) 200000 && truthy (in_income_stable inp)
  | JointIncome =>
      meets (in_total_income inp) 300000 && truthy (in_income_stable inp)
  | FinancialAssets => meets (in_nfa inp) 1000000
  | NetAssets => meets (in_net_worth inp) 5000000
  end.

Definition rule_text (rule : accredited_rule) (amount : string) : string :=
  match rule with
  | SingleIncome => "Annual income $" +:+ amount +:+ " >= $200,000 for 2 years"
  | JointIncome => "Joint income $" +:+ amount +:+ " >= $300,000 for 2 years"
  | FinancialAssets => "Net financial assets $" +:+ amount +:+ " >= $1,000,000"
  | NetAssets => "Net assets $" +:+ amount +:+ " >= $5,000,000"
  end.

(** The first rule of the list that is met, if any. *)
Definition first_rule (inp : financial_inputs) : option accredited_rule :=
  List.find (rule_met inp) accredited_rules.

(** An eligible threshold is met. *)
Definition eligible_met (inp : financial_inputs) : bool :=
  meets (in_annual_income inp) 75000 ||
  meets (in_total_income inp) 125000 ||
  meets (in_net_worth inp) 400000.

(** [rule] is met and no rule listed before it is. *)
Definition first_met (inp : financial_inputs) (rule : accredited_rule) : Prop :=
  match rule with
  | SingleIncome => rule_met inp SingleIncome = true
  | JointIncome =>
      rule_met inp SingleIncome = false /\ rule_met inp JointIncome = true
  | FinancialAssets =>
      rule_met inp SingleIncome = false /\ rule_met inp JointIncome = false /\
      rule_met inp FinancialAssets = true
  | NetAssets =>
      rule_met inp SingleIncome = false /\ rule_met inp JointIncome = false /\
      rule_met inp FinancialAssets = false /\ rule_met inp NetAssets = true
  end.

(** ** Records with the expected shape *)

Definition int_or_absent (o : option value) : bool :=
  match o with
  | None | Some VNone | Some (VInt _) => true
  | Some _ => false
  end.


(** The dictionary stored under a top-level key (empty if there is none). *)
Definition section_dict (data : gmap string value) (k : string)
  : gmap string value :=
  match data !! k with
  | Some (VDict d) => d
  | _ => ∅
  end.

(** An integer field read as [x or 0]. *)
Definition int_field (d : gmap string value) (k : string) : Z :=
  match d !! k with
  | Some (VInt z) => z
  | _ => 0
  end.

Definition financials_well_typed (data : gmap string value) : bool :=
  let fin := section_dict data "financials" in
  dict_or_absent (data !! "financials") &&
  int_or_absent (fin !! "annual_income") &&
  int_or_absent (fin !! "spouse_income") &&
  int_or_absent (fin !! "net_financial_assets") &&
  int_or_absent (fin !! "net_worth") &&
  dict_or_absent (data !! "exemption_status").

(** The flags on integer figures, written with integer comparisons. *)
Definition accredited_ints (ai si nfa nw : Z) (stable : bool) : bool :=
  (200000 <=? ai) && stable || (300000 <=? ai + si) && stable ||
  (1000000 <=? nfa) || (5000000 <=? nw).

Definition eligible_ints (ai si nfa nw : Z) (stable : bool) : bool :=
  negb (accredited_ints ai si nfa nw stable) &&
  ((75000 <=? ai) || (125000 <=? ai + si) || (400000 <=? nw)).

(** The record of [test_accredited_takes_priority_over_eligible]. *)
Definition priority_record : gmap string value :=
  {[ "financials" :=
       VDict {[ "annual_income" := VInt 100000;
                "net_financial_assets" := VInt 1500000 ]} ]}.

(** ** Concentration checker *)

(** The report after the two threshold tests on a computed percentage. *)
Definition emit_concentration (pct : spec_float) (result : ValidationResult)
  : ValidationResult :=
  let r1 :=
    if float_gt_int pct 10
    then add_warning result (concentration_warning pct) else result in
  if float_gt_int pct 25
  then add_concern r1 (concentration_concern pct) else r1.

(** The record of [test_concentration_over_25_percent], one at exactly ten
    percent, and the one of [test_zero_nfa_no_error]. *)
Definition thirty_percent_record : gmap string value :=
  {[ "financials" := VDict {[ "net_financial_assets" := VInt 100000 ]};
     "investment_details" := VDict {[ "amount" := VInt 30000 ]} ]}.

Definition ten_percent_record : gmap string value :=
  {[ "financials" := VDict {[ "net_financial_assets" := VInt 100000 ]};
     "investment_details" := VDict {[ "amount" := VInt 10000 ]} ]}.

Definition zero_nfa_record : gmap string value :=
  {[ "financials" := VDict {[ "net_financial_assets" := VInt 0 ]};
     "investment_details" := VDict {[ "amount" := VInt 10000 ]} ]}.

(** The float 10.0 and the float 30.0 *)
Definition f64_ten : spec_float := S754_finite false 5629499534213120 (-49).
Definition f64_thirty : spec_float := S754_finite false 8444249301319680 (-48).

(** ** Totality of the orchestrator on records of the expected shape *)

Definition is_number (v : value) : bool :=
  match as_num v with Some _ => true | None => false end.

(** A float, or an integer (or boolean) of magnitude below [2 ^ 1023]. *)
Definition small_number (v : value) : bool :=
  match as_num v with
  | Some (NInt z) => Z.abs z <? 2 ^ 1023
  | Some (NFloat _) => true
  | None => false
  end.

Definition number_or_absent (o : option value) : bool :=
  match o with
  | None | Some VNone => true
  | Some v => small_number v
  end.

(** The financial section and the exemption-status section are dictionaries
    or absent, and the four figures are numbers, null or absent. *)
Definition financials_numeric (data : gmap string value) : bool :=
  let fin := section_dict data "financials" in
  dict_or_absent (data !! "financials") &&
  number_or_absent (fin !! "annual_income") &&
  number_or_absent (fin !! "spouse_income") &&
  number_or_absent (fin !! "net_financial_assets") &&
  number_or_absent (fin !! "net_worth") &&
  dict_or_absent (data !! "exemption_status").



(** The record of [test_valid_accredited_investor]. *)
Definition accredited_record : gmap string value :=
  {[ "client_name" := VDict {[ "first" := VStr "John"; "last" := VStr "Doe" ]};
     "address" := VDict {[ "city" := VStr "Toronto"; "province" := VStr "ON" ]};
     "contact" := VDict {[ "email" := VStr "john@example.com" ]};
     "personal" := VDict {[ "dob" := VStr "1980-01-15" ]};
     "employment" := VDict {[ "occupation" := VStr "Executive" ]};
     "financials" :=
       VDict {[ "annual_income" := VInt 250000;
                "income_stable_2_years" := VBool true;
                "net_financial_assets" := VInt 1500000;
                "net_worth" := VInt 3000000 ]};
     "investment_profile" :=
       VDict {[ "risk_tolerance" := VStr "MODERATE";
                "time_horizon" := VStr "5-10";
                "investment_objective" := VStr "GROWTH" ]};
     "aml" := VDict {[ "is_pep" := VBool false ]}
  ]}.

(** * Further definitions for the validator *)
(** ** Runs *)

(** The computation returns rather than raises. *)
Definition returns {A} (m : res A) : bool :=
  match m with Ok _ => true | Raise _ => false end.

(** ** Paths and keys *)

(** The text contains the separator of paths. *)
Fixpoint has_dot (s : string) : bool :=
  match s with
  | EmptyString => false
  | String a s' => Ascii.eqb a "."%char || has_dot s'
  end.

(** ** Tiers *)

(** The tier that follows from the figures: the accredited rules first, the
    eligible thresholds next. *)
Definition tier_of (inp : financial_inputs) : string :=
  match first_rule inp with
  | Some _ => "ACCREDITED"
  | None => if eligible_met inp then "ELIGIBLE" else "NON_ELIGIBLE"
  end.

(** The standing warning that comes with a tier. *)
Definition tier_warnings (tier : string) : list string :=
  if String.eqb tier "ELIGIBLE" then
    ["Eligible investors have $100k rolling 12-month limit (non-BC)"]
  else if String.eqb tier "NON_ELIGIBLE" then
    ["Client may only invest up to $10,000 under minimum amount exemption"]
  else [].

(** A key of the exemption-status section of a record. *)
Definition exemption_entry (data : gmap string value) (k : string)
  : option value :=
  match data !! "exemption_status" with
  | Some (VDict d) => d !! k
  | _ => None
  end.

(** The order of the tiers. *)
Definition tier_rank (tier : string) : Z :=
  if String.eqb tier "ACCREDITED" then 2
  else if String.eqb tier "ELIGIBLE" then 1
  else 0.

(** ** AML screening *)

(** A flag of the AML section, read for its truth value. *)
Definition aml_flag (data : gmap string value) (k : string) : bool :=
  match section_of data "aml" with
  | VDict d => truthy (default VNone (d !! k))
  | _ => false
  end.

Definition pep_message (rt : runtime) (data : gmap string value) : string :=
  "Client is a Politically Exposed Person: " +:+
  py_str rt (default (VStr "position unknown")
               (section_dict data "aml" !! "pep_position")).

Definition hio_message : string :=
  "Client is Head of International Organization - enhanced due diligence required".

(** The red flags that follow from the AML section, in the order in which
    they are raised. *)
Definition aml_red_flags (rt : runtime) (data : gmap string value)
  : list string :=
  ((if aml_flag data "is_pep" then [pep_message rt data] else []) ++
   (if aml_flag data "is_hio" then [hio_message] else []))%list.

Definition borrowed_warning : string :=
  "Client using borrowed funds - leverage disclosure required".

Definition nfa_warning (amount : string) : string :=
  "NFA of $" +:+ amount +:+ " requires verification documentation".

(** ** What a run reads *)

Definition path_head (p : string) : string := hd "" (split_on "."%char p).

(** The top-level keys of the record that a run for the form type looks
    up besides [exemption_status]: the heads of the required paths and the
    five sections of the checks. *)
Definition validate_reads (form_type : string) : list string :=
  (map path_head (required_for form_type) ++
   ["financials"; "investment_profile"; "personal"; "aml";
    "investment_details"])%list.

(** The report of a run, or the exception that ended it. *)
Definition outcome (m : res (gmap string value * ValidationResult))
  : res ValidationResult :=
  let* '(_, r) := m in Ok r.

(** The record of [test_invalid_due_to_pep] with a section of notes that no
    check looks at and an exemption section left over from elsewhere. *)
Definition annotated_pep_record : gmap string value :=
  <["notes" := VStr "call back on Monday"]>
    (<["exemption_status" := VDict {[ "is_accredited" := VBool false ]}]>
       pep_record).

(** ** Suitability *)

(** A field of a section of the record, as [section.get(k)] reads it. *)
Definition field_of (data : gmap string value) (section k : string) : value :=
  default VNone (section_dict data section !! k).

Definition capacity_concern : string :=
  "Risk tolerance (HIGH) exceeds risk capacity (LOW/NIL) - verify with client".

Definition growth_concern : string :=
  "Growth objective may not align with LOW risk tolerance".

Definition income_warning : string :=
  "Income objective with HIGH risk tolerance - verify client understands".

Definition age_risk_concern (age : Z) : string :=
  "Client is " +:+ str_of_int age +:+
  " years old with HIGH risk tolerance - ensure this is appropriate".

Definition age_horizon_concern (age : Z) : string :=
  "Client is " +:+ str_of_int age +:+
  " years old with 10+ year time horizon - verify suitability".

(** The year a date of birth starts with, if it reads as an integer. *)
Definition birth_year (rt : runtime) (dob : string) : option Z :=
  int_of_text rt (hd "" (split_on "-"%char dob)).

(** The concerns of the age test for a known birth year. *)
Definition age_concerns (rt : runtime) (year : Z) (tol th : value)
  : list string :=
  let age := now_year rt - year in
  ((if (65 <=? age) && eq_str tol "HIGH" then [age_risk_concern age] else []) ++
   (if (70 <=? age) && eq_str th "10+" then [age_horizon_concern age] else []))%list.

Fixpoint has_dash (s : string) : bool :=
  match s with
  | EmptyString => false
  | String a s' => Ascii.eqb a "-"%char || has_dash s'
  end.

(** The record of [test_elderly_high_risk_flagged], without an amount. *)
Definition moderate_record : gmap string value :=
  {[ "personal" := VDict {[ "dob" := VStr "1950-01-15" ]};
     "investment_profile" :=
       VDict {[ "risk_tolerance" := VStr "MEDIUM";
                "time_horizon" := VStr "5-10";
                "investment_objective" := VStr "GROWTH" ]} ]}.

(** * The callers of the validator *)

(** ** [ValidationResult.to_dict] *)

Definition text_list (l : list string) : value := VList (map VStr l).

Definition to_dict (r : ValidationResult) : gmap string value :=
  {[ "is_valid" := VBool (is_valid r);
     "exemption_status" := VStr (exemption_status r);
     "red_flags" := text_list (red_flags r);
     "warnings" := text_list (warnings r);
     "missing_required" := text_list (missing_required r);
     "suitability_concerns" := text_list (suitability_concerns r);
     "follow_up_needed" := VBool (follow_up_needed r) ]}.

(** ** [send_kyc_email]: the subject line *)

(** What a caller hands over as [validation_result]: the report object
    that [validate] returns, or a value such as the dictionary of
    [to_dict]. *)
Inductive report_arg :=
| ReportObject (r : ValidationResult)
| ReportValue (v : value).

(** [validation_result.get(k, dflt)]: the report class defines its fields
    and [to_dict], and no [get]. *)
Definition report_get (a : report_arg) (k : string) (dflt : value)
  : res value :=
  match a with
  | ReportObject _ => Raise AttributeError
  | ReportValue v => py_get_default v k dflt
  end.

(** [len(v) > 0] *)
Definition len_positive (v : value) : res bool :=
  match v with
  | VStr s => Ok (negb (String.eqb s ""))
  | VList l => Ok (match l with [] => false | _ => true end)
  | VDict d => Ok (negb (bool_decide (d = ∅)))
  | _ => Raise TypeError
  end.

Definition flags_mark : string := "⚠️ ".
Definition clear_mark : string := "✅ ".

(** The statements of [send_kyc_email] up to the subject line. *)
Definition email_subject (rt : runtime)
    (extracted_data : value) (validation_result : report_arg)
  : res string :=
  let* client_name := py_get_default extracted_data "client_name" (VDict ∅) in
  let* first := py_get_default client_name "first" (VStr "Unknown") in
  let* last := py_get_default client_name "last" (VStr "Client") in
  let full_name := py_str rt first +:+ " " +:+ py_str rt last in
  let* flags := report_get validation_result "red_flags" (VList []) in
  let* has_flags := len_positive flags in
  let flag_indicator := if has_flags then flags_mark else clear_mark in
  Ok (flag_indicator +:+ "KYC Extraction Complete: " +:+ full_name).

(** ** [fmt_currency] of the email body *)




(** ** [process_kyc_background] *)

(** How a run of the background task ends: at its last statement, or in
    its handler of exceptions. *)
Inductive task_end := Completed | ErrorLogged.

(** [validate] on whatever the extractor returned: the exemption step calls
    [data.get], which only a dictionary has. *)
Definition validate_value (rt : runtime) (data : value) (form_type : string)
  : res (gmap string value * ValidationResult) :=
  match data with
  | VDict d => validate rt d form_type
  | _ => Raise AttributeError
  end.

Section BackgroundTask.

Variable rt : runtime.

(** The services the task reaches outside the validator: the extractor,
    the PDF filler, and what [send_kyc_email] does once it has its subject
    (body, attachment, delivery).  [None] stands for an exception. *)
Variable extract : string -> string -> string -> option value.
Variable fill : value -> string -> string -> option string.
Variable build_and_send :
  string -> value -> report_arg -> option string -> string -> option bool.

Definition send_kyc_email
    (extracted_data : value) (validation_result : report_arg)
    (pdf_path : option string) (form_type : string) : option bool :=
  match email_subject rt extracted_data validation_result with
  | Ok subject =>
      build_and_send subject extracted_data validation_result pdf_path form_type
  | Raise _ => None
  end.

Definition process_kyc_background
    (transcript source_language form_type dealing_rep : string) : task_end :=
  match extract transcript source_language form_type with
  | None => ErrorLogged
  | Some extracted_data =>
      match validate_value rt extracted_data form_type with
      | Raise _ => ErrorLogged
      | Ok (data1, validation_result) =>
          match fill (VDict data1) form_type dealing_rep with
          | None => ErrorLogged
          | Some pdf_path =>
              match send_kyc_email (VDict data1)
                      (ReportObject validation_result)
                      (Some pdf_path) form_type with
              | None => ErrorLogged
              | Some _ => Completed
              end
          end
      end
  end.

End BackgroundTask.

(** ** [KYCPDFFiller._map_individual_fields] *)

(** A text, as [str.join] demands of every item. *)
Definition text_of (v : value) : res string :=
  match v with
  | VStr s => Ok s
  | _ => Raise TypeError
  end.

Fixpoint texts_of (l : list value) : res (list string) :=
  match l with
  | [] => Ok []
  | v :: rest =>
      let* s := text_of v in
      let* ss := texts_of rest in
      Ok (s :: ss)
  end.

(** [sep.join(filter(None, parts))] *)
Definition join_truthy (sep : string) (parts : list value) : res string :=
  let* ts := texts_of (List.filter truthy parts) in
  Ok (String.concat sep ts).

(** [section.get(k, "")] *)
Definition get_or_blank (section : value) (k : string) : res value :=
  py_get_default section k (VStr "").

(** [str(section.get(k, ""))] *)
Definition str_or_blank (rt : runtime) (section : value) (k : string)
  : res value :=
  let* v := get_or_blank section k in Ok (VStr (py_str rt v)).

(** [section.get(k) == choice], the state of a check box. *)
Definition box (section : value) (k choice : string) : res value :=
  let* v := py_get section k in Ok (VBool (eq_str v choice)).

(** A dictionary display [{k1: v1, ...}]: the items are stored from left to
    right. *)
Definition dict_of (items : list (string * value)) : gmap string value :=
  fold_left (fun m item => <[fst item := snd item]> m) items ∅.

(** The field mapping of the individual form.  [today] is
    [datetime.now().strftime("%Y-%m-%d")]. *)
Definition _map_individual_fields (rt : runtime) (today : string)
    (data : gmap string value) (dealing_rep : value)
  : res (gmap string value) :=
  let client_name := section_of data "client_name" in
  let address := section_of data "address" in
  let contact := section_of data "contact" in
  let personal := section_of data "personal" in
  let employment := section_of data "employment" in
  let spouse_emp := section_of data "spouse_employment" in
  let financials := section_of data "financials" in
  let profile := section_of data "investment_profile" in
  let exemption := section_of data "exemption_status" in
  let* n_last := get_or_blank client_name "last" in
  let* n_first := get_or_blank client_name "first" in
  let* n_middle := get_or_blank client_name "middle" in
  let* full_name := join_truthy " " [n_last; n_first; n_middle] in
  let* a_street := get_or_blank address "street" in
  let* a_unit := get_or_blank address "unit" in
  let* full_address := join_truthy ", " [a_street; a_unit] in
  let* last := get_or_blank client_name "last" in
  let* first := get_or_blank client_name "first" in
  let* middle := get_or_blank client_name "middle" in
  let* street := get_or_blank address "street" in
  let* unit := get_or_blank address "unit" in
  let* city := get_or_blank address "city" in
  let* province := get_or_blank address "province" in
  let* postal_code := get_or_blank address "postal_code" in
  let* phone := get_or_blank contact "phone" in
  let* cell := get_or_blank contact "cell" in
  let* email := get_or_blank contact "email" in
  let* dob := get_or_blank personal "dob" in
  let* dependents := str_or_blank rt personal "dependents" in
  let* occupation := get_or_blank employment "occupation" in
  let* employer := get_or_blank employment "employer" in
  let* k_good := box profile "knowledge_level" "GOOD" in
  let* k_average := box profile "knowledge_level" "AVERAGE" in
  let* k_limited := box profile "knowledge_level" "LIMITED" in
  let* t_low := box profile "risk_tolerance" "LOW" in
  let* t_moderate := box profile "risk_tolerance" "MODERATE" in
  let* t_high := box profile "risk_tolerance" "HIGH" in
  let* o_growth := box profile "investment_objective" "GROWTH" in
  let* o_growth_income :=
    box profile "investment_objective" "GROWTH_AND_INCOME" in
  let* o_income := box profile "investment_objective" "INCOME" in
  let* o_tax := box profile "investment_objective" "TAX_EFFICIENCY" in
  let* h_1_3 := box profile "time_horizon" "1-3" in
  let* h_3_5 := box profile "time_horizon" "3-5" in
  let* h_6_10 := box profile "time_horizon" "6-10" in
  let* h_10 := box profile "time_horizon" "10+" in
  let* annual_income := str_or_blank rt financials "annual_income" in
  let* spouse_income := str_or_blank rt financials "spouse_income" in
  let* other_income := str_or_blank rt financials "other_income" in
  let* total_income := str_or_blank rt financials "total_income" in
  let* nfa := str_or_blank rt financials "net_financial_assets" in
  let* non_financial := str_or_blank rt financials "non_financial_assets" in
  let* total_assets := str_or_blank rt financials "total_assets" in
  let* liabilities := str_or_blank rt financials "liabilities" in
  let* net_worth := str_or_blank rt financials "net_worth" in
  let* cash := str_or_blank rt (section_of data "asset_composition") "cash_pct" in
  let* stocks :=
    str_or_blank rt (section_of data "asset_composition") "stocks_pct" in
  let* bonds :=
    str_or_blank rt (section_of data "asset_composition") "bonds_pct" in
  let* pep_yes := py_get_default (section_of data "aml") "is_pep" (VBool false) in
  let* pep := py_get_default (section_of data "aml") "is_pep" (VBool true) in
  let* hio_yes := py_get_default (section_of data "aml") "is_hio" (VBool false) in
  let* hio := py_get_default (section_of data "aml") "is_hio" (VBool true) in
  Ok (dict_of
        [("Date", VStr today);
         ("Dealing Representative", dealing_rep);
         ("Full Name", VStr full_name);
         ("Last", last);
         ("First", first);
         ("Middle", middle);
         ("Street Address cannot be a PO Box", street);
         ("ApartmentUnit", unit);
         ("City", city);
         ("Prov", province);
         ("Postal Code", postal_code);
         ("Phone day", phone);
         ("Cell", cell);
         ("Email", email);
         ("Date of Birth", dob);
         ("SIN", VStr "");
         ("Dependents", dependents);
         ("Primary Occupation", occupation);
         ("Employer", employer);
         ("Good", k_good);
         ("Average", k_average);
         ("Limited", k_limited);
         ("LOW", t_low);
         ("MODERATE", t_moderate);
         ("HIGH", t_high);
         ("Growth", o_growth);
         ("Growth  Income", o_growth_income);
         ("Income", o_income);
         ("Tax Efficiency", o_tax);
         ("13 years", h_1_3);
         ("35 years", h_3_5);
         ("610 years", h_6_10);
         ("10 years", h_10);
         ("Employment Annual Income", annual_income);
         ("SpousePartner Annual Income", spouse_income);
         ("Other Income", other_income);
         ("Total Income", total_income);
         ("Estimated Net Financial Assets", nfa);
         ("Estimated NonFinancial Assets", non_financial);
         ("Estimated Total Assets", total_assets);
         ("Estimated Liabilities", liabilities);
         ("Estimated Net Worth", net_worth);
         ("Cash  Deposits", cash);
         ("Public Equities  Stocks", stocks);
         ("Fixed Income  Bonds", bonds);
         ("PEP Yes", pep_yes);
         ("PEP No", VBool (negb (truthy pep)));
         ("HIO Yes", hio_yes);
         ("HIO No", VBool (negb (truthy hio)))]).

(** A check box of a filled form is ticked when its value is truthy. *)
Definition ticked (m : gmap string value) (k : string) : bool :=
  truthy (default VNone (m !! k)).

(** The groups of check boxes of the individual form. *)
Definition knowledge_boxes : list string := ["Good"; "Average"; "Limited"].
Definition risk_boxes : list string := ["LOW"; "MODERATE"; "HIGH"].
Definition objective_boxes : list string :=
  ["Growth"; "Growth  Income"; "Income"; "Tax Efficiency"].
Definition horizon_boxes : list string :=
  ["13 years"; "35 years"; "610 years"; "10 years"].

(** The boxes of a group that are ticked. *)
Definition ticked_in (m : gmap string value) (group : list string)
  : list string :=
  List.filter (ticked m) group.





(** * Properties *)

(** ** The error monad *)

Lemma bind_ok {A B} (m : res A) (k : A -> res B) (b : B) :
  bind m k = Ok b -> exists a, m = Ok a /\ k a = Ok b.
Proof. destruct m as [a|e]; simpl; [eauto | discriminate]. Qed.

(** Split a successful run of a sequence of binds into its steps. *)
Tactic Notation "inv_bind" hyp(H) "as" ident(a) ident(Ha) :=
  apply bind_ok in H; destruct H as (a & Ha & H).

Ltac inv_ok :=
  repeat match goal with
    | H : Ok _ = Ok _ |- _ => injection H as H; try subst
    | H : Raise _ = Ok _ |- _ => discriminate H
    | H : Ok _ = Raise _ |- _ => discriminate H
    end.

(** ** Field accessor *)

Lemma get_keys_resolve (keys : list string) : forall v : value,
  get_keys v keys = Ok (default VNone (resolve v keys)).
Proof.
  induction keys as [|k rest IH]; intros v; simpl; [reflexivity|].
  destruct v; simpl; try reflexivity.
  destruct (d !! k) as [v'|] eqn:E; simpl; [apply IH|].
  destruct rest; reflexivity.
Qed.

Lemma split_on_nonempty (c : ascii) (s : string) : split_on c s <> [].
Proof.
  induction s as [|a s IH]; simpl; [discriminate|].
  destruct (Ascii.eqb a c); [discriminate|].
  destruct (split_on c s); discriminate.
Qed.

(** ** Completeness auditor *)

Lemma not_provided_resolve (o : option value) :
  not_provided (default VNone o) = absent_or_empty o.
Proof. destruct o as [[]|]; reflexivity. Qed.

Lemma required_loop_spec (data : value) (required : list string) :
  forall result,
  exists result',
    required_loop data required result = Ok result' /\
    missing_required result' =
      (missing_required result ++ List.filter (path_missing data) required)%list /\
    is_valid result' = is_valid result /\
    exemption_status result' = exemption_status result /\
    red_flags result' = red_flags result /\
    warnings result' = warnings result /\
    suitability_concerns result' = suitability_concerns result /\
    follow_up_needed result' = follow_up_needed result.
Proof.
  induction required as [|p rest IH]; intros result; simpl.
  - exists result. rewrite app_nil_r. tauto.
  - unfold _get_nested. rewrite get_keys_resolve. simpl.
    rewrite not_provided_resolve. fold (path_missing data p).
    destruct (path_missing data p).
    + destruct (IH (add_missing result p)) as (r' & E & M & R).
      exists r'. split; [exact E|]. split; [|exact R].
      rewrite M. simpl. rewrite <- app_assoc. reflexivity.
    + destruct (IH result) as (r' & E & M & R). exists r'. tauto.
Qed.

Lemma required_for_cases (form_type : string) :
  form_type = "individual" \/ form_type = "corporate" \/
  form_type = "trade" \/ required_for form_type = [].
Proof.
  unfold required_for, REQUIRED_FIELDS.
  destruct (decide (form_type = "individual")) as [|N1]; [tauto|].
  destruct (decide (form_type = "corporate")) as [|N2]; [tauto|].
  destruct (decide (form_type = "trade")) as [|N3]; [tauto|].
  right; right; right.
  rewrite lookup_insert_ne by congruence.
  rewrite lookup_insert_ne by congruence.
  rewrite lookup_singleton_ne by congruence.
  reflexivity.
Qed.

(** ** Exemption classifier: what it computes and what it writes *)

Ltac case_binds :=
  repeat match goal with
    | |- context [bind ?m _] =>
        lazymatch m with
        | context [bind] => fail
        | _ => let E := fresh "E" in destruct m as [?|?] eqn:E; simpl
        end
    | |- context [match ?p with (_, _) => _ end] =>
        is_var p; destruct p; simpl
    end.

Lemma determine_exemption_unfold rt (data : gmap string value) result :
  _determine_exemption rt data result =
    let* '(is_accredited, is_eligible, reason) :=
      exemption_flags rt (section_of data "financials") in
    let* data1 := store_exemption data is_accredited is_eligible reason in
    Ok (data1, tier_result is_accredited is_eligible result).
Proof.
  unfold _determine_exemption, exemption_flags.
  case_binds; reflexivity.
Qed.

Lemma store_exemption_eq (data data1 : gmap string value) a e reason :
  store_exemption data a e reason = Ok data1 ->
  data1 = <["exemption_status" :=
              VDict (written_section (old_exemption_section data) a e reason)]>
            data.
Proof.
  unfold store_exemption, old_exemption_section, section_of, written_section.
  destruct (data !! "exemption_status") as [v|] eqn:E.
  - rewrite E. simpl. destruct v; intros H; inv_ok. reflexivity.
  - rewrite lookup_insert_eq. simpl. intros H; inv_ok.
    rewrite insert_insert_eq. reflexivity.
Qed.

Lemma store_exemption_other (data data1 : gmap string value) a e reason k :
  store_exemption data a e reason = Ok data1 ->
  k <> "exemption_status" -> data1 !! k = data !! k.
Proof.
  intros H N. rewrite (store_exemption_eq _ _ _ _ _ H).
  apply lookup_insert_ne. congruence.
Qed.

Lemma written_section_idem (d : gmap string value) a e reason :
  written_section (written_section d a e reason) a e reason =
  written_section d a e reason.
Proof.
  unfold written_section. apply map_eq. intros k.
  destruct (decide (k = "accreditation_reason")) as [->|N1];
    [by simplify_map_eq|].
  destruct (decide (k = "is_eligible")) as [->|N2]; [by simplify_map_eq|].
  destruct (decide (k = "is_accredited")) as [->|N3]; by simplify_map_eq.
Qed.

Lemma store_exemption_idem (data data1 : gmap string value) a e reason :
  store_exemption data a e reason = Ok data1 ->
  store_exemption data1 a e reason = Ok data1.
Proof.
  intros H. pose proof (store_exemption_eq _ _ _ _ _ H) as ->.
  unfold store_exemption, section_of.
  rewrite lookup_insert_eq. cbn [from_option id].
  rewrite lookup_insert_eq. cbn [from_option id].
  rewrite insert_insert_eq.
  fold (written_section (written_section (old_exemption_section data) a e reason) a e reason).
  rewrite written_section_idem. reflexivity.
Qed.

Lemma store_exemption_total (data : gmap string value) a e reason :
  dict_or_absent (data !! "exemption_status") = true ->
  exists data1, store_exemption data a e reason = Ok data1.
Proof.
  unfold store_exemption, section_of.
  destruct (data !! "exemption_status") as [v|] eqn:E; simpl.
  - rewrite E. destruct v; simpl; try discriminate. eauto.
  - rewrite lookup_insert_eq. simpl. eauto.
Qed.

Lemma section_of_same (data data1 : gmap string value) k :
  data1 !! k = data !! k -> section_of data1 k = section_of data k.
Proof. unfold section_of. intros ->. reflexivity. Qed.

(** The later checks never read the exemption-status section. *)
Section AgreeOutsideExemption.
Variables (rt : runtime) (data data1 : gmap string value).
Hypothesis agree :
  forall k, k <> "exemption_status" -> data1 !! k = data !! k.

Lemma agree_section k :
  k <> "exemption_status" -> section_of data1 k = section_of data k.
Proof. intros N. apply section_of_same, agree, N. Qed.


Lemma check_aml_flags_agree result :
  _check_aml_flags rt data1 result = _check_aml_flags rt data result.
Proof. unfold _check_aml_flags. rewrite !agree_section by discriminate. reflexivity. Qed.


Lemma exemption_flags_agree :
  exemption_flags rt (section_of data1 "financials") =
  exemption_flags rt (section_of data "financials").
Proof. rewrite agree_section by discriminate. reflexivity. Qed.
End AgreeOutsideExemption.

(** ** What each later check may touch in the report *)

Ltac case_ifs :=
  repeat match goal with
    | |- context [if ?b then _ else _] => destruct b; simpl
    end.

Lemma retirement_check_frame rt ry th r r' :
  retirement_check rt ry th r = Ok r' ->
  red_flags r' = red_flags r /\ missing_required r' = missing_required r /\
  exemption_status r' = exemption_status r.
Proof.
  unfold retirement_check.
  destruct (truthy ry); [|intros; inv_ok; tauto].
  intros H. inv_bind H as ytr Eytr.
  destruct (eq_str th "10+"); [|inv_ok; tauto].
  inv_bind H as lt Elt. destruct lt; inv_ok; simpl; tauto.
Qed.

Lemma age_check_frame rt dob tol th r r' :
  age_check rt dob tol th r = Ok r' ->
  red_flags r' = red_flags r /\ missing_required r' = missing_required r /\
  exemption_status r' = exemption_status r.
Proof.
  unfold age_check.
  destruct (truthy dob); [|intros; inv_ok; tauto].
  destruct dob; try discriminate.
  destruct (int_of_text rt _); intros H; inv_ok; [|tauto].
  case_ifs; tauto.
Qed.

Lemma check_suitability_frame rt data r r' :
  _check_suitability rt data r = Ok r' ->
  red_flags r' = red_flags r /\ missing_required r' = missing_required r /\
  exemption_status r' = exemption_status r.
Proof.
  unfold _check_suitability. intros H.
  inv_bind H as tol Etol. inv_bind H as cap Ecap. inv_bind H as th Eth.
  inv_bind H as obj Eobj. inv_bind H as ry Ery. inv_bind H as r2 Er2.
  inv_bind H as dob Edob.
  apply age_check_frame in H. apply retirement_check_frame in Er2.
  destruct H as (-> & -> & ->).
  revert Er2. case_ifs; intros (-> & -> & ->); simpl; tauto.
Qed.

Lemma check_concentration_frame data r r' :
  _check_concentration data r = Ok r' ->
  red_flags r' = red_flags r /\ missing_required r' = missing_required r /\
  exemption_status r' = exemption_status r.
Proof.
  unfold _check_concentration. intros H.
  inv_bind H as nfa Enfa. inv_bind H as amt Eamt. inv_bind H as np Enp.
  destruct np; [|inv_ok; tauto].
  inv_bind H as ap Eap. destruct ap; [|inv_ok; tauto].
  inv_bind H as pct Epct. inv_ok. case_ifs; tauto.
Qed.

Lemma check_aml_flags_frame rt data r r' :
  _check_aml_flags rt data r = Ok r' ->
  missing_required r' = missing_required r /\
  suitability_concerns r' = suitability_concerns r /\
  exemption_status r' = exemption_status r /\
  exists extra, red_flags r' = (red_flags r ++ extra)%list /\
    forall v, py_get (section_of data "aml") "is_pep" = Ok v ->
              truthy v = true -> extra <> [].
Proof.
  unfold _check_aml_flags. intros H.
  inv_bind H as pep Epep. inv_bind H as r1 Er1. inv_bind H as hio Ehio.
  inv_bind H as bor Ebor. inv_bind H as nfa Enfa. inv_bind H as big Ebig.
  assert (Hfin : missing_required r' = missing_required r1 /\
                 suitability_concerns r' = suitability_concerns r1 /\
                 exemption_status r' = exemption_status r1 /\
                 exists tail, red_flags r' = (red_flags r1 ++ tail)%list).
  { destruct big.
    - inv_bind H as t Et. inv_ok. simpl.
      destruct (truthy bor), (truthy hio); simpl; repeat split;
        eauto using app_nil_r.
    - inv_ok.
      destruct (truthy bor), (truthy hio); simpl; repeat split;
        eauto using app_nil_r. }
  destruct Hfin as (-> & -> & -> & tail & ->).
  destruct (truthy pep) eqn:T.
  - inv_bind Er1 as pos Epos. inv_ok. simpl. repeat split.
    eexists. rewrite <- app_assoc. split; [reflexivity|].
    intros _ _ _. simpl. discriminate.
  - inv_ok. repeat split. exists tail. split; [reflexivity|].
    intros v Hv Tv. rewrite Epep in Hv. inv_ok. congruence.
Qed.

Lemma tier_result_frame a e r :
  red_flags (tier_result a e r) = red_flags r /\
  missing_required (tier_result a e r) = missing_required r /\
  suitability_concerns (tier_result a e r) = suitability_concerns r.
Proof. unfold tier_result. destruct a, e; simpl; tauto. Qed.

(** ** The orchestrator, step by step *)

Lemma validate_steps rt (data data1 : gmap string value) form_type r :
  validate rt data form_type = Ok (data1, r) ->
  exists r1 r2 r3 r4 r5,
    _check_required_fields (VDict data) form_type new_result = Ok r1 /\
    _determine_exemption rt data r1 = Ok (data1, r2) /\
    _check_suitability rt data1 r2 = Ok r3 /\
    _check_aml_flags rt data1 r3 = Ok r4 /\
    _check_concentration data1 r4 = Ok r5 /\
    r = verdict r5.
Proof.
  unfold validate. intros H.
  inv_bind H as r1 E1. inv_bind H as p E2. destruct p as [d r2].
  inv_bind H as r3 E3. inv_bind H as r4 E4. inv_bind H as r5 E5. inv_ok.
  exists r1, r2, r3, r4, r5. tauto.
Qed.

Lemma determine_exemption_steps rt (data data1 : gmap string value) r r2 :
  _determine_exemption rt data r = Ok (data1, r2) ->
  exists a e reason,
    exemption_flags rt (section_of data "financials") = Ok (a, e, reason) /\
    store_exemption data a e reason = Ok data1 /\
    r2 = tier_result a e r.
Proof.
  rewrite determine_exemption_unfold. intros H.
  inv_bind H as f Ef. destruct f as [[a e] reason].
  inv_bind H as d Ed. inv_ok.
  exists a, e, reason. tauto.
Qed.

Lemma verdict_is_valid r :
  is_valid (verdict r) = false <->
  red_flags r <> [] \/ (3 < length (missing_required r))%nat.
Proof.
  unfold verdict; simpl. rewrite andb_false_iff, Z.eqb_neq, Z.leb_gt.
  destruct (red_flags r); simpl; split; intros [H|H];
    try lia; try congruence; auto; right; lia.
Qed.

Lemma verdict_follow_up r :
  follow_up_needed (verdict r) = true <->
  red_flags r <> [] \/ (3 < length (missing_required r))%nat \/
  suitability_concerns r <> [].
Proof.
  unfold verdict; simpl. rewrite !orb_true_iff, !Z.ltb_lt.
  destruct (red_flags r), (suitability_concerns r); simpl;
    split; intros H; intuition (try lia; try congruence).
Qed.

(** ** Worked inputs *)

Example pep_record_report :
  report_of (validate runtime_2026 pep_record "individual") =
  {| is_valid := false; exemption_status := "ACCREDITED";
     red_flags := ["Client is a Politically Exposed Person: Senator"];
     warnings := ["NFA of $1,500,000 requires verification documentation"];
     missing_required := []; suitability_concerns := [];
     follow_up_needed := true |}.
Proof. vm_compute. reflexivity. Qed.

Example elderly_record_report :
  report_of (validate runtime_2026 elderly_record "individual") =
  {| is_valid := true; exemption_status := "NON_ELIGIBLE";
     red_flags := [];
     warnings :=
       ["Client may only invest up to $10,000 under minimum amount exemption"];
     missing_required := [];
     suitability_concerns :=
       ["Client is 76 years old with HIGH risk tolerance - ensure this is appropriate";
        "Client is 76 years old with 10+ year time horizon - verify suitability"];
     follow_up_needed := true |}.
Proof. vm_compute. reflexivity. Qed.

(** ** Field accessor *)

(** C8. For every record and every dot-separated path, [_get_nested] returns
    without raising; its result is the value found at the path, and it is
    [None] whenever a segment is missing or a node on the way is not a
    dictionary, which is also what it returns for a stored null. *)
Theorem get_nested_total_and_absent (data : value) (path : string) :
  _get_nested data path =
    Ok (match resolve data (split_on "."%char path) with
        | Some v => v
        | None => VNone
        end) /\
  (resolve data (split_on "."%char path) = None ->
   _get_nested data path = Ok VNone) /\
  (resolve data (split_on "."%char path) = Some VNone ->
   _get_nested data path = Ok VNone).
Proof.
  unfold _get_nested. rewrite get_keys_resolve.
  repeat split; intros; try rewrite H; reflexivity.
Qed.

(** ** Completeness auditor *)

(** C7. [_check_required_fields] never raises; it appends, in order, exactly
    the required paths whose resolved value is absent, null or the empty
    text; a value 0, False or [[]] counts as present; and a form type that
    is not one of the three known ones has no required path, so the report
    is returned as it was. *)
Theorem check_required_fields_missing_iff
    (data : value) (form_type : string) (result : ValidationResult) :
  exists result',
    _check_required_fields data form_type result = Ok result' /\
    missing_required result' =
      (missing_required result ++
       List.filter (path_missing data) (required_for form_type))%list /\
    (forall p,
       path_missing data p = true <->
       resolve data (split_on "."%char p) = None \/
       resolve data (split_on "."%char p) = Some VNone \/
       resolve data (split_on "."%char p) = Some (VStr "")) /\
    (forall p v, resolve data (split_on "."%char p) = Some v ->
       v = VInt 0 \/ v = VBool false \/ v = VList [] ->
       path_missing data p = false) /\
    (form_type <> "individual" -> form_type <> "corporate" ->
     form_type <> "trade" ->
     required_for form_type = [] /\ result' = result).
Proof.
  unfold _check_required_fields.
  destruct (required_loop_spec data (required_for form_type) result)
    as (r' & E & M & F).
  exists r'. split; [exact E|]. split; [exact M|]. split; [|split].
  - intros p. unfold path_missing.
    destruct (resolve data (split_on "." p)) as [v|]; simpl.
    + destruct v; simpl; split; intros H;
        try discriminate; try tauto;
        try (destruct H as [H|[H|H]]; congruence).
      * apply String.eqb_eq in H. subst. tauto.
      * destruct H as [H|[H|H]]; try congruence.
        injection H as ->. reflexivity.
    + tauto.
  - intros p v Hv Hz. unfold path_missing. rewrite Hv.
    destruct Hz as [->|[->| ->]]; reflexivity.
  - intros N1 N2 N3.
    destruct (required_for_cases form_type) as [?|[?|[?|Hnil]]];
      try contradiction.
    split; [exact Hnil|].
    rewrite Hnil in E. simpl in E. congruence.
Qed.

Lemma check_required_fields_missing_iff_witness :
  exists result',
    _check_required_fields (VDict ∅) "unknown_type" new_result = Ok result' /\
    required_for "unknown_type" = [] /\ result' = new_result.
Proof.
  destruct (check_required_fields_missing_iff (VDict ∅) "unknown_type" new_result)
    as (r' & E & _ & _ & _ & U).
  exists r'. split; [exact E|].
  apply U; discriminate.
Defined.

Lemma get_nested_total_and_absent_witness :
  resolve (VDict {[ "a" := VInt 5 ]}) (split_on "."%char "a.b") = None /\
  _get_nested (VDict {[ "a" := VInt 5 ]}) "a.b" = Ok VNone.
Proof.
  assert (H : resolve (VDict {[ "a" := VInt 5 ]}) (split_on "."%char "a.b") = None)
    by (vm_compute; reflexivity).
  split; [exact H|].
  exact (proj1 (proj2 (get_nested_total_and_absent
                         (VDict {[ "a" := VInt 5 ]}) "a.b")) H).
Defined.

(** ** Verdict flags of the orchestrator *)


(** C3. In every report returned by [validate], [follow_up_needed] is true
    exactly when there is a red flag, or more than three required fields are
    missing, or there is a suitability concern; when none of the three
    holds it is false whatever the warnings are. *)
Theorem follow_up_iff_flag_missing_or_concern
    rt (data data1 : gmap string value) (form_type : string) r :
  validate rt data form_type = Ok (data1, r) ->
  (follow_up_needed r = true <->
   red_flags r <> [] \/ (3 < length (missing_required r))%nat \/
   suitability_concerns r <> []) /\
  (red_flags r = [] -> (length (missing_required r) <= 3)%nat ->
   suitability_concerns r = [] -> follow_up_needed r = false).
Proof.
  intros H.
  destruct (validate_steps _ _ _ _ _ H)
    as (r1 & r2 & r3 & r4 & r5 & _ & _ & _ & _ & _ & ->).
  pose proof (verdict_follow_up r5) as Hiff.
  split; [exact Hiff|].
  intros R M S. simpl in R, M, S.
  apply not_true_is_false. intros F.
  apply Hiff in F. destruct F as [F|[F|F]]; [congruence | lia | congruence].
Qed.

Lemma follow_up_iff_flag_missing_or_concern_witness :
  follow_up_needed
    (report_of (validate runtime_2026 elderly_record "individual")) = true.
Proof.
  assert (E : validate runtime_2026 elderly_record "individual" =
              Ok (data_of (validate runtime_2026 elderly_record "individual"),
                  report_of (validate runtime_2026 elderly_record "individual")))
    by (vm_compute; reflexivity).
  apply (proj1 (follow_up_iff_flag_missing_or_concern _ _ _ _ _ E)).
  right; right. vm_compute. discriminate.
Defined.

(** ** The write-back and a second run *)

Lemma validate_keeps_other_keys
    rt (data data1 : gmap string value) (form_type : string) r k :
  validate rt data form_type = Ok (data1, r) ->
  k <> "exemption_status" -> data1 !! k = data !! k.
Proof.
  intros H N.
  destruct (validate_steps _ _ _ _ _ H)
    as (r1 & r2 & r3 & r4 & r5 & _ & E2 & _).
  destruct (determine_exemption_steps _ _ _ _ _ E2) as (a & e & rs & _ & St & _).
  exact (store_exemption_other _ _ _ _ _ k St N).
Qed.

(** C10. When [validate] returns, every top-level key of the record other
    than [exemption_status] holds what it held before; the
    [exemption_status] section is the previous one (an empty one if there
    was none) with [is_accredited], [is_eligible] and [accreditation_reason]
    written and every other key of the section kept. *)
Theorem validate_writes_only_exemption_status
    rt (data data1 : gmap string value) (form_type : string) r :
  validate rt data form_type = Ok (data1, r) ->
  (forall k, k <> "exemption_status" -> data1 !! k = data !! k) /\
  exists (is_accredited is_eligible : bool) (reason : value)
         (section : gmap string value),
    data1 !! "exemption_status" = Some (VDict section) /\
    section !! "is_accredited" = Some (VBool is_accredited) /\
    section !! "is_eligible" = Some (VBool is_eligible) /\
    section !! "accreditation_reason" = Some reason /\
    forall j, j <> "is_accredited" -> j <> "is_eligible" ->
              j <> "accreditation_reason" ->
              section !! j = old_exemption_section data !! j.
Proof.
  intros H.
  destruct (validate_steps _ _ _ _ _ H)
    as (r1 & r2 & r3 & r4 & r5 & _ & E2 & _).
  destruct (determine_exemption_steps _ _ _ _ _ E2) as (a & e & rs & _ & St & _).
  split.
  - intros k N. exact (store_exemption_other _ _ _ _ _ k St N).
  - exists a, e, rs, (written_section (old_exemption_section data) a e rs).
    rewrite (store_exemption_eq _ _ _ _ _ St), lookup_insert_eq.
    unfold written_section.
    split; [reflexivity|]. split; [by simplify_map_eq|].
    split; [by simplify_map_eq|]. split; [by simplify_map_eq|].
    intros j N1 N2 N3. by simplify_map_eq.
Qed.

Lemma validate_writes_only_exemption_status_witness :
  data_of (validate runtime_2026 pep_record "individual") !! "financials" =
  pep_record !! "financials".
Proof.
  assert (E : validate runtime_2026 pep_record "individual" =
              Ok (data_of (validate runtime_2026 pep_record "individual"),
                  report_of (validate runtime_2026 pep_record "individual")))
    by (vm_compute; reflexivity).
  apply (proj1 (validate_writes_only_exemption_status _ _ _ _ _ E)).
  discriminate.
Defined.

Lemma get_nested_agree (data data1 : gmap string value) (p : string) :
  (forall k, k <> "exemption_status" -> data1 !! k = data !! k) ->
  hd "" (split_on "."%char p) <> "exemption_status" ->
  _get_nested (VDict data1) p = _get_nested (VDict data) p.
Proof.
  intros A N. unfold _get_nested.
  pose proof (split_on_nonempty "." p) as NE.
  destruct (split_on "." p) as [|k rest]; [congruence|].
  simpl in *. rewrite (A k N). reflexivity.
Qed.

Lemma required_loop_agree (data data1 : gmap string value) required :
  (forall k, k <> "exemption_status" -> data1 !! k = data !! k) ->
  Forall (fun p => hd "" (split_on "."%char p) <> "exemption_status") required ->
  forall r, required_loop (VDict data1) required r =
            required_loop (VDict data) required r.
Proof.
  intros A F. induction F as [|p rest Hp _ IH]; intros r; simpl; [reflexivity|].
  rewrite (get_nested_agree _ _ _ A Hp).
  destruct (_get_nested (VDict data) p); simpl; [apply IH | reflexivity].
Qed.

Lemma required_paths_outside_exemption (form_type : string) :
  Forall (fun p => hd "" (split_on "."%char p) <> "exemption_status")
    (required_for form_type).
Proof.
  destruct (required_for_cases form_type) as [-> | [-> | [-> | ->]]];
    [ change (required_for "individual")
        with (default [] (REQUIRED_FIELDS !! "individual"))
    | change (required_for "corporate")
        with (default [] (REQUIRED_FIELDS !! "corporate"))
    | change (required_for "trade")
        with (default [] (REQUIRED_FIELDS !! "trade"))
    | ];
    vm_compute; repeat constructor; discriminate.
Qed.

Lemma validate_again rt (data data1 : gmap string value) form_type r :
  validate rt data form_type = Ok (data1, r) ->
  validate rt data1 form_type = Ok (data1, r).
Proof.
  intros H.
  destruct (validate_steps _ _ _ _ _ H)
    as (r1 & r2 & r3 & r4 & r5 & E1 & E2 & E3 & E4 & E5 & ->).
  destruct (determine_exemption_steps _ _ _ _ _ E2)
    as (a & e & rs & Fl & St & ->).
  pose proof (fun k => store_exemption_other _ _ _ _ _ k St) as A.
  unfold validate, _check_required_fields.
  rewrite (required_loop_agree _ _ _ A (required_paths_outside_exemption _)).
  fold (_check_required_fields (VDict data) form_type new_result).
  rewrite E1. simpl.
  rewrite determine_exemption_unfold.
  rewrite (exemption_flags_agree rt _ _ A), Fl. simpl.
  rewrite (store_exemption_idem _ _ _ _ _ St). simpl.
  rewrite E3. simpl. rewrite E4. simpl. rewrite E5. reflexivity.
Qed.

(** C9. If [validate] returns on a record, then calling it again on the
    record as the first call left it (with the exemption-status section
    written back, the financial section untouched) returns too, with the
    same exemption tier and the same stored accreditation reason. *)
Theorem validate_twice_same_tier_and_reason
    rt (data data1 : gmap string value) (form_type : string) r1 :
  validate rt data form_type = Ok (data1, r1) ->
  data1 !! "financials" = data !! "financials" /\
  exists (data2 : gmap string value) r2,
    validate rt data1 form_type = Ok (data2, r2) /\
    exemption_status r2 = exemption_status r1 /\
    accreditation_reason_of data2 = accreditation_reason_of data1.
Proof.
  intros H. split.
  - apply (validate_keeps_other_keys _ _ _ _ _ _ H). discriminate.
  - exists data1, r1. split; [|split; reflexivity].
    exact (validate_again _ _ _ _ _ H).
Qed.

Lemma validate_twice_same_tier_and_reason_witness :
  exists (data2 : gmap string value) r2,
    validate runtime_2026
      (data_of (validate runtime_2026 pep_record "individual")) "individual" =
      Ok (data2, r2) /\
    exemption_status r2 =
      exemption_status (report_of (validate runtime_2026 pep_record "individual")) /\
    accreditation_reason_of data2 =
      accreditation_reason_of
        (data_of (validate runtime_2026 pep_record "individual")).
Proof.
  assert (E : validate runtime_2026 pep_record "individual" =
              Ok (data_of (validate runtime_2026 pep_record "individual"),
                  report_of (validate runtime_2026 pep_record "individual")))
    by (vm_compute; reflexivity).
  exact (proj2 (validate_twice_same_tier_and_reason _ _ _ _ _ E)).
Defined.

(** ** Exemption classifier: precedence of the rules *)

Lemma exemption_flags_inputs rt financials a e reason :
  exemption_flags rt financials = Ok (a, e, reason) ->
  exists inp,
    read_inputs financials = Ok inp /\
    accredited_check rt (in_annual_income inp) (in_total_income inp)
      (in_nfa inp) (in_net_worth inp) (in_income_stable inp) = Ok (a, reason) /\
    eligible_check a (in_annual_income inp) (in_total_income inp)
      (in_net_worth inp) = Ok e.
Proof.
  unfold exemption_flags, read_inputs. intros H.
  inv_bind H as ai E1. inv_bind H as si E2. inv_bind H as tot E3.
  inv_bind H as nfa E4. inv_bind H as nw E5. inv_bind H as st E6.
  inv_bind H as p E7. destruct p as [a' rs]. inv_bind H as e' E8. inv_ok.
  rewrite E1; simpl. rewrite E2; simpl. rewrite E3; simpl.
  rewrite E4; simpl. rewrite E5; simpl. rewrite E6; simpl.
  eexists. split; [reflexivity|]. simpl. tauto.
Qed.

Lemma accredited_check_first_rule rt inp a reason :
  accredited_check rt (in_annual_income inp) (in_total_income inp)
    (in_nfa inp) (in_net_worth inp) (in_income_stable inp) = Ok (a, reason) ->
  match first_rule inp with
  | Some rule =>
      a = true /\
      exists t, format_comma rt (rule_amount inp rule) = Ok t /\
                reason = VStr (rule_text rule t)
  | None => a = false /\ reason = VNone
  end.
Proof.
  unfold accredited_check, first_rule, accredited_rules, rule_met, meets.
  unfold ACCREDITED_INCOME_SINGLE, ACCREDITED_INCOME_JOINT, ACCREDITED_NFA,
    ACCREDITED_NET_ASSETS.
  simpl. intros H.
  inv_bind H as c1 E1. rewrite E1.
  destruct (c1 && truthy (in_income_stable inp)).
  { inv_bind H as t Et. inv_ok. simpl. eauto. }
  inv_bind H as c2 E2. rewrite E2.
  destruct (c2 && truthy (in_income_stable inp)).
  { inv_bind H as t Et. inv_ok. simpl. eauto. }
  inv_bind H as c3 E3. rewrite E3. destruct c3.
  { inv_bind H as t Et. inv_ok. simpl. eauto. }
  inv_bind H as c4 E4. rewrite E4. destruct c4.
  { inv_bind H as t Et. inv_ok. simpl. eauto. }
  inv_ok. tauto.
Qed.

Lemma first_rule_of_met inp rule :
  rule_met inp rule = true -> exists rule', first_rule inp = Some rule'.
Proof.
  intros M. unfold first_rule.
  destruct (List.find (rule_met inp) accredited_rules) as [r'|] eqn:F; [eauto|].
  exfalso.
  pose proof (find_none _ _ F rule) as N.
  rewrite M in N. discriminate N.
  destruct rule; simpl; tauto.
Qed.

Lemma first_met_first_rule inp rule :
  first_met inp rule -> first_rule inp = Some rule.
Proof.
  unfold first_rule, accredited_rules. destruct rule; simpl.
  - intros ->. reflexivity.
  - intros (-> & ->). reflexivity.
  - intros (-> & -> & ->). reflexivity.
  - intros (-> & -> & -> & ->). reflexivity.
Qed.

(** ** Records with the expected shape *)

Lemma section_of_dict (data : gmap string value) k :
  dict_or_absent (data !! k) = true ->
  section_of data k = VDict (section_dict data k).
Proof.
  unfold section_of, section_dict.
  destruct (data !! k) as [[]|]; simpl; intros; congruence.
Qed.

Lemma get_or_zero_int (d : gmap string value) k :
  int_or_absent (d !! k) = true ->
  get_or_zero (VDict d) k = Ok (VInt (int_field d k)).
Proof.
  unfold get_or_zero, int_field, py_get, py_get_default. simpl.
  destruct (d !! k) as [[]|]; simpl; intros; try discriminate; try reflexivity.
  unfold or_zero. simpl. destruct (z =? 0) eqn:Z0; simpl; [|reflexivity].
  apply Z.eqb_eq in Z0. congruence.
Qed.

Lemma accredited_check_ints rt (ai tot nfa nw : Z) (st : value) :
  exists reason,
    accredited_check rt (VInt ai) (VInt tot) (VInt nfa) (VInt nw) st =
    Ok ((200000 <=? ai) && truthy st || (300000 <=? tot) && truthy st ||
        (1000000 <=? nfa) || (5000000 <=? nw), reason).
Proof.
  unfold accredited_check, ACCREDITED_INCOME_SINGLE, ACCREDITED_INCOME_JOINT,
    ACCREDITED_NFA, ACCREDITED_NET_ASSETS. simpl.
  destruct ((200000 <=? ai) && truthy st); simpl; [eauto|].
  destruct ((300000 <=? tot) && truthy st); simpl; [eauto|].
  destruct (1000000 <=? nfa); simpl; [eauto|].
  destruct (5000000 <=? nw); simpl; eauto.
Qed.

Lemma eligible_check_ints (a : bool) (ai tot nw : Z) :
  eligible_check a (VInt ai) (VInt tot) (VInt nw) =
  Ok (negb a && ((75000 <=? ai) || (125000 <=? tot) || (400000 <=? nw))).
Proof.
  unfold eligible_check, ELIGIBLE_INCOME_SINGLE, ELIGIBLE_INCOME_JOINT,
    ELIGIBLE_NET_ASSETS.
  destruct a; simpl; [reflexivity|].
  destruct (75000 <=? ai); simpl; [reflexivity|].
  destruct (125000 <=? tot); simpl; reflexivity.
Qed.

Lemma determine_exemption_ints rt (data : gmap string value) result :
  financials_well_typed data = true ->
  let fin := section_dict data "financials" in
  let ai := int_field fin "annual_income" in
  let si := int_field fin "spouse_income" in
  let nfa := int_field fin "net_financial_assets" in
  let nw := int_field fin "net_worth" in
  let st := truthy (default (VBool false) (fin !! "income_stable_2_years")) in
  exists data1,
    _determine_exemption rt data result =
    Ok (data1, tier_result (accredited_ints ai si nfa nw st)
                 (eligible_ints ai si nfa nw st) result).
Proof.
  unfold financials_well_typed. rewrite !andb_true_iff.
  intros (((((Hf & Hai) & Hsi) & Hnfa) & Hnw) & Hes). simpl.
  unfold _determine_exemption.
  rewrite (section_of_dict _ _ Hf).
  rewrite (get_or_zero_int _ _ Hai); cbn [bind].
  rewrite (get_or_zero_int _ _ Hsi); cbn [bind].
  rewrite (get_or_zero_int _ _ Hnfa); cbn [bind].
  rewrite (get_or_zero_int _ _ Hnw); cbn [bind].
  set (fin := section_dict data "financials").
  cbn [py_add as_num py_get_default bind].
  set (st := default (VBool false) (fin !! "income_stable_2_years")).
  destruct (accredited_check_ints rt (int_field fin "annual_income")
              (int_field fin "annual_income" + int_field fin "spouse_income")
              (int_field fin "net_financial_assets")
              (int_field fin "net_worth") st) as (reason & ->).
  cbn [bind]. rewrite eligible_check_ints. cbn [bind].
  match goal with
  | |- context [store_exemption data ?a ?e ?rs] =>
      destruct (store_exemption_total data a e rs Hes) as (data1 & ->)
  end.
  cbn [bind]. exists data1. reflexivity.
Qed.

Lemma tier_result_accredited e r :
  exemption_status (tier_result true e r) = "ACCREDITED".
Proof. reflexivity. Qed.

Lemma store_exemption_reason (data data1 : gmap string value) a e reason :
  store_exemption data a e reason = Ok data1 ->
  accreditation_reason_of data1 = Some reason.
Proof.
  intros St. unfold accreditation_reason_of.
  rewrite (store_exemption_eq _ _ _ _ _ St), lookup_insert_eq.
  unfold written_section. by simplify_map_eq.
Qed.

(** C6. With the stability flag true and well-typed financial figures, an
    annual income of exactly 200,000 is classified ACCREDITED; an annual
    income of 199,999 with joint income below 300,000, net financial assets
    below 1,000,000 and net worth below 5,000,000 is classified ELIGIBLE. *)
Theorem accredited_income_boundary
    rt (data : gmap string value) (result : ValidationResult) :
  financials_well_typed data = true ->
  section_dict data "financials" !! "income_stable_2_years" =
    Some (VBool true) ->
  (section_dict data "financials" !! "annual_income" = Some (VInt 200000) ->
   exists (data1 : gmap string value) r1,
     _determine_exemption rt data result = Ok (data1, r1) /\
     exemption_status r1 = "ACCREDITED") /\
  (section_dict data "financials" !! "annual_income" = Some (VInt 199999) ->
   199999 + int_field (section_dict data "financials") "spouse_income"
     < 300000 ->
   int_field (section_dict data "financials") "net_financial_assets"
     < 1000000 ->
   int_field (section_dict data "financials") "net_worth" < 5000000 ->
   exists (data1 : gmap string value) r1,
     _determine_exemption rt data result = Ok (data1, r1) /\
     exemption_status r1 = "ELIGIBLE").
Proof.
  intros W St.
  destruct (determine_exemption_ints rt data result W) as (data1 & E).
  simpl in E. rewrite St in E. simpl in E.
  split.
  - intros Hai. exists data1. eexists. split; [exact E|].
    assert (int_field (section_dict data "financials") "annual_income"
            = 200000) as ->
      by (unfold int_field; rewrite Hai; reflexivity).
    reflexivity.
  - intros Hai Hj Hn Hw. exists data1. eexists. split; [exact E|].
    assert (int_field (section_dict data "financials") "annual_income"
            = 199999) as ->
      by (unfold int_field; rewrite Hai; reflexivity).
    unfold eligible_ints, accredited_ints.
    apply Z.leb_gt in Hj, Hn, Hw. rewrite Hj, Hn, Hw.
    reflexivity.
Qed.

Lemma accredited_income_boundary_witness :
  (exists (data1 : gmap string value) r1,
     _determine_exemption runtime_2026
       {[ "financials" := VDict {[ "annual_income" := VInt 200000;
                                   "income_stable_2_years" := VBool true ]} ]}
       new_result = Ok (data1, r1) /\
     exemption_status r1 = "ACCREDITED") /\
  (exists (data1 : gmap string value) r1,
     _determine_exemption runtime_2026
       {[ "financials" := VDict {[ "annual_income" := VInt 199999;
                                   "income_stable_2_years" := VBool true ]} ]}
       new_result = Ok (data1, r1) /\
     exemption_status r1 = "ELIGIBLE").
Proof.
  split.
  - refine (proj1 (accredited_income_boundary runtime_2026
                     {[ "financials" :=
                          VDict {[ "annual_income" := VInt 200000;
                                   "income_stable_2_years" := VBool true ]} ]}
                     new_result _ _) _); vm_compute; reflexivity.
  - refine (proj2 (accredited_income_boundary runtime_2026
                     {[ "financials" :=
                          VDict {[ "annual_income" := VInt 199999;
                                   "income_stable_2_years" := VBool true ]} ]}
                     new_result _ _) _ _ _ _); vm_compute; reflexivity.
Defined.

(** ** Rounding to binary64 *)

Lemma digits2_pos_size (p : positive) : digits2_pos p = Pos.size p.
Proof. induction p; simpl; congruence. Qed.

Lemma Zdigits2_bounds (m : Z) :
  0 < m -> 2 ^ (Zdigits2 m - 1) <= m < 2 ^ Zdigits2 m.
Proof.
  destruct m as [|p|p]; try lia. intros _. simpl.
  rewrite digits2_pos_size.
  pose proof (Pos.size_gt p) as G. pose proof (Pos.size_le p) as L.
  apply Pos2Z.pos_lt_pos in G. apply Pos2Z.pos_le_pos in L.
  rewrite Pos2Z.inj_pow in G, L.
  replace (Z.pos (Pos.size p)) with (Z.succ (Z.pos (Pos.size p) - 1)) in L by lia.
  rewrite Z.pow_succ_r in L by lia.
  change (Z.pos p~0) with (2 * Z.pos p) in L. lia.
Qed.

Lemma Zdigits2_nonneg (m : Z) : 0 <= Zdigits2 m.
Proof. destruct m; simpl; lia. Qed.

Lemma Zdigits2_le (m k : Z) : 0 <= m -> m < 2 ^ k -> 0 <= k -> Zdigits2 m <= k.
Proof.
  intros M H K.
  destruct (Z.eq_dec m 0) as [->|N]; [simpl; lia|].
  pose proof (Zdigits2_bounds m ltac:(lia)) as [L _].
  pose proof (Zdigits2_nonneg m).
  destruct (Z.le_gt_cases (Zdigits2 m) k) as [|G]; [assumption|].
  exfalso.
  assert (2 ^ k <= 2 ^ (Zdigits2 m - 1)) by (apply Z.pow_le_mono_r; lia).
  lia.
Qed.

Lemma shr_1_m (mrs : shr_record) :
  0 <= shr_m mrs -> shr_m (shr_1 mrs) = shr_m mrs / 2.
Proof.
  destruct mrs as [m r s]. simpl. intros M.
  destruct m as [|p|p]; [reflexivity| |lia].
  destruct p; simpl.
  - rewrite Pos2Z.inj_xI.
    apply Z.div_unique with (r := 1); lia.
  - rewrite Pos2Z.inj_xO.
    apply Z.div_unique with (r := 0); lia.
  - reflexivity.
Qed.

Lemma iter_pos_shr_m (p : positive) : forall mrs : shr_record,
  0 <= shr_m mrs ->
  shr_m (SpecFloat.iter_pos shr_1 p mrs) = shr_m mrs / 2 ^ Zpos p.
Proof.
  induction p as [p IH|p IH|]; intros mrs M; simpl SpecFloat.iter_pos.
  - assert (0 <= shr_m (shr_1 mrs))
      by (rewrite shr_1_m by assumption; apply Z.div_pos; lia).
    assert (0 <= shr_m (SpecFloat.iter_pos shr_1 p (shr_1 mrs)))
      by (rewrite IH by assumption; apply Z.div_pos; lia).
    rewrite IH, IH, shr_1_m by assumption.
    rewrite !Z.div_div by lia.
    f_equal. rewrite <- !Z.pow_add_r by lia.
    change 2 with (2 ^ 1) at 1. rewrite <- Z.pow_add_r by lia.
    f_equal. lia.
  - assert (0 <= shr_m (SpecFloat.iter_pos shr_1 p mrs))
      by (rewrite IH by assumption; apply Z.div_pos; lia).
    rewrite IH, IH by assumption.
    rewrite !Z.div_div by lia.
    f_equal. rewrite <- Z.pow_add_r by lia.
    f_equal. lia.
  - rewrite shr_1_m by assumption. reflexivity.
Qed.

Lemma shr_m_of_loc (m : Z) (l : location) : shr_m (shr_record_of_loc m l) = m.
Proof. destruct l as [|[]]; reflexivity. Qed.

(** What [shr_fexp] does to a non-negative mantissa: it divides by
    [2 ^ n] and adds [n] to the exponent, for the shift [n] that brings
    the exponent up to [fexp]. *)
Lemma shr_fexp_spec (m e : Z) (l : location) :
  0 <= m ->
  let n := Z.max 0 (fexp f64_prec f64_emax (Zdigits2 m + e) - e) in
  shr_m (fst (shr_fexp f64_prec f64_emax m e l)) = m / 2 ^ n /\
  snd (shr_fexp f64_prec f64_emax m e l) = e + n.
Proof.
  intros M. unfold shr_fexp, shr.
  destruct (fexp f64_prec f64_emax (Zdigits2 m + e) - e) as [|p|p] eqn:N;
    simpl fst; simpl snd.
  - rewrite shr_m_of_loc. simpl. rewrite Z.div_1_r. lia.
  - rewrite iter_pos_shr_m by (rewrite shr_m_of_loc; assumption).
    rewrite shr_m_of_loc.
    replace (Z.max 0 (Z.pos p)) with (Z.pos p) by lia. lia.
  - rewrite shr_m_of_loc.
    replace (Z.max 0 (Z.neg p)) with 0 by lia.
    simpl. rewrite Z.div_1_r. lia.
Qed.

Lemma round_nearest_even_bounds (m : Z) (l : location) :
  m <= round_nearest_even m l <= m + 1.
Proof.
  destruct l as [|[]]; simpl; try lia.
  destruct (Z.even m); lia.
Qed.

Lemma fexp_eq (e : Z) : fexp f64_prec f64_emax e = Z.max (e - 53) (-1074).
Proof. reflexivity. Qed.

Lemma Zdigits2_pos (m : Z) : 0 < m -> 1 <= Zdigits2 m.
Proof. destruct m; simpl; lia. Qed.

(** Outside the subnormal range a positive mantissa stays positive. *)
Lemma shr_fexp_positive (m e : Z) (l : location) :
  0 < m -> -1021 <= e ->
  0 < shr_m (fst (shr_fexp f64_prec f64_emax m e l)) /\
  e <= snd (shr_fexp f64_prec f64_emax m e l).
Proof.
  intros M E.
  destruct (shr_fexp_spec m e l ltac:(lia)) as [-> ->].
  pose proof (Zdigits2_pos m M) as D.
  pose proof (Zdigits2_bounds m M) as [L _].
  rewrite fexp_eq.
  set (d := Zdigits2 m) in *.
  set (n := Z.max 0 (Z.max (d + e - 53) (-1074) - e)).
  assert (0 <= n <= d - 1) as [N0 N1] by (unfold n; lia).
  split; [|lia].
  apply Z.div_str_pos. split; [apply Z.pow_pos_nonneg; lia|].
  transitivity (2 ^ (d - 1)); [apply Z.pow_le_mono_r; lia | exact L].
Qed.

Lemma binary_round_aux_not_zero (sx : bool) (m e : Z) (l : location) :
  0 < m -> -1021 <= e ->
  f64_is_zero (binary_round_aux f64_prec f64_emax sx m e l) = false.
Proof.
  intros M E. unfold binary_round_aux.
  pose proof (shr_fexp_positive m e l M E) as [P1 E1].
  destruct (shr_fexp f64_prec f64_emax m e l) as [mrs1 e1]. simpl in P1, E1.
  pose proof (round_nearest_even_bounds (shr_m mrs1) (loc_of_shr_record mrs1))
    as [R _].
  pose proof (shr_fexp_positive
                (round_nearest_even (shr_m mrs1) (loc_of_shr_record mrs1))
                e1 loc_Exact ltac:(lia) ltac:(lia)) as [P2 _].
  destruct (shr_fexp f64_prec f64_emax _ e1 loc_Exact) as [mrs2 e2].
  simpl in P2.
  destruct (shr_m mrs2); try lia.
  destruct (e2 <=? f64_emax - f64_prec); reflexivity.
Qed.

(** A positive integer never converts to a zero float. *)
Lemma float_of_int_positive (z : Z) (g : spec_float) :
  0 < z -> float_of_int z = Ok g -> f64_is_zero g = false.
Proof.
  intros Z0 H. unfold float_of_int in H.
  destruct (f64_is_inf _); [discriminate|]. injection H as <-.
  destruct z as [|p|p]; try lia.
  unfold binary_normalize, binary_round.
  pose proof (Zdigits2_pos (Zpos p) ltac:(lia)) as D. simpl in D.
  assert (-1021 <= snd (shl_align p 0
             (fexp f64_prec f64_emax (Z.pos (digits2_pos p) + 0)))) as A.
  { unfold shl_align. rewrite fexp_eq.
    destruct (Z.max _ _ - 0) eqn:S; simpl; lia. }
  destruct (shl_align p 0 _) as [mz ez]. simpl in A.
  apply binary_round_aux_not_zero; lia.
Qed.

Lemma Zdigits2_div_pow (m n : Z) :
  0 <= m -> 0 <= n -> Zdigits2 (m / 2 ^ n) <= Z.max 0 (Zdigits2 m - n).
Proof.
  intros M N.
  assert (P : 0 < 2 ^ n) by (apply Z.pow_pos_nonneg; lia).
  assert (Q : 0 <= m / 2 ^ n) by (apply Z.div_pos; lia).
  destruct (Z.eq_dec (m / 2 ^ n) 0) as [->|NZ]; [simpl; lia|].
  assert (M0 : 0 < m).
  { destruct (Z.eq_dec m 0) as [->|]; [rewrite Z.div_0_l in NZ; lia | lia]. }
  pose proof (Zdigits2_bounds m M0) as [_ U].
  assert (n < Zdigits2 m).
  { destruct (Z.le_gt_cases (Zdigits2 m) n) as [G|]; [|assumption].
    exfalso. apply NZ. apply Z.div_small. split; [lia|].
    eapply Z.lt_le_trans; [exact U|]. apply Z.pow_le_mono_r; lia. }
  replace (Z.max 0 (Zdigits2 m - n)) with (Zdigits2 m - n) by lia.
  apply Zdigits2_le; [assumption| |lia].
  apply Z.div_lt_upper_bound; [assumption|].
  rewrite <- Z.pow_add_r by lia.
  replace (n + (Zdigits2 m - n)) with (Zdigits2 m) by lia. exact U.
Qed.

Lemma Zdigits2_round (m m' : Z) :
  0 <= m -> m <= m' <= m + 1 -> Zdigits2 m' <= Zdigits2 m + 1.
Proof.
  intros M R. pose proof (Zdigits2_nonneg m) as D.
  apply Zdigits2_le; [lia| |lia].
  rewrite Z.pow_add_r by lia.
  destruct (Z.eq_dec m 0) as [->|NZ]; [simpl in *; lia|].
  pose proof (Zdigits2_bounds m ltac:(lia)) as [_ U].
  change (2 ^ 1) with 2. lia.
Qed.

(** A mantissa and exponent whose magnitude stays below [2 ^ 1023] never
    round to an infinity. *)
Lemma binary_round_aux_finite (sx : bool) (m e : Z) (l : location) :
  0 <= m -> e <= 970 -> Zdigits2 m + e <= 1023 ->
  f64_is_inf (binary_round_aux f64_prec f64_emax sx m e l) = false.
Proof.
  intros M E D. unfold binary_round_aux.
  destruct (shr_fexp_spec m e l M) as [M1 E1].
  destruct (shr_fexp f64_prec f64_emax m e l) as [mrs1 e1].
  simpl in M1, E1. rewrite fexp_eq in M1, E1.
  set (n1 := Z.max 0 (Z.max (Zdigits2 m + e - 53) (-1074) - e)) in *.
  assert (N1 : 0 <= n1) by (unfold n1; lia).
  pose proof (Zdigits2_div_pow m n1 M N1) as D1. rewrite <- M1 in D1.
  assert (P1 : 0 <= shr_m mrs1)
    by (rewrite M1; apply Z.div_pos; [lia | apply Z.pow_pos_nonneg; lia]).
  pose proof (round_nearest_even_bounds (shr_m mrs1) (loc_of_shr_record mrs1))
    as R.
  set (m2 := round_nearest_even (shr_m mrs1) (loc_of_shr_record mrs1)) in *.
  pose proof (Zdigits2_round _ _ P1 R) as D2.
  destruct (shr_fexp_spec m2 e1 loc_Exact ltac:(lia)) as [_ E2].
  destruct (shr_fexp f64_prec f64_emax m2 e1 loc_Exact) as [mrs2 e2].
  simpl in E2. rewrite fexp_eq in E2.
  destruct (shr_m mrs2); try reflexivity.
  replace (e2 <=? f64_emax - f64_prec) with true; [reflexivity|].
  symmetry. apply Z.leb_le. unfold f64_emax, f64_prec. unfold n1 in *. lia.
Qed.


Lemma pos_iter_xO (p d : positive) :
  Zpos (Pos.iter xO p d) = Zpos p * 2 ^ Zpos d.
Proof.
  induction d as [|d IH] using Pos.peano_ind.
  - simpl. lia.
  - rewrite Pos.iter_succ, Pos2Z.inj_xO, IH, Pos2Z.inj_succ, Z.pow_succ_r by lia.
    lia.
Qed.

(** An integer of magnitude below [2 ^ 1023] converts to a float. *)
Lemma float_of_int_fits (z : Z) :
  Z.abs z < 2 ^ 1023 -> exists f, float_of_int z = Ok f.
Proof.
  intros B. unfold float_of_int.
  assert (f64_is_inf (binary_normalize f64_prec f64_emax z 0 false) = false)
    as ->; [|eauto].
  assert (Fits : forall sx (p : positive),
            Zpos p < 2 ^ 1023 ->
            f64_is_inf (binary_round f64_prec f64_emax sx p 0) = false).
  { intros sx p P. unfold binary_round.
    assert (D : Zdigits2 (Zpos p) <= 1023) by (apply Zdigits2_le; lia).
    pose proof (Zdigits2_bounds (Zpos p) ltac:(lia)) as [_ U].
    simpl Zdigits2 in D, U.
    unfold shl_align.
    destruct (fexp f64_prec f64_emax (Z.pos (digits2_pos p) + 0) - 0)
      as [|k|k] eqn:K;
      try (apply binary_round_aux_finite; simpl Zdigits2; lia).
    apply binary_round_aux_finite; [lia|lia|].
    assert (Zdigits2 (Z.pos (Pos.iter xO p k)) <= Z.pos (digits2_pos p) + Z.pos k);
      [|lia].
    apply Zdigits2_le; [lia| |lia].
    rewrite pos_iter_xO, Z.pow_add_r by lia.
    assert (0 < 2 ^ Z.pos k) by (apply Z.pow_pos_nonneg; lia).
    nia. }
  destruct z as [|p|p]; simpl binary_normalize; [reflexivity| |];
    apply Fits; lia.
Qed.

(** ** Concentration checker *)

Lemma float_gt_int_nonzero (g : spec_float) :
  float_gt_int g 0 = true -> f64_is_zero g = false.
Proof. destruct g; simpl; intros; try reflexivity; discriminate. Qed.

Lemma float_of_int_not_zero_division (z : Z) :
  float_of_int z <> Raise ZeroDivisionError.
Proof. unfold float_of_int. destruct (f64_is_inf _); discriminate. Qed.

(** A divisor that passed [> 0] is not zero, also after its conversion to
    a float. *)
Lemma py_truediv_no_zero_division (amount nfa : value) :
  py_gt nfa 0 = Ok true -> py_truediv amount nfa <> Raise ZeroDivisionError.
Proof.
  unfold py_gt, py_truediv.
  destruct (as_num nfa) as [[y|g]|]; try discriminate; intros H; inv_ok.
  - apply Z.ltb_lt in H.
    destruct (as_num amount) as [[x|f]|]; try discriminate.
    + unfold int_truediv.
      destruct (y =? 0) eqn:Y; [apply Z.eqb_eq in Y; lia|].
      destruct (f64_is_inf _); discriminate.
    + pose proof (float_of_int_not_zero_division y) as N.
      destruct (float_of_int y) as [g|e] eqn:G; simpl.
      * unfold float_truediv.
        rewrite (float_of_int_positive y g H G). discriminate.
      * intros C. apply N. congruence.
  - pose proof (float_gt_int_nonzero _ H) as Zg.
    destruct (as_num amount) as [[x|f]|]; try discriminate.
    + pose proof (float_of_int_not_zero_division x) as N.
      destruct (float_of_int x) as [f|e]; simpl.
      * unfold float_truediv. rewrite Zg. discriminate.
      * intros C. apply N. congruence.
    + unfold float_truediv. rewrite Zg. discriminate.
Qed.

Lemma float_mul_int_not_zero_division (f : spec_float) (c : Z) :
  float_mul_int f c <> Raise ZeroDivisionError.
Proof.
  unfold float_mul_int.
  pose proof (float_of_int_not_zero_division c) as N.
  destruct (float_of_int c); simpl; congruence.
Qed.

Lemma concentration_pct_no_zero_division (amount nfa : value) :
  py_gt nfa 0 = Ok true ->
  concentration_pct amount nfa <> Raise ZeroDivisionError.
Proof.
  intros H. unfold concentration_pct.
  pose proof (py_truediv_no_zero_division amount nfa H) as N.
  destruct (py_truediv amount nfa) as [q|e]; simpl; [|congruence].
  apply float_mul_int_not_zero_division.
Qed.

Lemma py_gt_not_zero_division (v : value) (c : Z) :
  py_gt v c <> Raise ZeroDivisionError.
Proof. unfold py_gt. destruct (as_num v) as [[]|]; discriminate. Qed.

Lemma get_or_zero_not_zero_division (v : value) (k : string) :
  get_or_zero v k <> Raise ZeroDivisionError.
Proof. destruct v; discriminate. Qed.

Lemma check_concentration_no_zero_division
    (data : gmap string value) (result : ValidationResult) :
  _check_concentration data result <> Raise ZeroDivisionError.
Proof.
  unfold _check_concentration.
  pose proof (get_or_zero_not_zero_division
                (section_of data "financials") "net_financial_assets") as N1.
  destruct (get_or_zero _ "net_financial_assets") as [nfa|]; simpl;
    [|congruence].
  pose proof (get_or_zero_not_zero_division
                (section_of data "investment_details") "amount") as N2.
  destruct (get_or_zero _ "amount") as [amount|]; simpl; [|congruence].
  pose proof (py_gt_not_zero_division nfa 0) as N3.
  destruct (py_gt nfa 0) as [[]|] eqn:G; simpl; [|discriminate|congruence].
  pose proof (py_gt_not_zero_division amount 0) as N4.
  destruct (py_gt amount 0) as [[]|]; simpl; [|discriminate|congruence].
  pose proof (concentration_pct_no_zero_division amount nfa G) as N5.
  destruct (concentration_pct amount nfa); simpl; [discriminate|congruence].
Qed.

(** Above 25 is above 10. *)
Lemma float_gt_25_gt_10 (pct : spec_float) :
  float_gt_int pct 25 = true -> float_gt_int pct 10 = true.
Proof.
  unfold float_gt_int, float_cmp_int.
  destruct pct as [s|s| |s m e];
    try (simpl; congruence); try (destruct s; simpl; congruence).
  destruct (0 <=? e) eqn:E.
  - destruct (_ ?= 25) eqn:C; try discriminate. intros _.
    apply Z.compare_gt_iff in C.
    replace (_ ?= 10) with Gt; [reflexivity|].
    symmetry. apply Z.compare_gt_iff. lia.
  - destruct (_ ?= 25 * _) eqn:C; try discriminate. intros _.
    apply Z.compare_gt_iff in C.
    assert (0 < 2 ^ (- e)) by (apply Z.pow_pos_nonneg; lia).
    replace (_ ?= 10 * _) with Gt; [reflexivity|].
    symmetry. apply Z.compare_gt_iff. lia.
Qed.

Lemma check_concentration_run
    (data : gmap string value) (result : ValidationResult) (nfa amount : value) :
  get_or_zero (section_of data "financials") "net_financial_assets" = Ok nfa ->
  get_or_zero (section_of data "investment_details") "amount" = Ok amount ->
  _check_concentration data result =
    let* nfa_pos := py_gt nfa 0 in
    if nfa_pos then
      let* amount_pos := py_gt amount 0 in
      if amount_pos then
        let* pct := concentration_pct amount nfa in
        Ok (emit_concentration pct result)
      else Ok result
    else Ok result.
Proof.
  intros R1 R2. unfold _check_concentration. rewrite R1. cbn [bind].
  rewrite R2. reflexivity.
Qed.

Lemma get_or_zero_falsy (d : gmap string value) (k : string) :
  truthy (default VNone (d !! k)) = false ->
  get_or_zero (VDict d) k = Ok (VInt 0).
Proof.
  intros T. unfold get_or_zero, py_get, py_get_default. cbn [bind].
  unfold or_zero. rewrite T. reflexivity.
Qed.

Example ten_percent_is_ten :
  concentration_pct (VInt 10000) (VInt 100000) = Ok f64_ten /\
  float_cmp_int f64_ten 10 = Some Eq.
Proof. split; vm_compute; reflexivity. Qed.

Example ten_percent_record_unchanged :
  _check_concentration ten_percent_record new_result = Ok new_result.
Proof. vm_compute. reflexivity. Qed.

Example ten_point_one_percent_warns :
  warnings (emit_concentration
              (S754_finite false 5685794529555252 (-49)) new_result) =
  ["Investment represents 10.1% of NFA (>10%) - document suitability justification"]
  /\ concentration_pct (VInt 101) (VInt 1000) =
     Ok (S754_finite false 5685794529555252 (-49)).
Proof. split; vm_compute; reflexivity. Qed.

(** C5. [_check_concentration] never divides by zero. It changes the report
    only after both the net financial assets and the investment amount
    passed [> 0]: with absent, null or zero net financial assets it returns
    the report as passed in, with an absent, null or zero amount it either
    does the same or stops on assets that are not a number, and in general
    a returned report is the one passed in unless both tests succeeded.  When both are positive and the
    percentage [pct] is computed, the report gains the warning exactly when
    [pct > 10] and the suitability concern exactly when [pct > 25]; a
    percentage equal to 10 adds nothing, and one above 25 adds both the
    warning and the concern. *)
Theorem concentration_guard_and_thresholds
    (data : gmap string value) (result : ValidationResult) :
  _check_concentration data result <> Raise ZeroDivisionError /\
  (forall (fin inv : gmap string value),
     section_of data "financials" = VDict fin ->
     section_of data "investment_details" = VDict inv ->
     (truthy (default VNone (fin !! "net_financial_assets")) = false ->
      _check_concentration data result = Ok result) /\
     (truthy (default VNone (inv !! "amount")) = false ->
      _check_concentration data result = Ok result \/
      _check_concentration data result = Raise TypeError)) /\
  (forall nfa amount,
     get_or_zero (section_of data "financials") "net_financial_assets"
       = Ok nfa ->
     get_or_zero (section_of data "investment_details") "amount" = Ok amount ->
     (py_gt nfa 0 <> Ok true \/ py_gt amount 0 <> Ok true ->
      forall r', _check_concentration data result = Ok r' -> r' = result) /\
     (forall pct,
        py_gt nfa 0 = Ok true -> py_gt amount 0 = Ok true ->
        concentration_pct amount nfa = Ok pct ->
        exists r',
          _check_concentration data result = Ok r' /\
          warnings r' =
            (warnings result ++
             if float_gt_int pct 10 then [concentration_warning pct] else [])%list /\
          suitability_concerns r' =
            (suitability_concerns result ++
             if float_gt_int pct 25 then [concentration_concern pct] else [])%list /\
          (float_cmp_int pct 10 = Some Eq ->
           warnings r' = warnings result /\
           suitability_concerns r' = suitability_concerns result) /\
          (float_gt_int pct 25 = true ->
           warnings r' = (warnings result ++ [concentration_warning pct])%list /\
           suitability_concerns r' =
             (suitability_concerns result ++ [concentration_concern pct])%list))).
Proof.
  split; [apply check_concentration_no_zero_division|].
  assert (General : forall nfa amount,
    get_or_zero (section_of data "financials") "net_financial_assets"
      = Ok nfa ->
    get_or_zero (section_of data "investment_details") "amount" = Ok amount ->
    py_gt nfa 0 <> Ok true \/ py_gt amount 0 <> Ok true ->
    forall r', _check_concentration data result = Ok r' -> r' = result).
  { intros nfa amount R1 R2 NP r'.
    rewrite (check_concentration_run _ _ _ _ R1 R2).
    destruct (py_gt nfa 0) as [[]|]; cbn [bind]; try discriminate;
      [|intros; inv_ok; reflexivity].
    destruct (py_gt amount 0) as [[]|]; cbn [bind]; try discriminate;
      [|intros; inv_ok; reflexivity].
    destruct NP; congruence. }
  split; [|intros nfa amount R1 R2; split; [apply General; assumption|]].
  - intros fin inv Sf Si.
    assert (exists nfa, get_or_zero (section_of data "financials")
                          "net_financial_assets" = Ok nfa) as (nfa & R1)
      by (rewrite Sf; unfold get_or_zero; simpl; eauto).
    assert (exists amount, get_or_zero (section_of data "investment_details")
                             "amount" = Ok amount) as (amount & R2)
      by (rewrite Si; unfold get_or_zero; simpl; eauto).
    rewrite (check_concentration_run _ _ _ _ R1 R2).
    split; intros F.
    + rewrite Sf, (get_or_zero_falsy _ _ F) in R1. inv_ok. reflexivity.
    + rewrite Si, (get_or_zero_falsy _ _ F) in R2. inv_ok.
      destruct (py_gt nfa 0) as [[]|e] eqn:G; simpl; auto.
      right. unfold py_gt in G.
      destruct (as_num nfa) as [[]|]; congruence.
  - intros pct G1 G2 P.
    rewrite (check_concentration_run _ _ _ _ R1 R2), G1. cbn [bind].
    rewrite G2. cbn [bind]. rewrite P. cbn [bind].
    eexists. split; [reflexivity|].
    unfold emit_concentration.
    pose proof (float_gt_25_gt_10 pct) as Both.
    unfold float_gt_int in *.
    destruct (float_cmp_int pct 10) as [[]|] eqn:C10;
      destruct (float_cmp_int pct 25) as [[]|] eqn:C25; simpl;
      rewrite ?app_nil_r;
      repeat split; intros; try reflexivity; try discriminate;
      try (specialize (Both eq_refl); discriminate).
Qed.

Lemma concentration_guard_and_thresholds_witness :
  (exists r',
     _check_concentration thirty_percent_record new_result = Ok r' /\
     warnings r' =
       ["Investment represents 30.0% of NFA (>10%) - document suitability justification"] /\
     suitability_concerns r' =
       ["High concentration: 30.0% of NFA in single investment"]) /\
  _check_concentration zero_nfa_record new_result = Ok new_result.
Proof.
  split.
  - destruct (proj2 (proj2 (concentration_guard_and_thresholds
                              thirty_percent_record new_result))
                (VInt 100000) (VInt 30000))
      as [_ T]; [vm_compute; reflexivity | vm_compute; reflexivity |].
    destruct (T f64_thirty) as (r' & E & _ & _ & _ & B);
      [vm_compute; reflexivity | vm_compute; reflexivity
      | vm_compute; reflexivity |].
    destruct B as [W C]; [vm_compute; reflexivity|].
    exists r'. split; [exact E|]. split; [exact W | exact C].
  - apply (proj1 (proj2 (concentration_guard_and_thresholds
                           zero_nfa_record new_result))
             {[ "net_financial_assets" := VInt 0 ]}
             {[ "amount" := VInt 10000 ]});
      vm_compute; reflexivity.
Defined.

(** ** Totality of the orchestrator on records of the expected shape *)


Lemma small_number_is_number (v : value) :
  small_number v = true -> is_number v = true.
Proof. unfold small_number, is_number. destruct (as_num v) as [[]|]; auto. Qed.

Lemma get_or_zero_number (d : gmap string value) k :
  number_or_absent (d !! k) = true ->
  exists v, get_or_zero (VDict d) k = Ok v /\ small_number v = true.
Proof.
  unfold get_or_zero, py_get, py_get_default, number_or_absent. cbn [bind].
  intros H. eexists. split; [reflexivity|].
  unfold or_zero.
  destruct (d !! k) as [v|]; simpl; [|reflexivity].
  destruct (truthy v) eqn:T; [|reflexivity].
  destruct v; try discriminate; exact H.
Qed.

Lemma py_ge_number (v : value) (c : Z) :
  is_number v = true -> exists b, py_ge v c = Ok b.
Proof.
  unfold is_number, py_ge. destruct (as_num v) as [[]|]; try discriminate; eauto.
Qed.


Lemma format_comma_number rt (v : value) :
  is_number v = true -> exists t, format_comma rt v = Ok t.
Proof. destruct v; try discriminate; simpl; eauto. Qed.

Lemma py_add_numbers (a b : value) :
  small_number a = true -> small_number b = true ->
  exists v, py_add a b = Ok v /\ is_number v = true.
Proof.
  unfold small_number, py_add.
  destruct (as_num a) as [[x|f]|]; try discriminate;
    destruct (as_num b) as [[y|g]|]; try discriminate; intros A B.
  - eauto.
  - apply Z.ltb_lt in A. destruct (float_of_int_fits x A) as (fx & ->).
    cbn [bind]. eauto.
  - apply Z.ltb_lt in B. destruct (float_of_int_fits y B) as (fy & ->).
    cbn [bind]. eauto.
  - eauto.
Qed.

Lemma accredited_check_numbers rt (ai tot nfa nw st : value) :
  is_number ai = true -> is_number tot = true ->
  is_number nfa = true -> is_number nw = true ->
  exists a reason, accredited_check rt ai tot nfa nw st = Ok (a, reason).
Proof.
  intros N1 N2 N3 N4. unfold accredited_check.
  destruct (py_ge_number ai ACCREDITED_INCOME_SINGLE N1) as (c1 & ->).
  destruct (py_ge_number tot ACCREDITED_INCOME_JOINT N2) as (c2 & ->).
  destruct (py_ge_number nfa ACCREDITED_NFA N3) as (c3 & ->).
  destruct (py_ge_number nw ACCREDITED_NET_ASSETS N4) as (c4 & ->).
  destruct (format_comma_number rt ai N1) as (t1 & ->).
  destruct (format_comma_number rt tot N2) as (t2 & ->).
  destruct (format_comma_number rt nfa N3) as (t3 & ->).
  destruct (format_comma_number rt nw N4) as (t4 & ->).
  cbn [bind].
  destruct (c1 && truthy st); [eauto|].
  destruct (c2 && truthy st); [eauto|].
  destruct c3; [eauto|]. destruct c4; eauto.
Qed.

Lemma eligible_check_numbers (a : bool) (ai tot nw : value) :
  is_number ai = true -> is_number tot = true -> is_number nw = true ->
  exists e, eligible_check a ai tot nw = Ok e.
Proof.
  intros N1 N2 N3. unfold eligible_check.
  destruct a; [eauto|].
  destruct (py_ge_number ai ELIGIBLE_INCOME_SINGLE N1) as (e1 & ->).
  destruct (py_ge_number tot ELIGIBLE_INCOME_JOINT N2) as (e2 & ->).
  destruct (py_ge_number nw ELIGIBLE_NET_ASSETS N3) as (e3 & ->).
  cbn [bind]. destruct e1; [eauto|]. destruct e2; eauto.
Qed.

Lemma determine_exemption_total rt (data : gmap string value) result :
  financials_numeric data = true ->
  exists (data1 : gmap string value) r1,
    _determine_exemption rt data result = Ok (data1, r1).
Proof.
  unfold financials_numeric. rewrite !andb_true_iff.
  intros (((((Hf & Hai) & Hsi) & Hnfa) & Hnw) & Hes).
  unfold _determine_exemption.
  rewrite (section_of_dict _ _ Hf).
  destruct (get_or_zero_number _ _ Hai) as (ai & -> & Sai).
  destruct (get_or_zero_number _ _ Hsi) as (si & -> & Ssi).
  destruct (get_or_zero_number _ _ Hnfa) as (nfa & -> & Snfa).
  destruct (get_or_zero_number _ _ Hnw) as (nw & -> & Snw).
  cbn [bind].
  destruct (py_add_numbers ai si Sai Ssi) as (tot & -> & Ntot).
  cbn [bind py_get_default].
  apply small_number_is_number in Sai, Snfa, Snw.
  destruct (accredited_check_numbers rt ai tot nfa nw
              (default (VBool false)
                 (section_dict data "financials" !! "income_stable_2_years"))
              Sai Ntot Snfa Snw) as (a & reason & ->).
  cbn [bind].
  destruct (eligible_check_numbers a ai tot nw Sai Ntot Snw) as (e & ->).
  cbn [bind].
  destruct (store_exemption_total data a e reason Hes) as (data1 & ->).
  cbn [bind]. eauto.
Qed.

















(** The record with nothing in it, audited as an individual form. *)
Example empty_record_report :
  report_of (validate runtime_2026 ∅ "individual") =
  {| is_valid := false; exemption_status := "NON_ELIGIBLE";
     red_flags := [];
     warnings :=
       ["Client may only invest up to $10,000 under minimum amount exemption"];
     missing_required :=
       [ "client_name.first"; "client_name.last"; "address.city";
         "address.province"; "contact.email"; "personal.dob";
         "employment.occupation"; "financials.annual_income";
         "financials.net_financial_assets";
         "investment_profile.risk_tolerance";
         "investment_profile.time_horizon";
         "investment_profile.investment_objective" ];
     suitability_concerns := [];
     follow_up_needed := true |}.
Proof. vm_compute. reflexivity. Qed.

Example accredited_record_report :
  report_of (validate runtime_2026 accredited_record "individual") =
  {| is_valid := true; exemption_status := "ACCREDITED";
     red_flags := [];
     warnings := ["NFA of $1,500,000 requires verification documentation"];
     missing_required := []; suitability_concerns := [];
     follow_up_needed := false |} /\
  accreditation_reason_of
    (data_of (validate runtime_2026 accredited_record "individual")) =
  Some (VStr "Annual income $250,000 >= $200,000 for 2 years").
Proof. split; vm_compute; reflexivity. Qed.

(** Other ways in which a malformed record makes the checks raise. *)
Example validate_raises_on_text_income :
  validate runtime_2026
    {[ "financials" := VDict {[ "annual_income" := VStr "250000" ]} ]}
    "individual" = Raise TypeError.
Proof. vm_compute. reflexivity. Qed.

Example validate_raises_on_null_exemption_section :
  validate runtime_2026 {[ "exemption_status" := VNone ]} "individual"
  = Raise TypeError.
Proof. vm_compute. reflexivity. Qed.

Example validate_raises_on_numeric_dob :
  validate runtime_2026 {[ "personal" := VDict {[ "dob" := VInt 1980 ]} ]}
    "individual" = Raise AttributeError.
Proof. vm_compute. reflexivity. Qed.

Example validate_raises_on_huge_amount :
  validate runtime_2026
    {[ "financials" := VDict {[ "net_financial_assets" := VInt 1 ]};
       "investment_details" := VDict {[ "amount" := VInt (2 ^ 1024) ]} ]}
    "individual" = Raise OverflowError.
Proof. vm_compute. reflexivity. Qed.



(** The sample record at the end of [validator.py]. *)
Example sample_record_report :
  report_of
    (validate runtime_2026
       {[ "client_name" :=
            VDict {[ "first" := VStr "Ivan"; "last" := VStr "Petrenko" ]};
          "address" :=
            VDict {[ "city" := VStr "Calgary"; "province" := VStr "AB" ]};
          "contact" := VDict {[ "email" := VStr "ivan@example.com" ]};
          "personal" := VDict {[ "dob" := VStr "1980-01-15" ]};
          "employment" := VDict {[ "occupation" := VStr "Engineer" ]};
          "financials" :=
            VDict {[ "annual_income" := VInt 180000;
                     "spouse_income" := VInt 80000;
                     "net_financial_assets" := VInt 500000;
                     "net_worth" := VInt 1300000;
                     "income_stable_2_years" := VBool true ]};
          "investment_profile" :=
            VDict {[ "risk_tolerance" := VStr "MODERATE";
                     "time_horizon" := VStr "10+";
                     "investment_objective" := VStr "GROWTH_AND_INCOME" ]};
          "investment_details" := VDict {[ "amount" := VInt 75000 ]};
          "aml" := VDict {[ "is_pep" := VBool false ]} ]}
       "individual") =
  {| is_valid := true; exemption_status := "ELIGIBLE";
     red_flags := [];
     warnings :=
       ["Eligible investors have $100k rolling 12-month limit (non-BC)";
        "Investment represents 15.0% of NFA (>10%) - document suitability justification"];
     missing_required := []; suitability_concerns := [];
     follow_up_needed := false |}.
Proof. vm_compute. reflexivity. Qed.

(** C1. The classifier tries the accredited rules in the order single
    income, joint income, net financial assets, net assets. Whenever it
    returns and one of the four thresholds is met on the figures it read
    (absent figures read as zero, an absent stability flag as false), the
    tier is ACCREDITED, whether or not an eligible threshold is met too, and
    the stored reason is the text of the first rule that is met.  It does
    return on every record whose financial figures are numbers, null or
    absent. *)
Theorem accredited_rules_first_match_wins
    rt (data : gmap string value) (result : ValidationResult) :
  (financials_numeric data = true ->
   exists out, _determine_exemption rt data result = Ok out) /\
  (forall (data1 : gmap string value) r1,
     _determine_exemption rt data result = Ok (data1, r1) ->
     exists inp,
       read_inputs (section_of data "financials") = Ok inp /\
       (forall rule, rule_met inp rule = true ->
          exemption_status r1 = "ACCREDITED") /\
       (forall rule, first_met inp rule ->
          exists amount,
            format_comma rt (rule_amount inp rule) = Ok amount /\
            accreditation_reason_of data1 =
              Some (VStr (rule_text rule amount)))).
Proof.
  split.
  - intros W.
    destruct (determine_exemption_total rt data result W) as (d & r & E).
    eexists. exact E.
  - intros data1 r1 H.
    destruct (determine_exemption_steps _ _ _ _ _ H)
      as (a & e & reason & Fl & St & ->).
    destruct (exemption_flags_inputs _ _ _ _ _ Fl) as (inp & Rd & Acc & _).
    exists inp. split; [exact Rd|].
    pose proof (accredited_check_first_rule _ _ _ _ Acc) as FR.
    split.
    + intros rule M.
      destruct (first_rule_of_met _ _ M) as (rule' & F').
      rewrite F' in FR. destruct FR as (-> & _).
      apply tier_result_accredited.
    + intros rule FM.
      rewrite (first_met_first_rule _ _ FM) in FR.
      destruct FR as (_ & t & Ht & ->).
      exists t. split; [exact Ht|].
      exact (store_exemption_reason _ _ _ _ _ St).
Qed.

Lemma accredited_rules_first_match_wins_witness :
  exists inp,
    read_inputs (section_of priority_record "financials") = Ok inp /\
    rule_met inp FinancialAssets = true /\
    eligible_met inp = true /\
    exemption_status
      (report_of (_determine_exemption runtime_2026 priority_record new_result))
    = "ACCREDITED" /\
    accreditation_reason_of
      (data_of (_determine_exemption runtime_2026 priority_record new_result))
    = Some (VStr "Net financial assets $1,500,000 >= $1,000,000").
Proof.
  assert (E : _determine_exemption runtime_2026 priority_record new_result =
              Ok (data_of (_determine_exemption runtime_2026 priority_record
                             new_result),
                  report_of (_determine_exemption runtime_2026 priority_record
                               new_result)))
    by (vm_compute; reflexivity).
  destruct (proj2 (accredited_rules_first_match_wins
                     runtime_2026 priority_record new_result) _ _ E)
    as (inp & Rd & Tier & Reason).
  assert (inp = {| in_annual_income := VInt 100000;
                   in_spouse_income := VInt 0;
                   in_total_income := VInt 100000;
                   in_nfa := VInt 1500000;
                   in_net_worth := VInt 0;
                   in_income_stable := VBool false |}) as ->.
  { assert (R : read_inputs (section_of priority_record "financials") =
                Ok {| in_annual_income := VInt 100000;
                      in_spouse_income := VInt 0;
                      in_total_income := VInt 100000;
                      in_nfa := VInt 1500000;
                      in_net_worth := VInt 0;
                      in_income_stable := VBool false |})
      by (vm_compute; reflexivity).
    rewrite R in Rd. injection Rd as <-. reflexivity. }
  eexists. split; [exact Rd|].
  split; [reflexivity|]. split; [reflexivity|].
  split.
  - apply (Tier FinancialAssets). reflexivity.
  - destruct (Reason FinancialAssets) as (amount & Fa & Hr).
    { repeat split. }
    simpl in Fa. injection Fa as <-. exact Hr.
Defined.

(** A float amount: 15000.0 of 100000. *)
Example float_amount_fifteen_percent :
  _check_concentration
    {[ "financials" := VDict {[ "net_financial_assets" := VInt 100000 ]};
       "investment_details" :=
         VDict {[ "amount" := VFloat (S754_finite false 8246337208320000 (-39)) ]} ]}
    new_result =
  Ok (add_warning new_result
        "Investment represents 15.0% of NFA (>10%) - document suitability justification").
Proof. vm_compute. reflexivity. Qed.

(** * Further properties of the validator *)

Lemma returns_ok {A} (m : res A) : returns m = true -> exists a, m = Ok a.
Proof. destruct m; [eauto | discriminate]. Qed.

(** A run that returns, split into the record and the report it leaves. *)
Lemma run_of (m : res (gmap string value * ValidationResult)) :
  returns m = true -> m = Ok (data_of m, report_of m).
Proof. destruct m as [[d r]|]; [reflexivity | discriminate]. Qed.


(** ** Paths of the field accessor *)

Lemma split_on_app (c : ascii) (p q : string) :
  split_on c (p +:+ String c q) = (split_on c p ++ split_on c q)%list.
Proof.
  induction p as [|a p IH]; simpl.
  - rewrite Ascii.eqb_refl. reflexivity.
  - destruct (Ascii.eqb a c); simpl; rewrite IH; [reflexivity|].
    pose proof (split_on_nonempty c p) as NE.
    destruct (split_on c p); [congruence | reflexivity].
Qed.

Lemma get_keys_app (ks1 ks2 : list string) : forall v : value,
  ks2 <> [] ->
  get_keys v (ks1 ++ ks2) =
    let* v' := get_keys v ks1 in get_keys v' ks2.
Proof.
  induction ks1 as [|k ks1 IH]; intros v NE; simpl; [reflexivity|].
  destruct v; simpl; try (destruct ks2; [congruence | reflexivity]).
  apply IH. exact NE.
Qed.

(** X1. Reading the path [p.q] is reading [p] and then reading [q] from
    what was found: the accessor composes along the dots. *)
Theorem get_nested_compose (data : value) (p q : string) :
  _get_nested data (p +:+ "." +:+ q) =
    let* v := _get_nested data p in _get_nested v q.
Proof.
  unfold _get_nested.
  change (p +:+ "." +:+ q) with (p +:+ String "."%char q).
  rewrite split_on_app. apply get_keys_app. apply split_on_nonempty.
Qed.

Lemma split_on_no_dot (k : string) :
  has_dot k = false -> split_on "."%char k = [k].
Proof.
  induction k as [|a k IH]; simpl; [reflexivity|].
  intros H. apply orb_false_iff in H. destruct H as [A D].
  rewrite A, (IH D). reflexivity.
Qed.

Lemma split_on_head_no_dot (k : string) :
  has_dot (hd "" (split_on "."%char k)) = false.
Proof.
  induction k as [|a k IH]; simpl; [reflexivity|].
  destruct (Ascii.eqb a ".") eqn:A; simpl; [reflexivity|].
  pose proof (split_on_nonempty "." k) as NE.
  destruct (split_on "." k) as [|w ws]; [congruence|].
  simpl in *. rewrite A, IH. reflexivity.
Qed.

Lemma split_on_dot_length (k : string) :
  has_dot k = true -> (2 <= length (split_on "."%char k))%nat.
Proof.
  induction k as [|a k IH]; simpl; [discriminate|].
  destruct (Ascii.eqb a ".") eqn:A; simpl.
  - intros _. pose proof (split_on_nonempty "." k) as NE.
    destruct (split_on "." k); [congruence | simpl; lia].
  - intros D. specialize (IH D).
    destruct (split_on "." k); simpl in *; lia.
Qed.

(** X2. A value stored under a top-level key without a dot is read back by
    the path that is this key, and reading another such key is not
    affected.  A key that contains a dot is never looked up: in a record
    all of whose keys contain a dot every path reads [None]. *)
Theorem get_nested_insert_lookup
    (d : gmap string value) (k : string) (v : value) :
  (has_dot k = false ->
   _get_nested (VDict (<[k := v]> d)) k = Ok v /\
   forall j, has_dot j = false -> j <> k ->
     _get_nested (VDict (<[k := v]> d)) j = _get_nested (VDict d) j) /\
  ((forall j, has_dot j = false -> d !! j = None) ->
   forall p, _get_nested (VDict d) p = Ok VNone).
Proof.
  split.
  - intros K. unfold _get_nested. rewrite (split_on_no_dot k K). simpl.
    rewrite lookup_insert_eq. split; [reflexivity|].
    intros j J N. rewrite (split_on_no_dot j J). simpl.
    rewrite lookup_insert_ne by congruence. reflexivity.
  - intros Hd p. unfold _get_nested.
    pose proof (split_on_head_no_dot p) as H.
    pose proof (split_on_nonempty "." p) as NE.
    destruct (split_on "." p) as [|s rest]; [congruence|].
    simpl in *. rewrite (Hd s H). simpl.
    destruct rest; reflexivity.
Qed.

Lemma get_nested_insert_lookup_witness :
  _get_nested (VDict (<["corporate_name" := VStr "Maple"]> ∅)) "corporate_name"
    = Ok (VStr "Maple") /\
  _get_nested (VDict {[ "client_name.first" := VStr "Ivan" ]})
    "client_name.first" = Ok VNone.
Proof.
  split.
  - apply (proj1 (get_nested_insert_lookup ∅ "corporate_name" (VStr "Maple"))).
    reflexivity.
  - apply (proj2 (get_nested_insert_lookup
                    {[ "client_name.first" := VStr "Ivan" ]}
                    "client_name.first" (VStr "Ivan"))).
    intros j J.
    apply lookup_singleton_ne. intros <-. discriminate J.
Defined.

(** ** The three tiers *)

Lemma eligible_check_met inp e :
  eligible_check false (in_annual_income inp) (in_total_income inp)
    (in_net_worth inp) = Ok e ->
  e = eligible_met inp.
Proof.
  unfold eligible_check, eligible_met, meets,
    ELIGIBLE_INCOME_SINGLE, ELIGIBLE_INCOME_JOINT, ELIGIBLE_NET_ASSETS.
  intros H. inv_bind H as e1 E1. rewrite E1. destruct e1; [inv_ok; reflexivity|].
  inv_bind H as e2 E2. rewrite E2. destruct e2; [inv_ok; reflexivity|].
  inv_bind H as e3 E3. rewrite E3. inv_ok. reflexivity.
Qed.

Lemma determine_exemption_flags rt (data data1 : gmap string value) r r1 :
  _determine_exemption rt data r = Ok (data1, r1) ->
  exists inp reason,
    read_inputs (section_of data "financials") = Ok inp /\
    let a := match first_rule inp with Some _ => true | None => false end in
    let e := negb a && eligible_met inp in
    (reason = VNone <-> first_rule inp = None) /\
    store_exemption data a e reason = Ok data1 /\
    r1 = tier_result a e r.
Proof.
  intros H.
  destruct (determine_exemption_steps _ _ _ _ _ H)
    as (a & e & reason & Fl & St & ->).
  destruct (exemption_flags_inputs _ _ _ _ _ Fl) as (inp & Rd & Acc & El).
  exists inp, reason. split; [exact Rd|].
  pose proof (accredited_check_first_rule _ _ _ _ Acc) as FR.
  destruct (first_rule inp) as [rule|].
  - destruct FR as (-> & t & _ & ->). simpl in El. inv_ok.
    simpl. split; [split; discriminate|]. split; [exact St | reflexivity].
  - destruct FR as (-> & ->).
    rewrite (eligible_check_met _ _ El) in *.
    simpl. split; [tauto|]. split; [exact St | reflexivity].
Qed.

(** X3. Whenever the classifier returns, the tier of the report is
    ACCREDITED if an accredited rule is met, otherwise ELIGIBLE if an
    eligible threshold is met, otherwise NON_ELIGIBLE (never UNKNOWN), and
    the only change to the warnings is the standing warning of an ELIGIBLE
    or NON_ELIGIBLE tier, appended at the end. *)
Theorem determine_exemption_tier
    rt (data data1 : gmap string value) (r r1 : ValidationResult) :
  _determine_exemption rt data r = Ok (data1, r1) ->
  exists inp,
    read_inputs (section_of data "financials") = Ok inp /\
    exemption_status r1 = tier_of inp /\
    warnings r1 = (warnings r ++ tier_warnings (tier_of inp))%list /\
    red_flags r1 = red_flags r /\
    missing_required r1 = missing_required r /\
    suitability_concerns r1 = suitability_concerns r.
Proof.
  intros H.
  destruct (determine_exemption_flags _ _ _ _ _ H)
    as (inp & reason & Rd & _ & _ & ->).
  exists inp. split; [exact Rd|].
  unfold tier_of, tier_result.
  destruct (first_rule inp); simpl;
    [rewrite app_nil_r; tauto|].
  destruct (eligible_met inp); simpl; tauto.
Qed.

Lemma determine_exemption_tier_witness :
  exists inp,
    read_inputs (section_of elderly_record "financials") = Ok inp /\
    exemption_status
      (report_of (_determine_exemption runtime_2026 elderly_record new_result))
    = tier_of inp /\
    tier_of inp = "NON_ELIGIBLE".
Proof.
  pose proof
    (run_of (_determine_exemption runtime_2026 elderly_record new_result) eq_refl)
    as E.
  destruct (determine_exemption_tier _ _ _ _ _ E) as (inp & Rd & T & _).
  exists inp. split; [exact Rd|]. split; [exact T|].
  rewrite <- T. vm_compute. reflexivity.
Defined.

Lemma written_section_lookups (d : gmap string value) a e reason :
  written_section d a e reason !! "is_accredited" = Some (VBool a) /\
  written_section d a e reason !! "is_eligible" = Some (VBool e) /\
  written_section d a e reason !! "accreditation_reason" = Some reason.
Proof. unfold written_section. repeat split; by simplify_map_eq. Qed.

(** X4. What the classifier writes back agrees with the tier it reports:
    [is_accredited] is true exactly for ACCREDITED, [is_eligible] exactly
    for ELIGIBLE (so the two are never both true), and the reason is null
    exactly when the client is not accredited. *)
Theorem written_flags_match_tier
    rt (data data1 : gmap string value) (r r1 : ValidationResult) :
  _determine_exemption rt data r = Ok (data1, r1) ->
  exemption_entry data1 "is_accredited" =
    Some (VBool (String.eqb (exemption_status r1) "ACCREDITED")) /\
  exemption_entry data1 "is_eligible" =
    Some (VBool (String.eqb (exemption_status r1) "ELIGIBLE")) /\
  (exemption_entry data1 "accreditation_reason" = Some VNone <->
   exemption_status r1 <> "ACCREDITED").
Proof.
  intros H.
  destruct (determine_exemption_flags _ _ _ _ _ H)
    as (inp & reason & _ & Rn & St & ->).
  unfold exemption_entry.
  rewrite (store_exemption_eq _ _ _ _ _ St), lookup_insert_eq.
  destruct (written_section_lookups (old_exemption_section data)
              (match first_rule inp with Some _ => true | None => false end)
              (negb (match first_rule inp with Some _ => true | None => false end)
               && eligible_met inp) reason) as (-> & -> & ->).
  unfold tier_result.
  destruct (first_rule inp) as [rule|]; simpl.
  - split; [reflexivity|]. split; [reflexivity|].
    split; [intros E; injection E as E; apply Rn in E; discriminate
           | congruence].
  - destruct (eligible_met inp); simpl;
      (split; [reflexivity|]; split; [reflexivity|]);
      (split; [discriminate|]); intros _; f_equal; apply Rn; reflexivity.
Qed.

Lemma written_flags_match_tier_witness :
  exemption_entry
    (data_of (_determine_exemption runtime_2026 priority_record new_result))
    "is_eligible" = Some (VBool false).
Proof.
  pose proof
    (run_of (_determine_exemption runtime_2026 priority_record new_result) eq_refl)
    as E.
  exact (proj1 (proj2 (written_flags_match_tier _ _ _ _ _ E))).
Defined.

(** ** Integer figures: stability and monotonicity *)

Lemma tier_result_status a e r :
  exemption_status (tier_result a e r) =
  if a then "ACCREDITED" else if e then "ELIGIBLE" else "NON_ELIGIBLE".
Proof. unfold tier_result. destruct a, e; reflexivity. Qed.

(** X5. Income alone never accredits without the two-year stability flag:
    with the flag false, null or absent, net financial assets below
    1,000,000 and net worth below 5,000,000, the tier is not ACCREDITED
    however large the single or joint income is, and it is ELIGIBLE as soon
    as the annual income reaches 75,000. *)
Theorem income_without_stability_is_not_accredited
    rt (data : gmap string value) (result : ValidationResult) :
  financials_well_typed data = true ->
  truthy (default (VBool false)
            (section_dict data "financials" !! "income_stable_2_years"))
    = false ->
  int_field (section_dict data "financials") "net_financial_assets"
    < 1000000 ->
  int_field (section_dict data "financials") "net_worth" < 5000000 ->
  exists (data1 : gmap string value) r1,
    _determine_exemption rt data result = Ok (data1, r1) /\
    exemption_status r1 <> "ACCREDITED" /\
    (75000 <= int_field (section_dict data "financials") "annual_income" ->
     exemption_status r1 = "ELIGIBLE").
Proof.
  intros W St Hn Hw.
  destruct (determine_exemption_ints rt data result W) as (data1 & E).
  cbv zeta in E. rewrite St in E.
  exists data1. eexists. split; [exact E|].
  rewrite tier_result_status.
  unfold eligible_ints, accredited_ints.
  apply Z.leb_gt in Hn, Hw. rewrite Hn, Hw, !andb_false_r. simpl.
  split.
  - destruct (_ || _ || _); discriminate.
  - intros Hai. apply Z.leb_le in Hai. rewrite Hai. reflexivity.
Qed.

Lemma income_without_stability_is_not_accredited_witness :
  exists (data1 : gmap string value) r1,
    _determine_exemption runtime_2026
      {[ "financials" := VDict {[ "annual_income" := VInt 250000;
                                  "income_stable_2_years" := VBool false ]} ]}
      new_result = Ok (data1, r1) /\
    exemption_status r1 <> "ACCREDITED" /\
    (75000 <= 250000 -> exemption_status r1 = "ELIGIBLE").
Proof.
  refine (income_without_stability_is_not_accredited runtime_2026
            {[ "financials" := VDict {[ "annual_income" := VInt 250000;
                                        "income_stable_2_years" := VBool false ]} ]}
            new_result _ _ _ _); vm_compute; reflexivity.
Defined.

Lemma accredited_ints_mono ai si nfa nw st ai' si' nfa' nw' st' :
  ai <= ai' -> si <= si' -> nfa <= nfa' -> nw <= nw' ->
  (st = true -> st' = true) ->
  accredited_ints ai si nfa nw st = true ->
  accredited_ints ai' si' nfa' nw' st' = true.
Proof.
  unfold accredited_ints. rewrite !orb_true_iff, !andb_true_iff, !Z.leb_le.
  intros. intuition lia.
Qed.

Lemma some_tier_mono ai si nfa nw st ai' si' nfa' nw' st' :
  ai <= ai' -> si <= si' -> nfa <= nfa' -> nw <= nw' ->
  (st = true -> st' = true) ->
  accredited_ints ai si nfa nw st || eligible_ints ai si nfa nw st = true ->
  accredited_ints ai' si' nfa' nw' st' || eligible_ints ai' si' nfa' nw' st'
    = true.
Proof.
  intros H1 H2 H3 H4 H5. unfold eligible_ints.
  pose proof (accredited_ints_mono ai si nfa nw st ai' si' nfa' nw' st'
                H1 H2 H3 H4 H5) as M.
  destruct (accredited_ints ai si nfa nw st) eqn:A.
  - intros _. rewrite (M eq_refl). reflexivity.
  - simpl. intros B. rewrite !orb_true_iff, !Z.leb_le in B.
    destruct (accredited_ints ai' si' nfa' nw' st'); [reflexivity|].
    simpl. rewrite !orb_true_iff, !Z.leb_le. lia.
Qed.

Lemma rank_mono (a e a' e' : bool) :
  (a = true -> a' = true) -> (a || e = true -> a' || e' = true) ->
  tier_rank (if a then "ACCREDITED" else if e then "ELIGIBLE" else "NON_ELIGIBLE")
  <= tier_rank
       (if a' then "ACCREDITED" else if e' then "ELIGIBLE" else "NON_ELIGIBLE").
Proof.
  destruct a, e, a', e'; simpl; intros H1 H2;
    try (specialize (H1 eq_refl)); try (specialize (H2 eq_refl));
    try discriminate; vm_compute; discriminate.
Qed.

(** X6. More never demotes: between two records with integer figures, if
    no figure is smaller in the second and the stability flag is not lost,
    the tier of the second is at least the tier of the first in the order
    NON_ELIGIBLE < ELIGIBLE < ACCREDITED. *)
Theorem tier_is_monotone
    rt (data data' : gmap string value) (result result' : ValidationResult)
    (data1 data1' : gmap string value) (r1 r1' : ValidationResult) :
  financials_well_typed data = true ->
  financials_well_typed data' = true ->
  int_field (section_dict data "financials") "annual_income"
    <= int_field (section_dict data' "financials") "annual_income" ->
  int_field (section_dict data "financials") "spouse_income"
    <= int_field (section_dict data' "financials") "spouse_income" ->
  int_field (section_dict data "financials") "net_financial_assets"
    <= int_field (section_dict data' "financials") "net_financial_assets" ->
  int_field (section_dict data "financials") "net_worth"
    <= int_field (section_dict data' "financials") "net_worth" ->
  (truthy (default (VBool false)
             (section_dict data "financials" !! "income_stable_2_years"))
     = true ->
   truthy (default (VBool false)
             (section_dict data' "financials" !! "income_stable_2_years"))
     = true) ->
  _determine_exemption rt data result = Ok (data1, r1) ->
  _determine_exemption rt data' result' = Ok (data1', r1') ->
  tier_rank (exemption_status r1) <= tier_rank (exemption_status r1').
Proof.
  intros W W' L1 L2 L3 L4 St E E'.
  destruct (determine_exemption_ints rt data result W) as (d & F).
  destruct (determine_exemption_ints rt data' result' W') as (d' & F').
  cbv zeta in F, F'. rewrite F in E. rewrite F' in E'. inv_ok.
  rewrite !tier_result_status.
  pose proof (accredited_ints_mono _ _ _ _ _ _ _ _ _ _
                L1 L2 L3 L4 St) as MA.
  pose proof (some_tier_mono _ _ _ _ _ _ _ _ _ _
                L1 L2 L3 L4 St) as MS.
  apply rank_mono; assumption.
Qed.

Lemma tier_is_monotone_witness :
  tier_rank
    (exemption_status
       (report_of (_determine_exemption runtime_2026 elderly_record new_result)))
  <= tier_rank
       (exemption_status
          (report_of (_determine_exemption runtime_2026 accredited_record
                        new_result))).
Proof.
  pose proof
    (run_of (_determine_exemption runtime_2026 elderly_record new_result) eq_refl)
    as E.
  pose proof
    (run_of (_determine_exemption runtime_2026 accredited_record new_result) eq_refl)
    as E'.
  refine (tier_is_monotone runtime_2026 elderly_record accredited_record
            new_result new_result _ _ _ _ _ _ _ _ _ _ _ E E');
    try (vm_compute; reflexivity); vm_compute; discriminate.
Defined.

(** ** AML screening *)

Lemma section_of_VDict (data : gmap string value) k (d : gmap string value) :
  section_of data k = VDict d -> section_dict data k = d.
Proof.
  unfold section_of, section_dict.
  destruct (data !! k) as [[]|]; simpl; intros H; try discriminate;
    injection H as <-; reflexivity.
Qed.

Lemma check_aml_flags_red_flags rt (data : gmap string value) r r' :
  _check_aml_flags rt data r = Ok r' ->
  red_flags r' = (red_flags r ++ aml_red_flags rt data)%list.
Proof.
  unfold _check_aml_flags, aml_red_flags, aml_flag, pep_message. intros H.
  destruct (section_of data "aml") as [| | | | | |aml] eqn:S;
    try discriminate H.
  rewrite (section_of_VDict _ _ _ S).
  inv_bind H as pep Epep. inv_bind H as r1 Er1. inv_bind H as hio Ehio.
  inv_bind H as bor Ebor. inv_bind H as nfa Enfa. inv_bind H as big Ebig.
  unfold py_get, py_get_default in Epep, Ehio. inv_ok.
  assert (Hr1 : red_flags r1 =
            (red_flags r ++
             if truthy (default VNone (aml !! "is_pep"))
             then ["Client is a Politically Exposed Person: " +:+
                   py_str rt (default (VStr "position unknown")
                                (aml !! "pep_position"))]
             else [])%list).
  { destruct (truthy (default VNone (aml !! "is_pep"))).
    - inv_bind Er1 as pos Epos. unfold py_get_default in Epos. inv_ok.
      reflexivity.
    - inv_ok. rewrite app_nil_r. reflexivity. }
  assert (Hfin : red_flags r' =
            (red_flags r1 ++
             if truthy (default VNone (aml !! "is_hio"))
             then [hio_message] else [])%list).
  { destruct big; [inv_bind H as t Et|]; inv_ok;
      destruct (truthy bor), (truthy (default VNone (aml !! "is_hio")));
      simpl; rewrite ?app_nil_r; reflexivity. }
  rewrite Hfin, Hr1, <- app_assoc. reflexivity.
Qed.

Lemma validate_red_flags rt (data data1 : gmap string value) ft r :
  validate rt data ft = Ok (data1, r) ->
  red_flags r = aml_red_flags rt data.
Proof.
  intros H.
  destruct (validate_steps _ _ _ _ _ H)
    as (r1 & r2 & r3 & r4 & r5 & E1 & E2 & E3 & E4 & E5 & ->).
  destruct (required_loop_spec (VDict data) (required_for ft) new_result)
    as (r1' & E1' & _ & _ & _ & R1 & _).
  unfold _check_required_fields in E1. rewrite E1' in E1. inv_ok.
  destruct (determine_exemption_steps _ _ _ _ _ E2)
    as (a & e & rs & _ & St & ->).
  destruct (check_suitability_frame _ _ _ _ E3) as (R3 & _ & _).
  pose proof (check_aml_flags_red_flags _ _ _ _ E4) as R4.
  destruct (check_concentration_frame _ _ _ E5) as (R5 & _ & _).
  simpl. rewrite R5, R4, R3.
  destruct (tier_result_frame a e r1) as (-> & _ & _).
  rewrite R1. simpl.
  unfold aml_red_flags, aml_flag, pep_message, section_of, section_dict.
  rewrite (store_exemption_other _ _ _ _ _ "aml" St) by discriminate.
  reflexivity.
Qed.

(** X7. The red flags of a returned report are exactly those of the AML
    section: the PEP message if [is_pep] is truthy, followed by the HIO
    message if [is_hio] is truthy, and nothing else.  Hence a report has a
    red flag exactly when one of the two flags is set, never more than two,
    and it is valid exactly when neither is set and at most three required
    fields are missing. *)
Theorem validate_red_flags_exactly_aml
    rt (data data1 : gmap string value) (form_type : string) r :
  validate rt data form_type = Ok (data1, r) ->
  red_flags r = aml_red_flags rt data /\
  (red_flags r <> [] <->
   aml_flag data "is_pep" = true \/ aml_flag data "is_hio" = true) /\
  (length (red_flags r) <= 2)%nat /\
  (is_valid r = true <->
   aml_flag data "is_pep" = false /\ aml_flag data "is_hio" = false /\
   (length (missing_required r) <= 3)%nat).
Proof.
  intros H.
  pose proof (validate_red_flags _ _ _ _ _ H) as R.
  destruct (validate_steps _ _ _ _ _ H)
    as (r1 & r2 & r3 & r4 & r5 & _ & _ & _ & _ & _ & ->).
  pose proof (verdict_is_valid r5) as V.
  change (red_flags (verdict r5)) with (red_flags r5) in *.
  change (missing_required (verdict r5)) with (missing_required r5).
  assert (NE : red_flags r5 <> [] <->
               aml_flag data "is_pep" = true \/ aml_flag data "is_hio" = true).
  { rewrite R. unfold aml_red_flags.
    destruct (aml_flag data "is_pep"), (aml_flag data "is_hio"); simpl;
      split; intros C; try discriminate; auto;
      try (exfalso; apply C; reflexivity);
      destruct C; discriminate. }
  split; [exact R|]. split; [exact NE|]. split.
  - rewrite R. unfold aml_red_flags.
    destruct (aml_flag data "is_pep"), (aml_flag data "is_hio"); simpl; lia.
  - split.
    + intros IV. repeat split.
      * destruct (aml_flag data "is_pep") eqn:P; [|reflexivity].
        assert (F : is_valid (verdict r5) = false)
          by (apply V; left; apply NE; left; reflexivity).
        congruence.
      * destruct (aml_flag data "is_hio") eqn:P; [|reflexivity].
        assert (F : is_valid (verdict r5) = false)
          by (apply V; left; apply NE; right; reflexivity).
        congruence.
      * destruct (Nat.le_gt_cases (length (missing_required r5)) 3) as [|G];
          [assumption|].
        assert (F : is_valid (verdict r5) = false) by (apply V; right; lia).
        congruence.
    + intros (P & Hi & M).
      destruct (is_valid (verdict r5)) eqn:IV; [reflexivity|].
      exfalso. destruct (proj1 V eq_refl) as [C|C]; [|lia].
      apply NE in C. destruct C; congruence.
Qed.

Lemma validate_red_flags_exactly_aml_witness :
  red_flags (report_of (validate runtime_2026 pep_record "individual"))
  = ["Client is a Politically Exposed Person: Senator"].
Proof.
  pose proof
    (run_of (validate runtime_2026 pep_record "individual") eq_refl)
    as E.
  rewrite (proj1 (validate_red_flags_exactly_aml _ _ _ _ _ E)).
  vm_compute. reflexivity.
Defined.

(** X8. The PEP red flag names the stated position; it says "position
    unknown" only when the key [pep_position] is missing, whereas a
    position stored as null is printed as [None]. *)
Theorem pep_flag_position
    rt (data data1 : gmap string value) (form_type : string) r :
  validate rt data form_type = Ok (data1, r) ->
  aml_flag data "is_pep" = true ->
  (section_dict data "aml" !! "pep_position" = None ->
   hd "" (red_flags r) =
   "Client is a Politically Exposed Person: position unknown") /\
  (forall s, section_dict data "aml" !! "pep_position" = Some (VStr s) ->
   hd "" (red_flags r) = "Client is a Politically Exposed Person: " +:+ s) /\
  (section_dict data "aml" !! "pep_position" = Some VNone ->
   hd "" (red_flags r) = "Client is a Politically Exposed Person: None").
Proof.
  intros H P. rewrite (validate_red_flags _ _ _ _ _ H).
  unfold aml_red_flags, pep_message. rewrite P. simpl.
  repeat split; intros; rewrite H0; reflexivity.
Qed.

Lemma pep_flag_position_witness :
  hd "" (red_flags (report_of (validate runtime_2026
                                 {[ "aml" := VDict {[ "is_pep" := VBool true ]} ]}
                                 "individual"))) =
  "Client is a Politically Exposed Person: position unknown".
Proof.
  pose proof
    (run_of (validate runtime_2026 {[ "aml" := VDict {[ "is_pep" := VBool true ]} ]} "individual") eq_refl)
    as E.
  apply (proj1 (pep_flag_position _ _ _ _ _ E ltac:(vm_compute; reflexivity))).
  vm_compute. reflexivity.
Defined.

Lemma check_aml_flags_warnings rt (data : gmap string value) r r' :
  _check_aml_flags rt data r = Ok r' ->
  exists borrowed nfa,
    py_get (section_of data "financials") "borrowed_to_invest" = Ok borrowed /\
    get_or_zero (section_of data "financials") "net_financial_assets" = Ok nfa /\
    exists tail,
      warnings r' =
        (warnings r ++
         (if truthy borrowed then [borrowed_warning] else []) ++ tail)%list /\
      (meets nfa 1000000 = true ->
       exists t, format_comma rt nfa = Ok t /\ tail = [nfa_warning t]) /\
      (meets nfa 1000000 = false -> tail = []).
Proof.
  unfold _check_aml_flags. intros H.
  inv_bind H as pep Epep. inv_bind H as r1 Er1. inv_bind H as hio Ehio.
  inv_bind H as bor Ebor. inv_bind H as nfa Enfa. inv_bind H as big Ebig.
  exists bor, nfa. split; [exact Ebor|]. split; [exact Enfa|].
  assert (W1 : warnings r1 = warnings r).
  { destruct (truthy pep); [inv_bind Er1 as pos Epos|]; inv_ok; reflexivity. }
  unfold meets. rewrite Ebig.
  destruct big.
  - inv_bind H as t Et. inv_ok. exists [nfa_warning t].
    split; [|split; [eauto | discriminate]].
    destruct (truthy bor), (truthy hio); simpl; rewrite W1;
      rewrite <- ?app_assoc; reflexivity.
  - inv_ok. exists []. split; [|split; [discriminate | reflexivity]].
    destruct (truthy bor), (truthy hio); simpl; rewrite W1, ?app_nil_r;
      reflexivity.
Qed.

Lemma check_concentration_warnings_grow (data : gmap string value) r r' :
  _check_concentration data r = Ok r' ->
  exists tail, warnings r' = (warnings r ++ tail)%list.
Proof.
  unfold _check_concentration. intros H.
  inv_bind H as nfa Enfa. inv_bind H as amt Eamt. inv_bind H as np Enp.
  destruct np; [|inv_ok; exists []; rewrite app_nil_r; reflexivity].
  inv_bind H as ap Eap.
  destruct ap; [|inv_ok; exists []; rewrite app_nil_r; reflexivity].
  inv_bind H as pct Epct. inv_ok.
  destruct (float_gt_int pct 10), (float_gt_int pct 25); simpl;
    eexists; try reflexivity; rewrite app_nil_r; reflexivity.
Qed.

(** X9. Two warnings of the AML screening reach every returned report:
    truthy [borrowed_to_invest] puts the leverage warning into the report,
    and net financial assets of at least 1,000,000 put the verification
    warning into it, and in that case the tier is ACCREDITED. *)
Theorem aml_warnings_reach_report
    rt (data data1 : gmap string value) (form_type : string) r :
  validate rt data form_type = Ok (data1, r) ->
  exists borrowed nfa,
    py_get (section_of data "financials") "borrowed_to_invest" = Ok borrowed /\
    get_or_zero (section_of data "financials") "net_financial_assets" = Ok nfa /\
    (truthy borrowed = true -> In borrowed_warning (warnings r)) /\
    (meets nfa 1000000 = true ->
     exemption_status r = "ACCREDITED" /\
     exists t, format_comma rt nfa = Ok t /\ In (nfa_warning t) (warnings r)).
Proof.
  intros H.
  destruct (validate_steps _ _ _ _ _ H)
    as (r1 & r2 & r3 & r4 & r5 & E1 & E2 & E3 & E4 & E5 & ->).
  destruct (determine_exemption_steps _ _ _ _ _ E2)
    as (a & e & rs & Fl & St & ->).
  pose proof (fun k => store_exemption_other _ _ _ _ _ k St) as A.
  rewrite (check_aml_flags_agree rt _ _ A) in E4.
  destruct (check_aml_flags_warnings _ _ _ _ E4)
    as (bor & nfa & Eb & En & tail & W4 & Big & _).
  destruct (check_concentration_warnings_grow _ _ _ E5) as (tail5 & W5).
  exists bor, nfa. split; [exact Eb|]. split; [exact En|].
  change (warnings (verdict r5)) with (warnings r5).
  change (exemption_status (verdict r5)) with (exemption_status r5).
  rewrite W5, W4. split.
  - intros T. rewrite T. rewrite !in_app_iff. simpl. tauto.
  - intros M. split.
    + destruct (check_concentration_frame _ _ _ E5) as (_ & _ & ->).
      destruct (check_aml_flags_frame _ _ _ _ E4) as (_ & _ & -> & _).
      destruct (check_suitability_frame _ _ _ _ E3) as (_ & _ & ->).
      destruct (exemption_flags_inputs _ _ _ _ _ Fl) as (inp & Rd & Acc & _).
      assert (in_nfa inp = nfa) as Hn.
      { unfold read_inputs in Rd.
        inv_bind Rd as ai' R1. inv_bind Rd as si' R2. inv_bind Rd as tot' R3.
        inv_bind Rd as nfa' R4. inv_bind Rd as nw' R5. inv_bind Rd as st' R6.
        inv_ok. simpl. congruence. }
      pose proof (accredited_check_first_rule _ _ _ _ Acc) as FR.
      destruct (first_rule_of_met inp FinancialAssets) as (rule' & F');
        [simpl; rewrite Hn; exact M|].
      rewrite F' in FR. destruct FR as (-> & _). reflexivity.
    + destruct (Big M) as (t & Ft & ->). exists t. split; [exact Ft|].
      rewrite !in_app_iff. simpl. tauto.
Qed.

Lemma aml_warnings_reach_report_witness :
  In (nfa_warning "1,500,000")
    (warnings (report_of (validate runtime_2026 pep_record "individual"))).
Proof.
  pose proof
    (run_of (validate runtime_2026 pep_record "individual") eq_refl)
    as E.
  destruct (aml_warnings_reach_report _ _ _ _ _ E)
    as (bor & nfa & _ & En & _ & Big).
  assert (nfa = VInt 1500000) as ->.
  { assert (R : get_or_zero (section_of pep_record "financials")
                  "net_financial_assets" = Ok (VInt 1500000))
      by (vm_compute; reflexivity).
    rewrite R in En. injection En as <-. reflexivity. }
  destruct (Big eq_refl) as (_ & t & Ft & I).
  simpl in Ft. injection Ft as <-. exact I.
Defined.

(** ** Shape of a returned report *)

Lemma validate_missing rt (data data1 : gmap string value) ft r :
  validate rt data ft = Ok (data1, r) ->
  missing_required r =
    List.filter (path_missing (VDict data)) (required_for ft).
Proof.
  intros H.
  destruct (validate_steps _ _ _ _ _ H)
    as (r1 & r2 & r3 & r4 & r5 & E1 & E2 & E3 & E4 & E5 & ->).
  destruct (required_loop_spec (VDict data) (required_for ft) new_result)
    as (r1' & E1' & M1 & _).
  unfold _check_required_fields in E1. rewrite E1' in E1. inv_ok.
  destruct (determine_exemption_steps _ _ _ _ _ E2)
    as (a & e & rs & _ & St & ->).
  destruct (check_suitability_frame _ _ _ _ E3) as (_ & M3 & _).
  destruct (check_aml_flags_frame _ _ _ _ E4) as (M4 & _).
  destruct (check_concentration_frame _ _ _ E5) as (_ & M5 & _).
  simpl. rewrite M5, M4, M3.
  destruct (tier_result_frame a e r1) as (_ & -> & _).
  rewrite M1. reflexivity.
Qed.

Lemma validate_tier rt (data data1 : gmap string value) ft r :
  validate rt data ft = Ok (data1, r) ->
  exists inp,
    read_inputs (section_of data "financials") = Ok inp /\
    exemption_status r = tier_of inp.
Proof.
  intros H.
  destruct (validate_steps _ _ _ _ _ H)
    as (r1 & r2 & r3 & r4 & r5 & E1 & E2 & E3 & E4 & E5 & ->).
  destruct (determine_exemption_flags _ _ _ _ _ E2)
    as (inp & reason & Rd & _ & _ & ->).
  destruct (check_suitability_frame _ _ _ _ E3) as (_ & _ & T3).
  destruct (check_aml_flags_frame _ _ _ _ E4) as (_ & _ & T4 & _).
  destruct (check_concentration_frame _ _ _ E5) as (_ & _ & T5).
  exists inp. split; [exact Rd|].
  simpl. rewrite T5, T4, T3, tier_result_status. unfold tier_of.
  destruct (first_rule inp); reflexivity.
Qed.

Lemma required_for_NoDup (form_type : string) : List.NoDup (required_for form_type).
Proof.
  destruct (required_for_cases form_type) as [-> | [-> | [-> | ->]]];
    [ change (required_for "individual")
        with (default [] (REQUIRED_FIELDS !! "individual"))
    | change (required_for "corporate")
        with (default [] (REQUIRED_FIELDS !! "corporate"))
    | change (required_for "trade")
        with (default [] (REQUIRED_FIELDS !! "trade"))
    | ];
    vm_compute;
    repeat (constructor; [simpl; intuition discriminate|]); constructor.
Qed.

Lemma filter_NoDup {A} (f : A -> bool) (l : list A) :
  List.NoDup l -> List.NoDup (List.filter f l).
Proof.
  induction 1 as [|x l N _ IH]; simpl; [constructor|].
  destruct (f x); [|exact IH].
  constructor; [|exact IH]. intros I. apply filter_In in I. tauto.
Qed.

(** X10. In every returned report the tier is ACCREDITED, ELIGIBLE or
    NON_ELIGIBLE (the initial UNKNOWN never survives), and the list of
    missing fields is the list of required paths of the form type that are
    not provided, in the order of the requirement list, each at most
    once. *)
Theorem report_tier_and_missing
    rt (data data1 : gmap string value) (form_type : string) r :
  validate rt data form_type = Ok (data1, r) ->
  (exemption_status r = "ACCREDITED" \/ exemption_status r = "ELIGIBLE" \/
   exemption_status r = "NON_ELIGIBLE") /\
  missing_required r =
    List.filter (path_missing (VDict data)) (required_for form_type) /\
  List.NoDup (missing_required r) /\
  (length (missing_required r) <= length (required_for form_type))%nat.
Proof.
  intros H.
  destruct (validate_tier _ _ _ _ _ H) as (inp & _ & T).
  pose proof (validate_missing _ _ _ _ _ H) as M.
  split.
  - rewrite T. unfold tier_of.
    destruct (first_rule inp); [tauto|]. destruct (eligible_met inp); tauto.
  - split; [exact M|]. rewrite M. split.
    + apply filter_NoDup, required_for_NoDup.
    + apply filter_length_le.
Qed.

Lemma report_tier_and_missing_witness :
  missing_required (report_of (validate runtime_2026 priority_record "trade"))
  = List.filter (path_missing (VDict priority_record)) (required_for "trade").
Proof.
  pose proof
    (run_of (validate runtime_2026 priority_record "trade") eq_refl)
    as E.
  exact (proj1 (proj2 (report_tier_and_missing _ _ _ _ _ E))).
Defined.

(** X11. An invalid report always asks for follow-up; a report that is
    valid and still asks for follow-up is one with a suitability concern
    only. *)
Theorem invalid_needs_follow_up
    rt (data data1 : gmap string value) (form_type : string) r :
  validate rt data form_type = Ok (data1, r) ->
  (is_valid r = false -> follow_up_needed r = true) /\
  (is_valid r = true /\ follow_up_needed r = true <->
   red_flags r = [] /\ (length (missing_required r) <= 3)%nat /\
   suitability_concerns r <> []).
Proof.
  intros H.
  destruct (validate_steps _ _ _ _ _ H)
    as (r1 & r2 & r3 & r4 & r5 & _ & _ & _ & _ & _ & ->).
  pose proof (verdict_is_valid r5) as V.
  pose proof (verdict_follow_up r5) as F.
  change (red_flags (verdict r5)) with (red_flags r5).
  change (missing_required (verdict r5)) with (missing_required r5).
  change (suitability_concerns (verdict r5)) with (suitability_concerns r5).
  split.
  - intros IV. apply F. apply V in IV. tauto.
  - split.
    + intros (IV & FU). apply F in FU.
      assert (N : ~ (red_flags r5 <> [] \/
                     (3 < length (missing_required r5))%nat)).
      { intros C. apply V in C. congruence. }
      destruct (red_flags r5) eqn:R.
      * repeat split; [lia|].
        destruct FU as [C|[C|C]]; [congruence | lia | exact C].
      * exfalso. apply N. left. discriminate.
    + intros (R & M & S). split.
      * destruct (is_valid (verdict r5)) eqn:IV; [reflexivity|].
        destruct (proj1 V eq_refl) as [C|C]; [congruence | lia].
      * apply F. tauto.
Qed.

Lemma invalid_needs_follow_up_witness :
  follow_up_needed (report_of (validate runtime_2026 pep_record "individual"))
  = true.
Proof.
  pose proof
    (run_of (validate runtime_2026 pep_record "individual") eq_refl)
    as E.
  apply (proj1 (invalid_needs_follow_up _ _ _ _ _ E)).
  vm_compute. reflexivity.
Defined.

Lemma filter_full {A} (f : A -> bool) (l : list A) :
  length (List.filter f l) = length l -> List.filter f l = l.
Proof.
  induction l as [|x l IH]; simpl; [reflexivity|].
  destruct (f x); simpl.
  - intros E. f_equal. apply IH. lia.
  - intros E. pose proof (filter_length_le f l). lia.
Qed.

(** X12. The threshold of more than three missing fields is the same for
    every form type.  For a form type that is not known nothing is
    required, so only an AML flag invalidates the report; for the trade
    form, which requires four paths, the report is invalid exactly when an
    AML flag is set or all four required fields are missing. *)
Theorem validity_by_form_type
    rt (data data1 : gmap string value) (form_type : string) r :
  validate rt data form_type = Ok (data1, r) ->
  (form_type <> "individual" -> form_type <> "corporate" ->
   form_type <> "trade" ->
   missing_required r = [] /\
   (is_valid r = false <->
    aml_flag data "is_pep" = true \/ aml_flag data "is_hio" = true)) /\
  (form_type = "trade" ->
   (is_valid r = false <->
    (aml_flag data "is_pep" = true \/ aml_flag data "is_hio" = true) \/
    missing_required r =
      ["client_name"; "investment_details.issuer";
       "investment_details.amount"; "investment_details.source_of_funds"])).
Proof.
  intros H.
  pose proof (validate_missing _ _ _ _ _ H) as M.
  pose proof (validate_red_flags _ _ _ _ _ H) as R.
  assert (NE : red_flags r <> [] <->
               aml_flag data "is_pep" = true \/ aml_flag data "is_hio" = true).
  { rewrite R. unfold aml_red_flags.
    destruct (aml_flag data "is_pep"), (aml_flag data "is_hio"); simpl;
      split; intros C; try discriminate; auto;
      try (exfalso; apply C; reflexivity);
      destruct C; discriminate. }
  assert (V : is_valid r = false <->
              red_flags r <> [] \/ (3 < length (missing_required r))%nat).
  { destruct (validate_steps _ _ _ _ _ H)
      as (r1 & r2 & r3 & r4 & r5 & _ & _ & _ & _ & _ & ->).
    exact (verdict_is_valid r5). }
  split.
  - intros N1 N2 N3.
    destruct (required_for_cases form_type) as [?|[?|[?|Hnil]]];
      try contradiction.
    rewrite Hnil in M. simpl in M. split; [exact M|].
    rewrite V, M, NE. simpl. split; [intros [C|C]; [exact C | lia] | tauto].
  - intros ->. rewrite V, NE.
    assert (Rq : required_for "trade" =
                 ["client_name"; "investment_details.issuer";
                  "investment_details.amount";
                  "investment_details.source_of_funds"])
      by (vm_compute; reflexivity).
    rewrite Rq in M.
    split; (intros [C|C]; [left; exact C | right]).
    + rewrite M. apply filter_full. simpl length at 2.
      pose proof (filter_length_le (path_missing (VDict data))
                    ["client_name"; "investment_details.issuer";
                     "investment_details.amount";
                     "investment_details.source_of_funds"]) as L.
      rewrite <- M in *. simpl in L. lia.
    + rewrite C. simpl. lia.
Qed.

Lemma validity_by_form_type_witness :
  missing_required
    (report_of (validate runtime_2026 pep_record "partnership")) = [].
Proof.
  pose proof
    (run_of (validate runtime_2026 pep_record "partnership") eq_refl)
    as E.
  apply (proj1 (validity_by_form_type _ _ _ _ _ E)); discriminate.
Defined.

(** ** What a run reads of the record *)

Lemma get_nested_head (data data' : gmap string value) (p : string) :
  data' !! path_head p = data !! path_head p ->
  _get_nested (VDict data') p = _get_nested (VDict data) p.
Proof.
  unfold path_head, _get_nested. intros A.
  pose proof (split_on_nonempty "." p) as NE.
  destruct (split_on "." p) as [|k rest]; [congruence|].
  simpl in *. rewrite A. reflexivity.
Qed.

Lemma required_loop_heads (data data' : gmap string value) required :
  Forall (fun p => data' !! path_head p = data !! path_head p) required ->
  forall r, required_loop (VDict data') required r =
            required_loop (VDict data) required r.
Proof.
  intros F. induction F as [|p rest Hp _ IH]; intros r; simpl; [reflexivity|].
  rewrite (get_nested_head _ _ _ Hp).
  destruct (_get_nested (VDict data) p); simpl; [apply IH | reflexivity].
Qed.

Lemma store_exemption_raises (data : gmap string value) a e reason :
  dict_or_absent (data !! "exemption_status") = false ->
  store_exemption data a e reason = Raise TypeError.
Proof.
  unfold store_exemption, section_of.
  destruct (data !! "exemption_status") as [v|] eqn:E; simpl; [|discriminate].
  rewrite E. destruct v; simpl; try discriminate; reflexivity.
Qed.

Lemma check_suitability_sections rt (d d' : gmap string value) r :
  section_of d' "investment_profile" = section_of d "investment_profile" ->
  section_of d' "personal" = section_of d "personal" ->
  _check_suitability rt d' r = _check_suitability rt d r.
Proof. unfold _check_suitability. intros -> ->. reflexivity. Qed.

Lemma check_aml_flags_sections rt (d d' : gmap string value) r :
  section_of d' "aml" = section_of d "aml" ->
  section_of d' "financials" = section_of d "financials" ->
  _check_aml_flags rt d' r = _check_aml_flags rt d r.
Proof. unfold _check_aml_flags. intros -> ->. reflexivity. Qed.

Lemma check_concentration_sections (d d' : gmap string value) r :
  section_of d' "financials" = section_of d "financials" ->
  section_of d' "investment_details" = section_of d "investment_details" ->
  _check_concentration d' r = _check_concentration d r.
Proof. unfold _check_concentration. intros -> ->. reflexivity. Qed.

Lemma reads_sections (data data' : gmap string value) form_type k :
  (forall k, In k (validate_reads form_type) -> data' !! k = data !! k) ->
  In k ["financials"; "investment_profile"; "personal"; "aml";
        "investment_details"] ->
  data' !! k = data !! k.
Proof.
  intros A I. apply A. unfold validate_reads. apply in_or_app. right. exact I.
Qed.

Lemma reads_required (data data' : gmap string value) form_type :
  (forall k, In k (validate_reads form_type) -> data' !! k = data !! k) ->
  Forall (fun p => data' !! path_head p = data !! path_head p)
    (required_for form_type).
Proof.
  intros A. apply List.Forall_forall. intros p I. apply A.
  unfold validate_reads. apply in_or_app. left. apply in_map. exact I.
Qed.

Lemma stored_sections (data data' d1 d1' : gmap string value) a e rs a' e' rs' k :
  store_exemption data a e rs = Ok d1 ->
  store_exemption data' a' e' rs' = Ok d1' ->
  data' !! k = data !! k -> k <> "exemption_status" ->
  section_of d1' k = section_of d1 k.
Proof.
  intros S S' A N. apply section_of_same.
  rewrite (store_exemption_other _ _ _ _ _ k S' N).
  rewrite (store_exemption_other _ _ _ _ _ k S N). exact A.
Qed.

(** X13. The outcome of a run (the report, or the exception that ends it)
    depends on the record only through the top-level keys the checks look
    up: two records that agree on the heads of the required paths and on
    the financials, investment_profile, personal, aml and
    investment_details sections, and that both carry or both lack a usable
    exemption_status section, have the same outcome.  In particular,
    whatever an incoming exemption_status section contains never influences
    the report. *)
Theorem outcome_depends_on_read_sections
    rt (data data' : gmap string value) (form_type : string) :
  (forall k, In k (validate_reads form_type) -> data' !! k = data !! k) ->
  dict_or_absent (data' !! "exemption_status") =
  dict_or_absent (data !! "exemption_status") ->
  outcome (validate rt data' form_type) = outcome (validate rt data form_type).
Proof.
  intros A D.
  assert (Sec : forall k,
             In k ["financials"; "investment_profile"; "personal"; "aml";
                   "investment_details"] -> data' !! k = data !! k)
    by (intros k; apply (reads_sections _ _ form_type k A)).
  unfold validate, _check_required_fields.
  rewrite (required_loop_heads _ _ _ (reads_required _ _ _ A)).
  destruct (required_loop (VDict data) (required_for form_type) new_result)
    as [r1|x]; cbn [bind]; [|reflexivity].
  rewrite !determine_exemption_unfold.
  rewrite (section_of_same data data' "financials")
    by (apply Sec; simpl; tauto).
  destruct (exemption_flags rt (section_of data "financials"))
    as [[[a e] rs]|x]; cbn [bind]; [|reflexivity].
  destruct (dict_or_absent (data !! "exemption_status")) eqn:D0.
  - destruct (store_exemption_total data a e rs D0) as (d1 & S).
    destruct (store_exemption_total data' a e rs D) as (d1' & S').
    rewrite S, S'. cbn [bind].
    rewrite (check_suitability_sections rt d1 d1')
      by (apply (stored_sections _ _ _ _ _ _ _ _ _ _ _ S S');
          [apply Sec; simpl; tauto | discriminate]).
    destruct (_check_suitability rt d1 (tier_result a e r1)) as [r3|x];
      cbn [bind]; [|reflexivity].
    rewrite (check_aml_flags_sections rt d1 d1')
      by (apply (stored_sections _ _ _ _ _ _ _ _ _ _ _ S S');
          [apply Sec; simpl; tauto | discriminate]).
    destruct (_check_aml_flags rt d1 r3) as [r4|x]; cbn [bind]; [|reflexivity].
    rewrite (check_concentration_sections d1 d1')
      by (apply (stored_sections _ _ _ _ _ _ _ _ _ _ _ S S');
          [apply Sec; simpl; tauto | discriminate]).
    destruct (_check_concentration d1 r4) as [r5|x]; reflexivity.
  - rewrite (store_exemption_raises data a e rs D0).
    rewrite (store_exemption_raises data' a e rs D). reflexivity.
Qed.

Lemma outcome_depends_on_read_sections_witness :
  outcome (validate runtime_2026 annotated_pep_record "individual") =
  outcome (validate runtime_2026 pep_record "individual").
Proof.
  apply outcome_depends_on_read_sections.
  - intros k I. vm_compute in I.
    repeat (destruct I as [<- | I]; [vm_compute; reflexivity|]).
    destruct I.
  - vm_compute. reflexivity.
Defined.

Lemma store_exemption_insert (data d1 : gmap string value) a e rs k v :
  k <> "exemption_status" ->
  store_exemption data a e rs = Ok d1 ->
  store_exemption (<[k := v]> data) a e rs = Ok (<[k := v]> d1).
Proof.
  intros N. unfold store_exemption, section_of.
  rewrite lookup_insert_ne by congruence.
  destruct (data !! "exemption_status") as [w|] eqn:E.
  - rewrite lookup_insert_ne by congruence. rewrite E. cbn [from_option id].
    destruct w; try discriminate. intros H. inv_ok.
    f_equal. apply insert_insert_ne. congruence.
  - rewrite !lookup_insert_eq. cbn [from_option id]. intros H. inv_ok.
    f_equal. rewrite !insert_insert_eq.
    apply insert_insert_ne. congruence.
Qed.

(** X14. A key that no check looks up rides along: if a run returns on a
    record, then on the record with such a key added or replaced it returns
    the same report, and the record it leaves is the one of the first run
    with that key set. *)
Theorem validate_ignores_unread_key
    rt (data data1 : gmap string value) (form_type : string) r
    (k : string) (v : value) :
  ~ In k (validate_reads form_type) -> k <> "exemption_status" ->
  validate rt data form_type = Ok (data1, r) ->
  validate rt (<[k := v]> data) form_type = Ok (<[k := v]> data1, r).
Proof.
  intros NR N H.
  assert (A : forall j, In j (validate_reads form_type) ->
                        <[k := v]> data !! j = data !! j).
  { intros j I. apply lookup_insert_ne. intros ->. contradiction. }
  assert (Sec : forall d j,
             In j ["financials"; "investment_profile"; "personal"; "aml";
                   "investment_details"] ->
             section_of (<[k := v]> d) j = section_of d j).
  { intros d j I. apply section_of_same, lookup_insert_ne. intros ->.
    apply NR. unfold validate_reads. apply in_or_app. right. exact I. }
  destruct (validate_steps _ _ _ _ _ H)
    as (r1 & r2 & r3 & r4 & r5 & E1 & E2 & E3 & E4 & E5 & ->).
  destruct (determine_exemption_steps _ _ _ _ _ E2)
    as (a & e & rs & Fl & St & ->).
  unfold validate, _check_required_fields.
  rewrite (required_loop_heads _ _ _ (reads_required _ _ _ A)).
  fold (_check_required_fields (VDict data) form_type new_result).
  rewrite E1. cbn [bind].
  rewrite determine_exemption_unfold.
  rewrite Sec by (simpl; tauto). rewrite Fl. cbn [bind].
  rewrite (store_exemption_insert _ _ _ _ _ k v N St). cbn [bind].
  rewrite (check_suitability_sections rt data1 (<[k := v]> data1))
    by (apply Sec; simpl; tauto).
  rewrite E3. cbn [bind].
  rewrite (check_aml_flags_sections rt data1 (<[k := v]> data1))
    by (apply Sec; simpl; tauto).
  rewrite E4. cbn [bind].
  rewrite (check_concentration_sections data1 (<[k := v]> data1))
    by (apply Sec; simpl; tauto).
  rewrite E5. reflexivity.
Qed.

Lemma validate_ignores_unread_key_witness :
  validate runtime_2026 (<["notes" := VStr "call back"]> pep_record)
    "individual" =
  Ok (<["notes" := VStr "call back"]>
        (data_of (validate runtime_2026 pep_record "individual")),
      report_of (validate runtime_2026 pep_record "individual")).
Proof.
  apply validate_ignores_unread_key.
  - vm_compute. intuition discriminate.
  - discriminate.
  - exact (run_of (validate runtime_2026 pep_record "individual") eq_refl).
Defined.

(** ** Suitability findings *)

Lemma py_get_field (data : gmap string value) section k v :
  py_get (section_of data section) k = Ok v -> v = field_of data section k.
Proof.
  unfold py_get, py_get_default, field_of. intros H.
  destruct (section_of data section) as [| | | | | |d] eqn:S;
    try discriminate H.
  rewrite (section_of_VDict _ _ _ S). inv_ok. reflexivity.
Qed.

Lemma retirement_check_findings rt ry th r r' :
  retirement_check rt ry th r = Ok r' ->
  warnings r' = warnings r /\
  exists t, suitability_concerns r' = (suitability_concerns r ++ t)%list /\
            (eq_str th "10+" = false -> t = []).
Proof.
  unfold retirement_check. intros H.
  destruct (truthy ry);
    [|inv_ok; split; [reflexivity|]; exists []; rewrite app_nil_r; auto].
  inv_bind H as ytr Eytr.
  destruct (eq_str th "10+");
    [|inv_ok; split; [reflexivity|]; exists []; rewrite app_nil_r; auto].
  inv_bind H as lt Elt. destruct lt; inv_ok; simpl.
  - split; [reflexivity|]. eexists. split; [reflexivity|]. discriminate.
  - split; [reflexivity|]. exists []. rewrite app_nil_r. auto.
Qed.

Lemma age_check_findings rt dob tol th r r' :
  age_check rt dob tol th r = Ok r' ->
  warnings r' = warnings r /\
  exists t, suitability_concerns r' = (suitability_concerns r ++ t)%list /\
            (eq_str tol "HIGH" = false -> eq_str th "10+" = false -> t = []) /\
            (forall s year, dob = VStr s -> s <> "" ->
               birth_year rt s = Some year -> t = age_concerns rt year tol th).
Proof.
  unfold age_check, birth_year. intros H.
  destruct (truthy dob) eqn:T.
  - destruct dob; try discriminate.
    destruct (int_of_text rt _) as [year|] eqn:P; inv_ok.
    + split; [case_ifs; reflexivity|].
      exists (age_concerns rt year tol th). split; [|split].
      * unfold age_concerns, age_risk_concern, age_horizon_concern.
        case_ifs; rewrite <- ?app_assoc, ?app_nil_r; reflexivity.
      * intros E1 E2. unfold age_concerns. rewrite E1, E2, !andb_false_r.
        reflexivity.
      * intros s0 y0 E _ P0. injection E as <-. rewrite P in P0.
        injection P0 as <-. reflexivity.
    + split; [reflexivity|]. exists []. rewrite app_nil_r.
      split; [reflexivity|]. split; [reflexivity|].
      intros s0 y0 E _ P0. injection E as <-. congruence.
  - inv_ok. split; [reflexivity|]. exists []. rewrite app_nil_r.
    split; [reflexivity|]. split; [reflexivity|].
    intros s0 y0 -> N _. simpl in T.
    apply negb_false_iff, String.eqb_eq in T. contradiction.
Qed.

Lemma check_suitability_findings rt (data : gmap string value) r r' :
  _check_suitability rt data r = Ok r' ->
  let tol := field_of data "investment_profile" "risk_tolerance" in
  let cap := field_of data "investment_profile" "risk_capacity" in
  let th := field_of data "investment_profile" "time_horizon" in
  let obj := field_of data "investment_profile" "investment_objective" in
  warnings r' =
    (warnings r ++
     if eq_str obj "INCOME" && eq_str tol "HIGH" then [income_warning]
     else [])%list /\
  exists t1 t2,
    suitability_concerns r' =
      (suitability_concerns r ++
       (if eq_str tol "HIGH" && (eq_str cap "LOW" || eq_str cap "NIL")
        then [capacity_concern] else []) ++
       t1 ++
       (if eq_str obj "GROWTH" && eq_str tol "LOW" then [growth_concern]
        else []) ++
       t2)%list /\
    (eq_str th "10+" = false -> t1 = []) /\
    (eq_str tol "HIGH" = false -> eq_str th "10+" = false -> t2 = []) /\
    (forall s year, field_of data "personal" "dob" = VStr s -> s <> "" ->
       birth_year rt s = Some year -> t2 = age_concerns rt year tol th).
Proof.
  unfold _check_suitability. intros H.
  inv_bind H as tol Etol. inv_bind H as cap Ecap. inv_bind H as th Eth.
  inv_bind H as obj Eobj. inv_bind H as ry Ery. inv_bind H as r2 Er2.
  inv_bind H as dob Edob.
  apply py_get_field in Etol, Ecap, Eth, Eobj, Edob.
  subst tol cap th obj dob. cbv zeta.
  destruct (retirement_check_findings _ _ _ _ _ Er2) as (W2 & t1 & C2 & N1).
  destruct (age_check_findings _ _ _ _ _ _ H) as (W4 & t2 & C4 & N2 & A2).
  split.
  - rewrite W4.
    destruct (eq_str _ "INCOME" && eq_str _ "HIGH"),
             (eq_str _ "GROWTH" && eq_str _ "LOW");
      simpl; rewrite W2;
      destruct (eq_str _ "HIGH" && (eq_str _ "LOW" || eq_str _ "NIL"));
      simpl; rewrite ?app_nil_r; reflexivity.
  - exists t1, t2. split; [|tauto].
    rewrite C4.
    destruct (eq_str _ "INCOME" && eq_str _ "HIGH"),
             (eq_str _ "GROWTH" && eq_str _ "LOW");
      simpl; rewrite C2;
      destruct (eq_str _ "HIGH" && (eq_str _ "LOW" || eq_str _ "NIL"));
      simpl; rewrite <- ?app_assoc, ?app_nil_r; reflexivity.
Qed.

Lemma check_concentration_concerns_grow (data : gmap string value) r r' :
  _check_concentration data r = Ok r' ->
  exists tail,
    suitability_concerns r' = (suitability_concerns r ++ tail)%list /\
    (truthy (field_of data "investment_details" "amount") = false ->
     tail = []).
Proof.
  unfold _check_concentration. intros H.
  inv_bind H as nfa Enfa. inv_bind H as amt Eamt.
  unfold get_or_zero in Eamt. inv_bind Eamt as raw Eraw.
  apply py_get_field in Eraw. subst raw. inv_ok.
  inv_bind H as np Enp.
  destruct np; [|inv_ok; exists []; rewrite app_nil_r; auto].
  inv_bind H as ap Eap.
  destruct ap; [|inv_ok; exists []; rewrite app_nil_r; auto].
  inv_bind H as pct Epct. inv_ok.
  exists (if float_gt_int pct 25 then [concentration_concern pct] else []).
  split.
  - destruct (float_gt_int pct 10), (float_gt_int pct 25); simpl;
      rewrite ?app_nil_r; reflexivity.
  - intros T. unfold or_zero in Eap. rewrite T in Eap. discriminate.
Qed.

Lemma field_of_stored (data data1 : gmap string value) a e rs section k :
  store_exemption data a e rs = Ok data1 ->
  section <> "exemption_status" ->
  field_of data1 section k = field_of data section k.
Proof.
  intros S N. unfold field_of, section_dict.
  rewrite (store_exemption_other _ _ _ _ _ section S N). reflexivity.
Qed.

Lemma validate_findings rt (data data1 : gmap string value) ft r :
  validate rt data ft = Ok (data1, r) ->
  let tol := field_of data "investment_profile" "risk_tolerance" in
  let cap := field_of data "investment_profile" "risk_capacity" in
  let th := field_of data "investment_profile" "time_horizon" in
  let obj := field_of data "investment_profile" "investment_objective" in
  exists t1 t2 t3 w,
    suitability_concerns r =
      ((if eq_str tol "HIGH" && (eq_str cap "LOW" || eq_str cap "NIL")
        then [capacity_concern] else []) ++
       t1 ++
       (if eq_str obj "GROWTH" && eq_str tol "LOW" then [growth_concern]
        else []) ++
       t2 ++ t3)%list /\
    warnings r =
      (tier_warnings (exemption_status r) ++
       (if eq_str obj "INCOME" && eq_str tol "HIGH" then [income_warning]
        else []) ++ w)%list /\
    (eq_str th "10+" = false -> t1 = []) /\
    (eq_str tol "HIGH" = false -> eq_str th "10+" = false -> t2 = []) /\
    (forall s year, field_of data "personal" "dob" = VStr s -> s <> "" ->
       birth_year rt s = Some year -> t2 = age_concerns rt year tol th) /\
    (truthy (field_of data "investment_details" "amount") = false -> t3 = []).
Proof.
  intros H.
  destruct (validate_steps _ _ _ _ _ H)
    as (r1 & r2 & r3 & r4 & r5 & E1 & E2 & E3 & E4 & E5 & ->).
  destruct (required_loop_spec (VDict data) (required_for ft) new_result)
    as (r1' & E1' & _ & _ & _ & _ & W1 & C1 & _).
  unfold _check_required_fields in E1. rewrite E1' in E1. inv_ok.
  destruct (determine_exemption_steps _ _ _ _ _ E2)
    as (a & e & rs & _ & St & ->).
  pose proof (check_suitability_findings _ _ _ _ E3) as F3. cbv zeta in F3.
  rewrite !(field_of_stored _ _ _ _ _ _ _ St) in F3 by discriminate.
  destruct F3 as (W3 & t1 & t2 & C3 & N1 & N2 & A2).
  destruct (check_aml_flags_frame _ _ _ _ E4) as (_ & C4 & T4 & _).
  destruct (check_aml_flags_warnings _ _ _ _ E4)
    as (bor & nfa & _ & _ & tail4 & W4 & _).
  destruct (check_concentration_concerns_grow _ _ _ E5) as (t3 & C5 & N3).
  rewrite (field_of_stored _ _ _ _ _ _ _ St) in N3 by discriminate.
  destruct (check_concentration_warnings_grow _ _ _ E5) as (tail5 & W5).
  destruct (check_concentration_frame _ _ _ E5) as (_ & _ & T5).
  destruct (check_suitability_frame _ _ _ _ E3) as (_ & _ & T3).
  cbv zeta. eexists t1, t2, t3, _.
  change (suitability_concerns (verdict r5)) with (suitability_concerns r5).
  change (warnings (verdict r5)) with (warnings r5).
  change (exemption_status (verdict r5)) with (exemption_status r5).
  split; [|split; [|tauto]].
  - rewrite C5, C4, C3.
    destruct (tier_result_frame a e r1) as (_ & _ & ->). rewrite C1. simpl.
    rewrite <- !app_assoc. reflexivity.
  - rewrite W5, W4, W3, T5, T4, T3.
    assert (TW : warnings (tier_result a e r1) =
                 tier_warnings (exemption_status (tier_result a e r1))).
    { unfold tier_result. destruct a, e; simpl; rewrite W1; reflexivity. }
    rewrite TW, <- !app_assoc. reflexivity.
Qed.

Lemma concern_forces_follow_up rt (data data1 : gmap string value) ft r c :
  validate rt data ft = Ok (data1, r) ->
  In c (suitability_concerns r) -> follow_up_needed r = true.
Proof.
  intros H I.
  destruct (validate_steps _ _ _ _ _ H)
    as (r1 & r2 & r3 & r4 & r5 & _ & _ & _ & _ & _ & ->).
  apply (verdict_follow_up r5). right; right.
  change (suitability_concerns (verdict r5)) with (suitability_concerns r5) in I.
  intros E. rewrite E in I. destruct I.
Qed.

(** X15. The findings of the suitability check reach the report of a run
    that returns: HIGH tolerance with LOW or NIL capacity, and a GROWTH
    objective with LOW tolerance, each put their concern into the report and
    force follow-up; an INCOME objective with HIGH tolerance puts a warning
    into it; and a client whose date of birth starts with a year that makes
    them 65 or more in the current year, with HIGH tolerance, gets the age
    concern and follow-up. *)
Theorem suitability_findings_reach_report
    rt (data data1 : gmap string value) (form_type : string) r :
  validate rt data form_type = Ok (data1, r) ->
  let tol := field_of data "investment_profile" "risk_tolerance" in
  let cap := field_of data "investment_profile" "risk_capacity" in
  let obj := field_of data "investment_profile" "investment_objective" in
  (tol = VStr "HIGH" -> cap = VStr "LOW" \/ cap = VStr "NIL" ->
   In capacity_concern (suitability_concerns r) /\
   follow_up_needed r = true) /\
  (obj = VStr "GROWTH" -> tol = VStr "LOW" ->
   In growth_concern (suitability_concerns r) /\
   follow_up_needed r = true) /\
  (obj = VStr "INCOME" -> tol = VStr "HIGH" ->
   In income_warning (warnings r)) /\
  (forall s year,
     field_of data "personal" "dob" = VStr s -> s <> "" ->
     birth_year rt s = Some year -> 65 <= now_year rt - year ->
     tol = VStr "HIGH" ->
     In (age_risk_concern (now_year rt - year)) (suitability_concerns r) /\
     follow_up_needed r = true).
Proof.
  intros H.
  pose proof (validate_findings _ _ _ _ _ H) as F. cbv zeta in F.
  destruct F as (t1 & t2 & t3 & w & C & W & _ & _ & A2 & _).
  cbv zeta.
  assert (FU : forall c, In c (suitability_concerns r) ->
                         In c (suitability_concerns r) /\
                         follow_up_needed r = true).
  { intros c I. split; [exact I|].
    exact (concern_forces_follow_up _ _ _ _ _ _ H I). }
  split; [|split; [|split]].
  - intros T Cp. apply FU. rewrite C, T.
    destruct Cp as [E|E]; rewrite E; simpl; tauto.
  - intros O T. apply FU. rewrite C, O, T. simpl.
    rewrite !in_app_iff. simpl. tauto.
  - intros O T. rewrite W, O, T. simpl. rewrite !in_app_iff. simpl. tauto.
  - intros s year Ed Ne By Age T. apply FU.
    rewrite C, (A2 s year Ed Ne By).
    unfold age_concerns. rewrite T.
    apply Z.leb_le in Age. rewrite Age. simpl.
    rewrite !in_app_iff. simpl. tauto.
Qed.

Lemma suitability_findings_reach_report_witness :
  In (age_risk_concern 76)
    (suitability_concerns
       (report_of (validate runtime_2026 elderly_record "individual"))).
Proof.
  pose proof
    (run_of (validate runtime_2026 elderly_record "individual") eq_refl)
    as E.
  pose proof (suitability_findings_reach_report _ _ _ _ _ E) as F.
  cbv zeta in F. destruct F as (_ & _ & _ & A).
  apply (A "1950-01-15" 1950);
    [vm_compute; reflexivity | discriminate | vm_compute; reflexivity
    | vm_compute; discriminate | vm_compute; reflexivity].
Defined.

(** X16. No concern without a cause: when the risk tolerance is not HIGH,
    the time horizon is not 10+, the objective is not GROWTH together with
    LOW tolerance, and no investment amount is given, the report of a run
    carries no suitability concern, and follow-up is needed exactly when
    the report is invalid. *)
Theorem no_concern_without_cause
    rt (data data1 : gmap string value) (form_type : string) r :
  validate rt data form_type = Ok (data1, r) ->
  eq_str (field_of data "investment_profile" "risk_tolerance") "HIGH" = false ->
  eq_str (field_of data "investment_profile" "time_horizon") "10+" = false ->
  eq_str (field_of data "investment_profile" "investment_objective") "GROWTH"
    && eq_str (field_of data "investment_profile" "risk_tolerance") "LOW"
    = false ->
  truthy (field_of data "investment_details" "amount") = false ->
  suitability_concerns r = [] /\
  (follow_up_needed r = true <-> is_valid r = false).
Proof.
  intros H NH NT NG NA.
  pose proof (validate_findings _ _ _ _ _ H) as F. cbv zeta in F.
  destruct F as (t1 & t2 & t3 & w & C & _ & N1 & N2 & _ & N3).
  rewrite (N1 NT), (N2 NH NT), (N3 NA), NH, NG in C. simpl in C.
  split; [exact C|].
  destruct (validate_steps _ _ _ _ _ H)
    as (r1 & r2 & r3 & r4 & r5 & _ & _ & _ & _ & _ & ->).
  change (suitability_concerns (verdict r5)) with (suitability_concerns r5) in C.
  rewrite (verdict_follow_up r5), (verdict_is_valid r5), C. tauto.
Qed.

Lemma no_concern_without_cause_witness :
  suitability_concerns
    (report_of (validate runtime_2026 moderate_record "individual")) = [].
Proof.
  pose proof
    (run_of (validate runtime_2026 moderate_record "individual") eq_refl)
    as E.
  apply (proj1 (no_concern_without_cause _ _ _ _ _ E
                  ltac:(vm_compute; reflexivity) ltac:(vm_compute; reflexivity)
                  ltac:(vm_compute; reflexivity) ltac:(vm_compute; reflexivity))).
Defined.

Lemma split_on_no_dash (k : string) :
  has_dash k = false -> split_on "-"%char k = [k].
Proof.
  induction k as [|a k IH]; simpl; [reflexivity|].
  intros H. apply orb_false_iff in H. destruct H as [A D].
  rewrite A, (IH D). reflexivity.
Qed.

Lemma birth_year_prefix rt (y rest : string) :
  has_dash y = false -> birth_year rt (y +:+ "-" +:+ rest) = int_of_text rt y.
Proof.
  intros D. unfold birth_year.
  change (y +:+ "-" +:+ rest) with (y +:+ String "-" rest).
  rewrite split_on_app, (split_on_no_dash _ D). reflexivity.
Qed.

Lemma age_check_year rt (y rest rest' : string) tol th r :
  has_dash y = false ->
  age_check rt (VStr (y +:+ "-" +:+ rest)) tol th r =
  age_check rt (VStr (y +:+ "-" +:+ rest')) tol th r.
Proof.
  intros D. unfold age_check.
  fold (birth_year rt (y +:+ "-" +:+ rest)).
  fold (birth_year rt (y +:+ "-" +:+ rest')).
  rewrite !birth_year_prefix by exact D.
  assert (T : forall q, truthy (VStr (y +:+ "-" +:+ q)) = true).
  { intros q. simpl. destruct y; reflexivity. }
  rewrite !T. reflexivity.
Qed.

(** X17. The age test of the suitability check looks at the birth year
    only: two records whose dates of birth start with the same year, and
    differ in what follows the first dash, get the same suitability result.
    The age is the difference of the years, whatever the month and day. *)
Theorem age_uses_birth_year_only
    rt (data p : gmap string value) (y rest rest' : string) r :
  has_dash y = false ->
  _check_suitability rt
    (<["personal" := VDict (<["dob" := VStr (y +:+ "-" +:+ rest)]> p)]> data) r
  =
  _check_suitability rt
    (<["personal" := VDict (<["dob" := VStr (y +:+ "-" +:+ rest')]> p)]> data) r.
Proof.
  intros D. unfold _check_suitability, section_of.
  rewrite !lookup_insert_eq.
  rewrite !(lookup_insert_ne _ "personal" "investment_profile")
    by discriminate.
  cbn [from_option id].
  destruct (py_get (default (VDict ∅) (data !! "investment_profile"))
              "risk_tolerance") as [tol|]; cbn [bind]; [|reflexivity].
  destruct (py_get (default (VDict ∅) (data !! "investment_profile"))
              "risk_capacity") as [cap|]; cbn [bind]; [|reflexivity].
  destruct (py_get (default (VDict ∅) (data !! "investment_profile"))
              "time_horizon") as [th|]; cbn [bind]; [|reflexivity].
  destruct (py_get (default (VDict ∅) (data !! "investment_profile"))
              "investment_objective") as [obj|]; cbn [bind]; [|reflexivity].
  destruct (py_get (default (VDict ∅) (data !! "investment_profile"))
              "planned_retirement_year") as [ry|]; cbn [bind]; [|reflexivity].
  destruct (retirement_check rt ry th _) as [r2|]; cbn [bind]; [|reflexivity].
  unfold py_get, py_get_default. rewrite !lookup_insert_eq.
  cbn [from_option id bind].
  apply age_check_year, D.
Qed.

Lemma age_uses_birth_year_only_witness :
  _check_suitability runtime_2026
    (<["personal" := VDict (<["dob" := VStr ("1950" +:+ "-" +:+ "01-15")]> ∅)]>
       elderly_record) new_result
  =
  _check_suitability runtime_2026
    (<["personal" := VDict (<["dob" := VStr ("1950" +:+ "-" +:+ "12-31")]> ∅)]>
       elderly_record) new_result.
Proof.
  apply age_uses_birth_year_only. reflexivity.
Defined.

(** * Properties of the callers *)

(** ** The report as a dictionary *)

Lemma map_VStr_inj (l l' : list string) : map VStr l = map VStr l' -> l = l'.
Proof.
  revert l'. induction l as [|x l IH]; intros [|y l'] H; simpl in H;
    try discriminate; [reflexivity|].
  injection H as -> H. f_equal. apply IH, H.
Qed.

Lemma to_dict_lookups (r : ValidationResult) :
  to_dict r !! "is_valid" = Some (VBool (is_valid r)) /\
  to_dict r !! "exemption_status" = Some (VStr (exemption_status r)) /\
  to_dict r !! "red_flags" = Some (text_list (red_flags r)) /\
  to_dict r !! "warnings" = Some (text_list (warnings r)) /\
  to_dict r !! "missing_required" = Some (text_list (missing_required r)) /\
  to_dict r !! "suitability_concerns" =
    Some (text_list (suitability_concerns r)) /\
  to_dict r !! "follow_up_needed" = Some (VBool (follow_up_needed r)).
Proof. unfold to_dict. repeat split; by simplify_map_eq. Qed.

(** X18. The dictionary form of a report loses nothing: two reports with
    the same dictionary are the same report, and the dictionary has the
    seven keys of the report and no other. *)
Theorem to_dict_faithful (r r' : ValidationResult) :
  (to_dict r = to_dict r' -> r = r') /\
  (forall k, is_Some (to_dict r !! k) <->
     In k ["is_valid"; "exemption_status"; "red_flags"; "warnings";
           "missing_required"; "suitability_concerns"; "follow_up_needed"]).
Proof.
  split.
  - intros H.
    destruct (to_dict_lookups r) as (L1 & L2 & L3 & L4 & L5 & L6 & L7).
    destruct (to_dict_lookups r') as (M1 & M2 & M3 & M4 & M5 & M6 & M7).
    rewrite H in L1, L2, L3, L4, L5, L6, L7. clear H.
    rewrite M1 in L1. rewrite M2 in L2. rewrite M3 in L3. rewrite M4 in L4.
    rewrite M5 in L5. rewrite M6 in L6. rewrite M7 in L7.
    injection L1 as L1. injection L2 as L2. injection L3 as L3.
    injection L4 as L4. injection L5 as L5. injection L6 as L6.
    injection L7 as L7.
    apply map_VStr_inj in L3, L4, L5, L6.
    destruct r, r'; simpl in *. congruence.
  - intros k.
    destruct (to_dict_lookups r) as (L1 & L2 & L3 & L4 & L5 & L6 & L7).
    split.
    + intros S.
      destruct (decide (k = "is_valid")) as [->|N1]; [simpl; tauto|].
      destruct (decide (k = "exemption_status")) as [->|N2]; [simpl; tauto|].
      destruct (decide (k = "red_flags")) as [->|N3]; [simpl; tauto|].
      destruct (decide (k = "warnings")) as [->|N4]; [simpl; tauto|].
      destruct (decide (k = "missing_required")) as [->|N5]; [simpl; tauto|].
      destruct (decide (k = "suitability_concerns")) as [->|N6];
        [simpl; tauto|].
      destruct (decide (k = "follow_up_needed")) as [->|N7]; [simpl; tauto|].
      exfalso. unfold to_dict in S.
      rewrite !lookup_insert_ne in S by congruence.
      rewrite lookup_singleton_ne in S by congruence.
      destruct S as [x Hx]. discriminate.
    + simpl. intros [<-|[<-|[<-|[<-|[<-|[<-|[<-|[]]]]]]]]; eauto.
Qed.

Lemma to_dict_faithful_witness :
  is_Some (to_dict new_result !! "warnings").
Proof.
  apply (proj2 (to_dict_faithful new_result new_result) "warnings").
  simpl. tauto.
Defined.

(** ** The subject line of the notification *)





(** ** Amounts in the email body *)



(** ** The background task *)

(** X22. The background task never reaches its last statement: whatever
    the extractor, the PDF filler and the mail service do, every run ends
    in the handler that logs an error, because the report object it hands to
    [send_kyc_email] has no [get]. *)
Theorem background_task_never_completes
    rt extract fill build_and_send
    (transcript source_language form_type dealing_rep : string) :
  process_kyc_background rt extract fill build_and_send
    transcript source_language form_type dealing_rep = ErrorLogged.
Proof.
  unfold process_kyc_background, send_kyc_email.
  destruct (extract transcript source_language form_type) as [d|];
    [|reflexivity].
  destruct (validate_value rt d form_type) as [[data1 r]|]; [|reflexivity].
  destruct (fill (VDict data1) form_type dealing_rep); [|reflexivity].
  assert (email_subject rt (VDict data1) (ReportObject r) =
          Raise AttributeError) as ->; [|reflexivity].
  unfold email_subject. cbn [py_get_default bind].
  destruct (default (VDict ∅) (data1 !! "client_name")) as [| | | | | |c];
    reflexivity.
Qed.

(** ** The field mapping of the individual form *)

Ltac inv_binds H :=
  repeat (let a := fresh "v" in
          let Ha := fresh "E" in
          apply bind_ok in H; destruct H as (a & Ha & H)).

Lemma map_individual_boxes rt today (data : gmap string value) rep m :
  _map_individual_fields rt today data rep = Ok m ->
  exists profile aml : gmap string value,
    section_of data "investment_profile" = VDict profile /\
    section_of data "aml" = VDict aml /\
    let knowledge := default VNone (profile !! "knowledge_level") in
    let tolerance := default VNone (profile !! "risk_tolerance") in
    let objective := default VNone (profile !! "investment_objective") in
    let horizon := default VNone (profile !! "time_horizon") in
    m !! "Good" = Some (VBool (eq_str knowledge "GOOD")) /\
    m !! "Average" = Some (VBool (eq_str knowledge "AVERAGE")) /\
    m !! "Limited" = Some (VBool (eq_str knowledge "LIMITED")) /\
    m !! "LOW" = Some (VBool (eq_str tolerance "LOW")) /\
    m !! "MODERATE" = Some (VBool (eq_str tolerance "MODERATE")) /\
    m !! "HIGH" = Some (VBool (eq_str tolerance "HIGH")) /\
    m !! "Growth" = Some (VBool (eq_str objective "GROWTH")) /\
    m !! "Growth  Income" =
      Some (VBool (eq_str objective "GROWTH_AND_INCOME")) /\
    m !! "Income" = Some (VBool (eq_str objective "INCOME")) /\
    m !! "Tax Efficiency" = Some (VBool (eq_str objective "TAX_EFFICIENCY")) /\
    m !! "13 years" = Some (VBool (eq_str horizon "1-3")) /\
    m !! "35 years" = Some (VBool (eq_str horizon "3-5")) /\
    m !! "610 years" = Some (VBool (eq_str horizon "6-10")) /\
    m !! "10 years" = Some (VBool (eq_str horizon "10+")) /\
    m !! "SIN" = Some (VStr "") /\
    m !! "PEP Yes" = Some (default (VBool false) (aml !! "is_pep")) /\
    m !! "PEP No" =
      Some (VBool (negb (truthy (default (VBool true) (aml !! "is_pep"))))) /\
    m !! "HIO Yes" = Some (default (VBool false) (aml !! "is_hio")) /\
    m !! "HIO No" =
      Some (VBool (negb (truthy (default (VBool true) (aml !! "is_hio"))))).
Proof.
  unfold _map_individual_fields. intros H. inv_binds H.
  injection H as <-.
  destruct (section_of data "investment_profile") as [| | | | | |profile];
    try discriminate.
  destruct (section_of data "aml") as [| | | | | |aml]; try discriminate.
  exists profile, aml. split; [reflexivity|]. split; [reflexivity|].
  unfold box, py_get, py_get_default in *. cbn [bind] in *. inv_ok.
  cbv zeta. repeat split; vm_compute; reflexivity.
Qed.

Lemma ticked_box (m : gmap string value) k b :
  m !! k = Some (VBool b) -> ticked m k = b.
Proof. unfold ticked. intros ->. reflexivity. Qed.

(** X23. In a filled individual form at most one box is ticked in each of
    the four groups of check boxes (investment knowledge, risk tolerance,
    objective, time horizon), and the SIN field is empty whatever the
    record holds. *)
Theorem individual_form_boxes_exclusive
    rt today (data : gmap string value) dealing_rep m :
  _map_individual_fields rt today data dealing_rep = Ok m ->
  (length (ticked_in m knowledge_boxes) <= 1)%nat /\
  (length (ticked_in m risk_boxes) <= 1)%nat /\
  (length (ticked_in m objective_boxes) <= 1)%nat /\
  (length (ticked_in m horizon_boxes) <= 1)%nat /\
  m !! "SIN" = Some (VStr "").
Proof.
  intros H.
  destruct (map_individual_boxes _ _ _ _ _ H)
    as (profile & aml & _ & _ & B). cbv zeta in B.
  destruct B as (K1 & K2 & K3 & T1 & T2 & T3 & O1 & O2 & O3 & O4 &
                 H1 & H2 & H3 & H4 & S & _).
  unfold ticked_in, knowledge_boxes, risk_boxes, objective_boxes,
    horizon_boxes. cbn [List.filter].
  rewrite (ticked_box _ _ _ K1), (ticked_box _ _ _ K2), (ticked_box _ _ _ K3),
    (ticked_box _ _ _ T1), (ticked_box _ _ _ T2), (ticked_box _ _ _ T3),
    (ticked_box _ _ _ O1), (ticked_box _ _ _ O2), (ticked_box _ _ _ O3),
    (ticked_box _ _ _ O4), (ticked_box _ _ _ H1), (ticked_box _ _ _ H2),
    (ticked_box _ _ _ H3), (ticked_box _ _ _ H4).
  assert (X : forall v a b, a <> b -> eq_str v a = true -> eq_str v b = false).
  { intros v a b N E. destruct v; simpl in *; try discriminate.
    apply String.eqb_eq in E. subst. apply String.eqb_neq. exact N. }
  repeat split; try exact S.
  - destruct (eq_str _ "GOOD") eqn:A;
      [rewrite (X _ "GOOD" "AVERAGE" ltac:(discriminate) A),
               (X _ "GOOD" "LIMITED" ltac:(discriminate) A); simpl; lia|].
    destruct (eq_str _ "AVERAGE") eqn:A2;
      [rewrite (X _ "AVERAGE" "LIMITED" ltac:(discriminate) A2); simpl; lia|].
    destruct (eq_str _ "LIMITED"); simpl; lia.
  - destruct (eq_str _ "LOW") eqn:A;
      [rewrite (X _ "LOW" "MODERATE" ltac:(discriminate) A),
               (X _ "LOW" "HIGH" ltac:(discriminate) A); simpl; lia|].
    destruct (eq_str _ "MODERATE") eqn:A2;
      [rewrite (X _ "MODERATE" "HIGH" ltac:(discriminate) A2); simpl; lia|].
    destruct (eq_str _ "HIGH"); simpl; lia.
  - destruct (eq_str _ "GROWTH") eqn:A;
      [rewrite (X _ "GROWTH" "GROWTH_AND_INCOME" ltac:(discriminate) A),
               (X _ "GROWTH" "INCOME" ltac:(discriminate) A),
               (X _ "GROWTH" "TAX_EFFICIENCY" ltac:(discriminate) A); simpl; lia|].
    destruct (eq_str _ "GROWTH_AND_INCOME") eqn:A2;
      [rewrite (X _ "GROWTH_AND_INCOME" "INCOME" ltac:(discriminate) A2),
               (X _ "GROWTH_AND_INCOME" "TAX_EFFICIENCY" ltac:(discriminate) A2); simpl; lia|].
    destruct (eq_str _ "INCOME") eqn:A3;
      [rewrite (X _ "INCOME" "TAX_EFFICIENCY" ltac:(discriminate) A3); simpl; lia|].
    destruct (eq_str _ "TAX_EFFICIENCY"); simpl; lia.
  - destruct (eq_str _ "1-3") eqn:A;
      [rewrite (X _ "1-3" "3-5" ltac:(discriminate) A),
               (X _ "1-3" "6-10" ltac:(discriminate) A),
               (X _ "1-3" "10+" ltac:(discriminate) A); simpl; lia|].
    destruct (eq_str _ "3-5") eqn:A2;
      [rewrite (X _ "3-5" "6-10" ltac:(discriminate) A2),
               (X _ "3-5" "10+" ltac:(discriminate) A2); simpl; lia|].
    destruct (eq_str _ "6-10") eqn:A3;
      [rewrite (X _ "6-10" "10+" ltac:(discriminate) A3); simpl; lia|].
    destruct (eq_str _ "10+"); simpl; lia.
Qed.

Lemma individual_form_boxes_exclusive_witness :
  exists m,
    _map_individual_fields runtime_2026 "2026-01-15" elderly_record
      (VStr "A. Rep") = Ok m /\
    (length (ticked_in m risk_boxes) <= 1)%nat.
Proof.
  destruct (returns_ok
              (_map_individual_fields runtime_2026 "2026-01-15" elderly_record
                 (VStr "A. Rep")) eq_refl) as (m & E).
  exists m. split; [exact E|].
  exact (proj1 (proj2 (individual_form_boxes_exclusive _ _ _ _ _ E))).
Defined.

(** X24. The form and the report agree on the AML screening: when the
    validator returns a report and the record it leaves is mapped to the
    individual form, the report carries a red flag exactly when PEP Yes or
    HIO Yes is ticked.  Yes and No of a question are never both ticked, and
    both stay empty exactly when the record does not mention the
    question. *)
Theorem form_matches_aml_screening
    rt today (data data1 : gmap string value) (form_type : string) r
    dealing_rep m :
  validate rt data form_type = Ok (data1, r) ->
  _map_individual_fields rt today data1 dealing_rep = Ok m ->
  (red_flags r <> [] <->
   ticked m "PEP Yes" = true \/ ticked m "HIO Yes" = true) /\
  (ticked m "PEP Yes" = true -> ticked m "PEP No" = false) /\
  (ticked m "HIO Yes" = true -> ticked m "HIO No" = false) /\
  (ticked m "PEP Yes" = false /\ ticked m "PEP No" = false <->
   section_dict data "aml" !! "is_pep" = None) /\
  (ticked m "HIO Yes" = false /\ ticked m "HIO No" = false <->
   section_dict data "aml" !! "is_hio" = None).
Proof.
  intros V H.
  pose proof (validate_red_flags _ _ _ _ _ V) as R.
  pose proof (validate_keeps_other_keys _ _ _ _ _ "aml" V
                ltac:(discriminate)) as K.
  destruct (map_individual_boxes _ _ _ _ _ H)
    as (profile & aml & _ & SA & B). cbv zeta in B.
  destruct B as (_ & _ & _ & _ & _ & _ & _ & _ & _ & _ & _ & _ & _ & _ & _ &
                 PY & PN & HY & HN).
  assert (SA' : section_of data "aml" = VDict aml).
  { rewrite <- SA. symmetry. apply section_of_same, K. }
  rewrite (section_of_VDict _ _ _ SA').
  assert (TPY : ticked m "PEP Yes" = truthy (default (VBool false) (aml !! "is_pep")))
    by (unfold ticked; rewrite PY; reflexivity).
  assert (THY : ticked m "HIO Yes" = truthy (default (VBool false) (aml !! "is_hio")))
    by (unfold ticked; rewrite HY; reflexivity).
  rewrite TPY, THY, (ticked_box _ _ _ PN), (ticked_box _ _ _ HN).
  split.
  - rewrite R. unfold aml_red_flags, aml_flag. rewrite SA'.
    destruct (aml !! "is_pep") as [p|], (aml !! "is_hio") as [h|];
      cbn [from_option id];
      try destruct (truthy p); try destruct (truthy h); simpl;
      split; intros C; try tauto; try discriminate;
      try (destruct C; discriminate); try (exfalso; apply C; reflexivity).
  - destruct (aml !! "is_pep") as [p|], (aml !! "is_hio") as [h|];
      cbn [from_option id];
      try destruct (truthy p); try destruct (truthy h); simpl;
      repeat split; intros; try discriminate; try tauto;
      try (destruct H0; discriminate).
Qed.

Lemma form_matches_aml_screening_witness :
  exists m,
    _map_individual_fields runtime_2026 "2026-01-15"
      (data_of (validate runtime_2026 pep_record "individual"))
      (VStr "A. Rep") = Ok m /\
    (ticked m "PEP Yes" = true \/ ticked m "HIO Yes" = true).
Proof.
  destruct (returns_ok
              (_map_individual_fields runtime_2026 "2026-01-15"
                 (data_of (validate runtime_2026 pep_record "individual"))
                 (VStr "A. Rep")) eq_refl) as (m & H).
  exists m. split; [exact H|].
  pose proof (run_of (validate runtime_2026 pep_record "individual") eq_refl)
    as E.
  apply (proj1 (form_matches_aml_screening _ _ _ _ _ _ _ _ E H)).
  rewrite pep_record_report. discriminate.
Defined.

(** X25. The form does not depend on the validation: mapping the record as
    the validator leaves it gives the same result, field for field or the
    same exception, as mapping the record as it was extracted. *)
Theorem form_ignores_validation
    rt today (data data1 : gmap string value) (form_type : string) r
    dealing_rep :
  validate rt data form_type = Ok (data1, r) ->
  _map_individual_fields rt today data1 dealing_rep =
  _map_individual_fields rt today data dealing_rep.
Proof.
  intros V.
  assert (S : forall k, k <> "exemption_status" ->
                        section_of data1 k = section_of data k).
  { intros k N. apply section_of_same.
    exact (validate_keeps_other_keys _ _ _ _ _ k V N). }
  unfold _map_individual_fields.
  rewrite !(S "client_name"), !(S "address"), !(S "contact"), !(S "personal"),
    !(S "employment"), !(S "financials"), !(S "investment_profile"),
    !(S "asset_composition"), !(S "aml") by discriminate.
  reflexivity.
Qed.

Lemma form_ignores_validation_witness :
  _map_individual_fields runtime_2026 "2026-01-15"
    (data_of (validate runtime_2026 pep_record "individual")) (VStr "A. Rep") =
  _map_individual_fields runtime_2026 "2026-01-15" pep_record (VStr "A. Rep").
Proof.
  exact (form_ignores_validation _ _ _ _ _ _ _
           (run_of (validate runtime_2026 pep_record "individual") eq_refl)).
Defined.











